(** * rpi-google-calendar: event timeline and notification scheduler

    A shallow embedding of [services/calendar_service.py],
    [services/google_auth.py] (the part the calendar service calls),
    [services/notification_manager.py], [ui/notification_widget.py], the
    status kept by [ui/event_widget.py] and the refresh and status tick of
    [main_window.py], followed by the properties of the written
    specification that were checked against it and by further properties
    of the code.

    Conventions.
    - An aware [datetime] is the instant it denotes, in microseconds since
      the epoch ([Z]); Python compares and subtracts aware datetimes by
      instant.  [timedelta.total_seconds()] is a rational ([Q]): exact
      where the code compares it with whole seconds, rounded to binary64
      as Python rounds it where the code goes on computing with it (the
      minutes until a start, see [PyFloat]).
    - Every [datetime.now(...)] is one reading of a clock [nat -> Z]; the
      number of readings made so far is threaded through the monad [M].
    - Python exceptions are the [Raise] outcome of [M]; [try/except] is
      [try_except].  Mutations made before a raise are kept.
    - [print] calls are not modelled. *)

From Stdlib Require Import ZArith QArith Qround Qpower Lia Lqa.
From Stdlib Require Import String Ascii List Bool Permutation Sorted.
From stdpp Require Import gmap strings list sorting.

Local Open Scope string_scope.
Local Open Scope list_scope.
Local Open Scope Z_scope.

(** ** Python effects: state, clock readings, exceptions *)

Module Py.

(** The exception classes the modelled code can meet.  All of them derive
    from [Exception]; [TransportError] stands for the non-HTTP failures of
    a request (socket timeout, DNS failure, token refresh error). *)
Inductive exn : Type :=
| HttpError
| KeyError
| ValueError
| TransportError.

Inductive outcome (A : Type) : Type :=
| Return (a : A)
| Raise (e : exn).
Arguments Return {A} a.
Arguments Raise {A} e.

(** A computation over an object state [S]: it receives the state and the
    number of clock readings made so far. *)
Definition M (S A : Type) : Type := S -> nat -> outcome A * S * nat.

Definition ret {S A} (a : A) : M S A := fun s n => (Return a, s, n).

Definition bind {S A B} (m : M S A) (f : A -> M S B) : M S B :=
  fun s n =>
    match m s n with
    | (Return a, s', n') => f a s' n'
    | (Raise e, s', n') => (Raise e, s', n')
    end.

Definition raise {S A} (e : exn) : M S A := fun s n => (Raise e, s, n).

(** [try: m  except <class>: h] where [catches] decides the class. *)
Definition try_except {S A} (catches : exn -> bool) (m : M S A) (h : exn -> M S A) : M S A :=
  fun s n =>
    match m s n with
    | (Raise e, s', n') => if catches e then h e s' n' else (Raise e, s', n')
    | r => r
    end.

Definition get {S} : M S S := fun s n => (Return s, s, n).
Definition put {S} (s : S) : M S unit := fun _ n => (Return tt, s, n).
Definition modify {S} (f : S -> S) : M S unit := fun s n => (Return tt, f s, n).

(** Run [m] on a fresh local variable initialised to [init]; the local is
    returned next to the result and dropped if [m] raises. *)
Definition with_local {S L A} (init : L) (m : M L A) : M S (A * L) :=
  fun s n =>
    match m init n with
    | (Return a, l, n') => (Return (a, l), s, n')
    | (Raise e, _, n') => (Raise e, s, n')
    end.

(** Run a method of a sub-object held in a field of the state. *)
Definition zoom {S T A} (proj : S -> T) (upd : T -> S -> S) (m : M T A) : M S A :=
  fun s n =>
    match m (proj s) n with
    | (r, t, n') => (r, upd t s, n')
    end.

(** [except Exception] and [except HttpError]. *)
Definition Exception (e : exn) : bool := true.
Definition is_HttpError (e : exn) : bool :=
  match e with HttpError => true | _ => false end.

(** [d[key]] on a dict that may lack the key. *)
Definition subscript {S A} (field : option A) : M S A :=
  match field with
  | Some a => ret a
  | None => raise KeyError
  end.

Declare Scope py_scope.
Delimit Scope py_scope with py.
Notation "x <- m ;; k" := (bind m (fun x => k))
  (at level 20, m at level 99, k at level 200, only parsing) : py_scope.
Notation "' pat <- m ;; k" := (bind m (fun x => match x with pat => k end))
  (at level 20, pat pattern, m at level 99, k at level 200, only parsing) : py_scope.
Notation "m ;; k" := (bind m (fun _ => k))
  (at level 100, k at level 200, only parsing, right associativity) : py_scope.

(** [for x in xs: body x] *)
Fixpoint for_each {S X} (xs : list X) (body : X -> M S unit) : M S unit :=
  match xs with
  | [] => ret tt
  | x :: rest => bind (body x) (fun _ => for_each rest body)
  end.

(** [c in s] for a character and a string; [s.replace('Z', '+00:00')]. *)
Fixpoint contains (c : ascii) (s : string) : bool :=
  match s with
  | EmptyString => false
  | String a rest => Ascii.eqb a c || contains c rest
  end.

Fixpoint replace_Z (s : string) : string :=
  match s with
  | EmptyString => EmptyString
  | String a rest =>
      if Ascii.eqb a "Z" then "+00:00" +:+ replace_Z rest
      else String a (replace_Z rest)
  end.

(** [list.sort(key=...)] is a stable sort: an element is placed before the
    first later element whose key is not smaller. *)
Section StableSort.
Context {A : Type} (key : A -> Z).

Fixpoint insert_by (x : A) (l : list A) : list A :=
  match l with
  | [] => [x]
  | y :: rest => if key x <=? key y then x :: y :: rest else y :: insert_by x rest
  end.

Fixpoint sort_by (l : list A) : list A :=
  match l with
  | [] => []
  | x :: rest => insert_by x (sort_by rest)
  end.
End StableSort.

End Py.

Import Py.
Local Open Scope py_scope.

(** ** config/settings.py *)

Module settings.
Definition MAX_EVENTS_DISPLAY : nat := 5.
Definition WARNING_MINUTES : Z := 10.
Definition NOTIFICATION_TIMEOUT : Z := 30.
End settings.

(** ** The environment: the clock and the datetime library *)

(** What [datetime.fromisoformat] returns: a naive wall-clock value or an
    aware instant. *)
Inductive Parsed : Type :=
| Naive (wall : Z)
| Aware (instant : Z).

Record Env : Type := {
  (** the n-th reading of [datetime.now(self.timezone)] *)
  clock : nat -> Z;
  (** [datetime.fromisoformat]; [None] when it raises [ValueError] *)
  fromisoformat : string -> option Parsed;
  (** [datetime.strptime(s, '%Y-%m-%d')]; [None] when it raises *)
  strptime_date : string -> option Z;
  (** [self.timezone.localize]: the instant of a wall-clock value *)
  localize : Z -> Z;
  (** [dt.strftime("%I:%M %p").lstrip('0')] *)
  strftime_time : Z -> string;
  (** [dt.date()], as a day number *)
  date_of : Z -> Z
}.

Definition microseconds_per_second : Z := 1000000.

(** [timedelta(hours=1)] *)
Definition one_hour : Z := 3600 * microseconds_per_second.

(** [(a - b).total_seconds()] *)
Definition total_seconds (delta : Z) : Q := delta # 1000000.

(** ** services/calendar_service.py and the gateway it calls *)

Module calendar_service.

Inductive Status : Type := upcoming | current | past.

Definition Status_eqb (a b : Status) : bool :=
  match a, b with
  | upcoming, upcoming | current, current | past, past => true
  | _, _ => false
  end.

(** A processed event (the dict built by [_process_event]). *)
Record Event : Type := {
  ev_id : string;
  ev_title : string;
  ev_description : string;
  ev_location : string;
  start_datetime : Z;
  end_datetime : Z;
  is_all_day : bool;
  calendar_name : string;
  calendar_color : string;
  ev_status : Status;
  formatted_time : string
}.

(** [event['status'] = st] *)
Definition set_status (st : Status) (e : Event) : Event :=
  {| ev_id := ev_id e; ev_title := ev_title e; ev_description := ev_description e;
     ev_location := ev_location e; start_datetime := start_datetime e;
     end_datetime := end_datetime e; is_all_day := is_all_day e;
     calendar_name := calendar_name e; calendar_color := calendar_color e;
     ev_status := st; formatted_time := formatted_time e |}.

(** The [start] / [end] object of a raw record. *)
Record TimeSpec : Type := {
  dateTime : option string;
  date : option string
}.

(** A raw record of the Calendar API; an absent key is [None]. *)
Record RawEvent : Type := {
  raw_id : option string;
  raw_summary : option string;
  raw_description : option string;
  raw_location : option string;
  raw_start : option TimeSpec;
  raw_end : option TimeSpec
}.

(** The simplified calendar info built by [get_calendar_list]. *)
Record Calendar : Type := {
  cal_id : string;
  cal_summary : string;
  cal_primary : bool;
  backgroundColor : string
}.

(** The calendar source as one refresh sees it. *)
Record Gateway : Type := {
  (** [self.auth.get_service()] yields a service object *)
  get_service : bool;
  (** [service.calendarList().list().execute()], simplified *)
  calendarList_list : outcome (list Calendar);
  (** [service.events().list(calendarId=...).execute().get('items', [])] *)
  events_list : string -> outcome (list RawEvent)
}.

(** [GoogleCalendarAuth.get_calendar_list]: any error gives the empty list. *)
Definition get_calendar_list (gw : Gateway) : list Calendar :=
  if get_service gw then
    match calendarList_list gw with
    | Return calendars => calendars
    | Raise _ => []
    end
  else [].

Record CalendarService : Type := {
  events : list Event;
  last_update : option Z
}.

(** The notification type, ['start'] or ['warning']. *)
Inductive Kind : Type := start | warning.

Definition Kind_eqb (a b : Kind) : bool :=
  match a, b with
  | start, start | warning, warning => true
  | _, _ => false
  end.

Definition Kind_str (k : Kind) : string :=
  match k with
  | start => "start"
  | warning => "warning"
  end.

(** The chained comparison [lo <= x <= hi]. *)
Definition window (lo x hi : Q) : bool := Qle_bool lo x && Qle_bool x hi.

Section Methods.
Variable env : Env.

Definition datetime_now {St} : M St Z := fun s n => (Return (clock env n), s, S n).

(** [datetime.fromisoformat(s.replace('Z', '+00:00'))] followed by
    [localize] (naive) or [astimezone] (aware, same instant). *)
Definition parse_datetime {St} (s : string) : M St Z :=
  match fromisoformat env (replace_Z s) with
  | None => raise ValueError
  | Some (Naive wall) => ret (localize env wall)
  | Some (Aware instant) => ret instant
  end.

(** [self.timezone.localize(datetime.strptime(s, '%Y-%m-%d'))] *)
Definition parse_date {St} (s : string) : M St Z :=
  match strptime_date env s with
  | None => raise ValueError
  | Some wall => ret (localize env wall)
  end.

(** [obj.get('dateTime', obj.get('date'))] *)
Definition get_dateTime_or_date (obj : TimeSpec) : option string :=
  match dateTime obj with
  | Some s => Some s
  | None => date obj
  end.

(** Truthiness of an optional string. *)
Definition truthy (s : option string) : bool :=
  match s with
  | None => false
  | Some EmptyString => false
  | Some _ => true
  end.

Definition _get_event_status {St} (start_dt end_dt : Z) : M St Status :=
  now <- datetime_now ;;
  if now <? start_dt then ret upcoming
  else if (start_dt <=? now) && (now <=? end_dt) then ret current
  else ret past.

Definition _format_event_time (start_dt end_dt : Z) (all_day : bool) : string :=
  if all_day then "All Day"
  else
    let start_time := strftime_time env start_dt in
    let end_time := strftime_time env end_dt in
    if date_of env start_dt =? date_of env end_dt
    then start_time +:+ " - " +:+ end_time
    else start_time.

Definition _process_event {St} (event : RawEvent) (calendar : Calendar) : M St (option Event) :=
  try_except Exception
    (start_obj <- subscript (raw_start event) ;;
     let start := get_dateTime_or_date start_obj in
     if negb (truthy start) then ret None
     else
       let start := default EmptyString start in
       '(start_dt, all_day) <-
          (if contains "T" start
           then (dt <- parse_datetime start ;; ret (dt, false))
           else (dt <- parse_date start ;; ret (dt, true))) ;;
       end_obj <- subscript (raw_end event) ;;
       let end_ := get_dateTime_or_date end_obj in
       end_dt <-
          (if truthy end_ && contains "T" (default EmptyString end_)
           then parse_datetime (default EmptyString end_)
           else ret (start_dt + one_hour)) ;;
       id <- subscript (raw_id event) ;;
       status <- _get_event_status start_dt end_dt ;;
       ret (Some {| ev_id := id;
                    ev_title := default "No Title" (raw_summary event);
                    ev_description := default EmptyString (raw_description event);
                    ev_location := default EmptyString (raw_location event);
                    start_datetime := start_dt;
                    end_datetime := end_dt;
                    is_all_day := all_day;
                    calendar_name := cal_summary calendar;
                    calendar_color := backgroundColor calendar;
                    ev_status := status;
                    formatted_time := _format_event_time start_dt end_dt all_day |}))
    (fun _ => ret None).

(** The body of [for event in events]; the local list [all_events] is
    the state. *)
Definition process_body (calendar : Calendar) (event : RawEvent) : M (list Event) unit :=
  processed_event <- _process_event event calendar ;;
  match processed_event with
  | Some processed => modify (fun all_events => all_events ++ [processed])
  | None => ret tt
  end.

(** The body of [for calendar in calendars]. *)
Definition fetch_calendar (gw : Gateway) (calendar : Calendar) : M (list Event) unit :=
  try_except is_HttpError
    (events <- (fun s n => (events_list gw (cal_id calendar), s, n)) ;;
     for_each events (process_body calendar))
    (fun _ => ret tt).

Definition get_today_events (gw : Gateway) : M CalendarService (list Event) :=
  try_except Exception
    (if negb (get_service gw) then ret []
     else
       _ <- datetime_now ;;
       let calendars := get_calendar_list gw in
       '(_, all_events) <- with_local [] (for_each calendars (fetch_calendar gw)) ;;
       let all_events := sort_by start_datetime all_events in
       modify (fun self => {| events := take settings.MAX_EVENTS_DISPLAY all_events;
                              last_update := last_update self |}) ;;
       now <- datetime_now ;;
       modify (fun self => {| events := events self; last_update := Some now |}) ;;
       self <- get ;;
       ret (events self))
    (fun _ => ret []).

Fixpoint notifications_loop (now : Z) (warning_minutes : Z) (events : list Event)
  : list (Event * Kind) :=
  match events with
  | [] => []
  | event :: rest =>
      if Status_eqb (ev_status event) past then
        notifications_loop now warning_minutes rest
      else
        let time_to_start := total_seconds (start_datetime event - now) in
        if window 0 time_to_start 60 then
          (event, start) :: notifications_loop now warning_minutes rest
        else if window (inject_Z (warning_minutes * 60 - 60)) time_to_start
                       (inject_Z (warning_minutes * 60 + 60)) then
          (event, warning) :: notifications_loop now warning_minutes rest
        else notifications_loop now warning_minutes rest
  end.

Definition get_events_needing_notification (warning_minutes : Z)
  : M CalendarService (list (Event * Kind)) :=
  now <- datetime_now ;;
  self <- get ;;
  ret (notifications_loop now warning_minutes (events self)).

Definition refresh_events (gw : Gateway) : M CalendarService bool :=
  try_except Exception
    (get_today_events gw ;; ret true)
    (fun _ => ret false).

End Methods.

End calendar_service.

(** ** ui/notification_widget.py *)

Module notification_widget.
Import calendar_service.

(** The widget, with the part of its Qt state that [is_showing] reads:
    visibility, the opacity of the effect driven by the two animations,
    and whether the animations and the single-shot timer are running. *)
Record NotificationWidget : Type := {
  current_event : option Event;
  notification_type : option Kind;
  visible : bool;
  opacity : Q;
  fade_in_running : bool;
  fade_out_running : bool;
  auto_dismiss_timer : bool
}.

(** A pending or active alert (the dict built by [show_notification]). *)
Record Notification : Type := {
  n_event : Event;
  n_type : Kind;
  n_timestamp : Z
}.

Record NotificationManager : Type := {
  notification_widget : NotificationWidget;
  notification_queue : list Notification;
  current_notification : option Notification
}.

Definition set_widget (w : NotificationWidget) (self : NotificationManager) : NotificationManager :=
  {| notification_widget := w;
     notification_queue := notification_queue self;
     current_notification := current_notification self |}.

Definition set_queue (q : list Notification) (self : NotificationManager) : NotificationManager :=
  {| notification_widget := notification_widget self;
     notification_queue := q;
     current_notification := current_notification self |}.

Definition set_current (c : option Notification) (self : NotificationManager) : NotificationManager :=
  {| notification_widget := notification_widget self;
     notification_queue := notification_queue self;
     current_notification := c |}.

(** The state after [NotificationManager.__init__]: the widget is hidden,
    its timer and animations are stopped (a fresh [QGraphicsOpacityEffect]
    has opacity 0.7). *)
Definition initial_widget : NotificationWidget :=
  {| current_event := None; notification_type := None; visible := false;
     opacity := 7 # 10; fade_in_running := false; fade_out_running := false;
     auto_dismiss_timer := false |}.

Definition initial : NotificationManager :=
  {| notification_widget := initial_widget;
     notification_queue := [];
     current_notification := None |}.

(** [NotificationWidget.is_showing] *)
Definition is_showing (w : NotificationWidget) : bool :=
  visible w && negb (Qle_bool (opacity w) 0).

(** [fade_in_animation.start()] and [fade_out_animation.start()]: a
    stopped animation is set running at its start value (0.0, resp. 1.0,
    from [setup_animations]); a running one is left alone. *)
Definition fade_in_start (w : NotificationWidget) : NotificationWidget :=
  if fade_in_running w then w
  else {| current_event := current_event w; notification_type := notification_type w;
          visible := visible w; opacity := 0; fade_in_running := true;
          fade_out_running := fade_out_running w;
          auto_dismiss_timer := auto_dismiss_timer w |}.

Definition fade_out_start (w : NotificationWidget) : NotificationWidget :=
  if fade_out_running w then w
  else {| current_event := current_event w; notification_type := notification_type w;
          visible := visible w; opacity := 1; fade_in_running := fade_in_running w;
          fade_out_running := true;
          auto_dismiss_timer := auto_dismiss_timer w |}.

Definition set_timer (b : bool) (w : NotificationWidget) : NotificationWidget :=
  {| current_event := current_event w; notification_type := notification_type w;
     visible := visible w; opacity := opacity w; fade_in_running := fade_in_running w;
     fade_out_running := fade_out_running w; auto_dismiss_timer := b |}.

Definition set_visible (b : bool) (w : NotificationWidget) : NotificationWidget :=
  {| current_event := current_event w; notification_type := notification_type w;
     visible := b; opacity := opacity w; fade_in_running := fade_in_running w;
     fade_out_running := fade_out_running w;
     auto_dismiss_timer := auto_dismiss_timer w |}.

Definition set_content (e : Event) (k : Kind) (w : NotificationWidget) : NotificationWidget :=
  {| current_event := Some e; notification_type := Some k;
     visible := visible w; opacity := opacity w; fade_in_running := fade_in_running w;
     fade_out_running := fade_out_running w;
     auto_dismiss_timer := auto_dismiss_timer w |}.

(** What the Qt event loop does to the widget between callbacks. *)
Inductive QtEvent : Type :=
| AnimationFrame (value : Q)   (* a running animation advances *)
| FadeInFinished
| FadeOutFinished              (* [finished] is connected to [hide] *)
| AutoDismissTimeout.          (* [auto_dismiss_timer.timeout] *)

Section Methods.
Variable env : Env.

(** [NotificationManager.on_notification_dismissed], the slot connected
    to the widget's [dismissed] signal. *)
Definition on_notification_dismissed : M NotificationManager unit :=
  modify (set_current None).

Definition on_widget (f : NotificationWidget -> NotificationWidget) : M NotificationManager unit :=
  modify (fun self => set_widget (f (notification_widget self)) self).

(** [NotificationWidget.show_notification]; [update_content] reads the
    clock for a warning. *)
Definition widget_show_notification (event_data : Event) (type : Kind) : M NotificationManager unit :=
  on_widget (set_content event_data type) ;;
  match type with
  | warning => (_ <- datetime_now env ;; ret tt)
  | start => ret tt
  end ;;
  on_widget (set_visible true) ;;
  on_widget fade_in_start ;;
  on_widget (set_timer true).

(** [NotificationWidget.dismiss] *)
Definition widget_dismiss : M NotificationManager unit :=
  on_widget (set_timer false) ;;
  on_widget fade_out_start ;;
  on_notification_dismissed.

(** [NotificationWidget.auto_dismiss] *)
Definition widget_auto_dismiss : M NotificationManager unit :=
  on_widget fade_out_start ;;
  on_notification_dismissed.

(** [n['event']['id'] == event_data['id'] and n['type'] == notification_type] *)
Definition same_identity (event_data : Event) (type : Kind) (n : Notification) : bool :=
  String.eqb (ev_id (n_event n)) (ev_id event_data) && Kind_eqb (n_type n) type.

Definition show_notification (event_data : Event) (type : Kind) : M NotificationManager unit :=
  now <- datetime_now env ;;
  let notification := {| n_event := event_data; n_type := type; n_timestamp := now |} in
  self <- get ;;
  if is_showing (notification_widget self) then
    if negb (existsb (same_identity event_data type) (notification_queue self))
    then modify (fun self => set_queue (notification_queue self ++ [notification]) self)
    else ret tt
  else
    modify (set_current (Some notification)) ;;
    widget_show_notification event_data type.

Definition process_queue : M NotificationManager unit :=
  self <- get ;;
  if negb (is_showing (notification_widget self)) then
    match notification_queue self with
    | next_notification :: rest =>
        modify (set_queue rest) ;;
        modify (set_current (Some next_notification)) ;;
        widget_show_notification (n_event next_notification) (n_type next_notification)
    | [] => ret tt
    end
  else ret tt.

Definition dismiss_current : M NotificationManager unit :=
  self <- get ;;
  if is_showing (notification_widget self) then widget_dismiss else ret tt.

Definition clear_queue : M NotificationManager unit :=
  modify (set_queue []).

(** The event loop acting on the widget. *)
Definition qt_event (ev : QtEvent) : M NotificationManager unit :=
  self <- get ;;
  let w := notification_widget self in
  match ev with
  | AnimationFrame value =>
      if fade_in_running w || fade_out_running w then
        on_widget (fun w =>
          {| current_event := current_event w; notification_type := notification_type w;
             visible := visible w; opacity := value;
             fade_in_running := fade_in_running w;
             fade_out_running := fade_out_running w;
             auto_dismiss_timer := auto_dismiss_timer w |})
      else ret tt
  | FadeInFinished =>
      if fade_in_running w then
        on_widget (fun w =>
          {| current_event := current_event w; notification_type := notification_type w;
             visible := visible w; opacity := 1;
             fade_in_running := false;
             fade_out_running := fade_out_running w;
             auto_dismiss_timer := auto_dismiss_timer w |})
      else ret tt
  | FadeOutFinished =>
      if fade_out_running w then
        on_widget (fun w =>
          {| current_event := current_event w; notification_type := notification_type w;
             visible := false; opacity := 0;
             fade_in_running := fade_in_running w;
             fade_out_running := false;
             auto_dismiss_timer := auto_dismiss_timer w |})
      else ret tt
  | AutoDismissTimeout =>
      if auto_dismiss_timer w then
        on_widget (set_timer false) ;; widget_auto_dismiss
      else ret tt
  end.

(** Everything that can happen to the scheduler: the calls of its
    methods and slots, a user dismissal on the widget, and the event
    loop. *)
Inductive Call : Type :=
| Show (event_data : Event) (type : Kind)
| ProcessQueue
| DismissCurrent
| ClearQueue
| UserDismiss
| Qt (ev : QtEvent).

Definition call (c : Call) : M NotificationManager unit :=
  match c with
  | Show event_data type => show_notification event_data type
  | ProcessQueue => process_queue
  | DismissCurrent => dismiss_current
  | ClearQueue => clear_queue
  | UserDismiss => widget_dismiss
  | Qt ev => qt_event ev
  end.

(** The state after a call, with the clock position. *)
Definition after (c : Call) (st : NotificationManager * nat) : NotificationManager * nat :=
  match call c (fst st) (snd st) with
  | (_, self, n) => (self, n)
  end.

Inductive reachable : NotificationManager * nat -> Prop :=
| reachable_initial n : reachable (initial, n)
| reachable_call c st : reachable st -> reachable (after c st).

End Methods.

End notification_widget.

(** ** services/notification_manager.py, wired as in
       [CalendarDisplayWindow.setup_connections] *)

Module notification_manager.
Import calendar_service.

Record NotificationManager : Type := {
  shown_notifications : gset string;
  current_notification : option notification_widget.Notification;
  notification_start_time : option Z;
  dismiss_timer : bool
}.

(** The two signals of the manager. *)
Inductive Signal : Type :=
| show_notification (event : Event) (type : Kind)
| hide_notification.

(** The objects created by [CalendarDisplayWindow.__init__].  [emitted]
    records the emissions of the manager's signals, oldest first; it is
    not read by the program. *)
Record App : Type := {
  calendar_service : CalendarService;
  notification_manager : NotificationManager;
  ui_notification_manager : notification_widget.NotificationManager;
  emitted : list Signal
}.

Definition set_calendar_service (c : CalendarService) (app : App) : App :=
  {| calendar_service := c; notification_manager := notification_manager app;
     ui_notification_manager := ui_notification_manager app; emitted := emitted app |}.

Definition set_self (m : NotificationManager) (app : App) : App :=
  {| calendar_service := calendar_service app; notification_manager := m;
     ui_notification_manager := ui_notification_manager app; emitted := emitted app |}.

Definition set_ui (u : notification_widget.NotificationManager) (app : App) : App :=
  {| calendar_service := calendar_service app;
     notification_manager := notification_manager app;
     ui_notification_manager := u; emitted := emitted app |}.

Definition log (s : Signal) (app : App) : App :=
  {| calendar_service := calendar_service app;
     notification_manager := notification_manager app;
     ui_notification_manager := ui_notification_manager app;
     emitted := emitted app ++ [s] |}.

Definition set_shown (s : gset string) (self : NotificationManager) : NotificationManager :=
  {| shown_notifications := s; current_notification := current_notification self;
     notification_start_time := notification_start_time self;
     dismiss_timer := dismiss_timer self |}.

Definition set_current (c : option notification_widget.Notification) (self : NotificationManager)
  : NotificationManager :=
  {| shown_notifications := shown_notifications self; current_notification := c;
     notification_start_time := notification_start_time self;
     dismiss_timer := dismiss_timer self |}.

Definition set_start_time (t : option Z) (self : NotificationManager) : NotificationManager :=
  {| shown_notifications := shown_notifications self;
     current_notification := current_notification self;
     notification_start_time := t; dismiss_timer := dismiss_timer self |}.

Definition set_dismiss_timer (b : bool) (self : NotificationManager) : NotificationManager :=
  {| shown_notifications := shown_notifications self;
     current_notification := current_notification self;
     notification_start_time := notification_start_time self; dismiss_timer := b |}.

Definition initial : NotificationManager :=
  {| shown_notifications := ∅; current_notification := None;
     notification_start_time := None; dismiss_timer := false |}.

(** [f"{event['id']}_{notification_type}"] *)
Definition notification_key (event : Event) (type : Kind) : string :=
  ev_id event +:+ "_" +:+ Kind_str type.

Section Methods.
Variable env : Env.

Definition on_self (f : NotificationManager -> NotificationManager) : M App unit :=
  modify (fun app => set_self (f (notification_manager app)) app).

(** [self.show_notification.emit(event, type)]: the signal is connected
    to [ui_notification_manager.show_notification]. *)
Definition show_notification_emit (event : Event) (type : Kind) : M App unit :=
  modify (log (show_notification event type)) ;;
  zoom ui_notification_manager set_ui (notification_widget.show_notification env event type).

(** [self.hide_notification.emit()]: the signal is connected to
    [ui_notification_manager.dismiss_current]. *)
Definition hide_notification_emit : M App unit :=
  modify (log hide_notification) ;;
  zoom ui_notification_manager set_ui notification_widget.dismiss_current.

Definition show_event_notification (event : Event) (type : Kind) : M App unit :=
  try_except Exception
    (app <- get ;;
     match current_notification (notification_manager app) with
     | Some _ => hide_notification_emit
     | None => ret tt
     end ;;
     timestamp <- datetime_now env ;;
     on_self (set_current (Some {| notification_widget.n_event := event;
                                   notification_widget.n_type := type;
                                   notification_widget.n_timestamp := timestamp |})) ;;
     now <- datetime_now env ;;
     on_self (set_start_time (Some now)) ;;
     show_notification_emit event type ;;
     on_self (set_dismiss_timer true))
    (fun _ => ret tt).

Definition dismiss_notification : M App unit :=
  app <- get ;;
  match current_notification (notification_manager app) with
  | Some _ =>
      hide_notification_emit ;;
      on_self (set_current None) ;;
      on_self (set_start_time None) ;;
      on_self (set_dismiss_timer false)
  | None => ret tt
  end.

Definition auto_dismiss_notification : M App unit :=
  app <- get ;;
  match current_notification (notification_manager app) with
  | Some _ => dismiss_notification
  | None => ret tt
  end.

Definition _cleanup_old_notifications : M App unit :=
  try_except Exception
    (_ <- datetime_now env ;;
     app <- get ;;
     if (100 <? size (shown_notifications (notification_manager app)))%nat
     then on_self (set_shown ∅)
     else ret tt)
    (fun _ => ret tt).

(** The body of the loop of [check_notifications]. *)
Definition check_notification (notification : Event * Kind) : M App unit :=
  let '(event, type) := notification in
  let key := notification_key event type in
  app <- get ;;
  if bool_decide (key ∈ shown_notifications (notification_manager app)) then ret tt
  else
    show_event_notification event type ;;
    on_self (fun self => set_shown ({[ key ]} ∪ shown_notifications self) self) ;;
    _cleanup_old_notifications.

Definition check_notifications : M App unit :=
  try_except Exception
    (notifications <- zoom calendar_service set_calendar_service
                        (get_events_needing_notification env settings.WARNING_MINUTES) ;;
     for_each notifications check_notification)
    (fun _ => ret tt).

Definition reset_notifications : M App unit :=
  on_self (set_shown ∅) ;;
  dismiss_notification.

(** A call on the scheduler object of the application (its own timers,
    the event loop, a user dismissal). *)
Definition scheduler_call (c : notification_widget.Call) : M App unit :=
  zoom ui_notification_manager set_ui (notification_widget.call env c).

End Methods.

End notification_manager.

(** ** main_window.py: the status tick *)

Module main_window.
Import calendar_service.

Section Methods.
Variable env : Env.

(** The loop of [update_event_statuses]: every event dict is updated in
    place; the flag is [marker_needs_update]. *)
Fixpoint update_loop {St} (events : list Event) (marker_needs_update : bool)
  : M St (list Event * bool) :=
  match events with
  | [] => ret ([], marker_needs_update)
  | event :: rest =>
      now <- datetime_now env ;;
      let start_time := start_datetime event in
      let end_time := end_datetime event in
      let old_status := ev_status event in
      let status :=
        if now <? start_time then upcoming
        else if (start_time <=? now) && (now <=? end_time) then current
        else past in
      let marker_needs_update :=
        if Status_eqb old_status current && Status_eqb status past then true
        else marker_needs_update in
      '(rest', marker) <- update_loop rest marker_needs_update ;;
      ret (set_status status event :: rest', marker)
  end.

(** [update_event_statuses] on [self.current_events]; the result tells
    whether [update_time_marker_position] was called. *)
Definition update_event_statuses : M (list Event) bool :=
  current_events <- get ;;
  match current_events with
  | [] => ret false
  | _ =>
      '(updated, marker) <- update_loop current_events false ;;
      put updated ;;
      ret marker
  end.

End Methods.

End main_window.

(** ** Python floats

    A Python [float] is an IEEE 754 binary64 number, here the rational it
    denotes.  A division returns the float nearest to the exact quotient,
    a tie going to the even significand; [int / int] rounds the exact
    quotient of the two integers once.  The exponent range of binary64 is
    not modelled: the quotients computed from the difference of two
    datetimes lie far inside it. *)

Module PyFloat.

(** [floor (log2 q)] for [0 < q]. *)
Definition binade (q : Q) : Z :=
  let l := Z.log2 (Qnum q) - Z.log2 (Z.pos (Qden q)) in
  if Qle_bool (2 ^ l) q then l else l - 1.

(** The integer nearest to [q]; halfway between two integers, the even
    one. *)
Definition round_half_even (q : Q) : Z :=
  let f := Qfloor q in
  match (q - inject_Z f ?= 1 # 2)%Q with
  | Lt => f
  | Eq => if Z.even f then f else f + 1
  | Gt => f + 1
  end.

(** The number with a significand of 53 bits nearest to [0 < q]: [q] is
    scaled into [[2^52, 2^53)], rounded to an integer and scaled back. *)
Definition nearest (q : Q) : Q :=
  let e := binade q - 52 in
  (inject_Z (round_half_even (q / 2 ^ e)) * 2 ^ e)%Q.

(** The float nearest to [q]. *)
Definition binary64 (q : Q) : Q :=
  match (q ?= 0)%Q with
  | Eq => 0%Q
  | Gt => nearest q
  | Lt => (- nearest (- q))%Q
  end.

(** [x / y] *)
Definition truediv (x y : Q) : Q := binary64 (x / y).

(** [timedelta.total_seconds()]: the microseconds of the timedelta
    divided by [10**6]. *)
Definition total_seconds (time_diff : Z) : Q :=
  truediv (inject_Z time_diff) (inject_Z 1000000).

(** [int(x)] for a float: truncation toward zero. *)
Definition int (x : Q) : Z := Z.quot (Qnum x) (Z.pos (Qden x)).

End PyFloat.

(** ** services/calendar_service.py: the queries on the timeline *)

Module calendar_queries.
Import calendar_service.

(** [for event in events: if test(event): return event] and, after the
    loop, [return None]. *)
Fixpoint first_event (test : Event -> bool) (events : list Event) : option Event :=
  match events with
  | [] => None
  | event :: rest => if test event then Some event else first_event test rest
  end.

Section Methods.
Variable env : Env.

Definition get_current_event : M CalendarService (option Event) :=
  now <- datetime_now env ;;
  self <- get ;;
  ret (first_event
         (fun event => (start_datetime event <=? now) && (now <=? end_datetime event))
         (events self)).

Definition get_next_event : M CalendarService (option Event) :=
  now <- datetime_now env ;;
  self <- get ;;
  ret (first_event (fun event => now <? start_datetime event) (events self)).

Definition get_time_until_next_event : M CalendarService (option Z) :=
  next_event <- get_next_event ;;
  match next_event with
  | None => ret None
  | Some next_event =>
      now <- datetime_now env ;;
      let time_diff := start_datetime next_event - now in
      ret (Some (PyFloat.int (PyFloat.truediv (PyFloat.total_seconds time_diff) 60)))
  end.

End Methods.

End calendar_queries.

(** ** ui/event_widget.py: the status kept by one event widget *)

Module event_widget.
Import calendar_service.

Section Methods.
Variable env : Env.

(** The state is [self.event_data]. *)
Definition get_current_status : M Event Status :=
  now <- datetime_now env ;;
  event_data <- get ;;
  let start_time := start_datetime event_data in
  let end_time := end_datetime event_data in
  if now <? start_time then ret upcoming
  else if (start_time <=? now) && (now <=? end_time) then ret current
  else ret past.

Definition update_status_indicator : M Event unit :=
  status <- get_current_status ;;
  modify (set_status status).

Definition update_status : M Event unit :=
  event_data <- get ;;
  let old_status := ev_status event_data in
  new_status <- get_current_status ;;
  if negb (Status_eqb old_status new_status) then
    modify (set_status new_status) ;;
    update_status_indicator
  else ret tt.

Definition get_time_until_start : M Event Z :=
  now <- datetime_now env ;;
  event_data <- get ;;
  let time_diff := start_datetime event_data - now in
  ret (PyFloat.int (PyFloat.truediv (PyFloat.total_seconds time_diff) 60)).

End Methods.

End event_widget.

(** ** main_window.py: the refresh of the window *)

Module window_refresh.
Import calendar_service.

(** The part of [CalendarDisplayWindow] the refresh and the status tick
    act on.  After a refresh that returned the stored timeline,
    [current_events] is that very list. *)
Record Window : Type := {
  calendar_service : CalendarService;
  current_events : list Event;
  last_refresh : option Z
}.

Definition set_calendar_service (c : CalendarService) (self : Window) : Window :=
  {| calendar_service := c; current_events := current_events self;
     last_refresh := last_refresh self |}.

Definition set_current_events (l : list Event) (self : Window) : Window :=
  {| calendar_service := calendar_service self; current_events := l;
     last_refresh := last_refresh self |}.

Definition set_last_refresh (t : option Z) (self : Window) : Window :=
  {| calendar_service := calendar_service self; current_events := current_events self;
     last_refresh := t |}.

Section Methods.
Variable env : Env.

(** [refresh_calendar_data]; the status messages of the header and the
    [events_updated] signal act on widgets only. *)
Definition refresh_calendar_data (gw : Gateway) : M Window unit :=
  try_except Exception
    (events <- zoom calendar_service set_calendar_service (get_today_events env gw) ;;
     modify (set_current_events events) ;;
     now <- datetime_now env ;;
     modify (set_last_refresh (Some now)))
    (fun _ => ret tt).

(** The status tick, on the list held by the window. *)
Definition update_event_statuses : M Window bool :=
  zoom current_events set_current_events (main_window.update_event_statuses env).

End Methods.

End window_refresh.

(** ** A concrete environment for the examples

    A clock and a small datetime library for a UTC display zone: ISO
    strings of the shape [YYYY-MM-DDTHH:MM:SS], optionally followed by
    [+00:00], and dates [YYYY-MM-DD]. *)

Module Sample.
Import calendar_service.

Definition digit (c : ascii) : option Z :=
  let n := Z.of_nat (nat_of_ascii c) in
  if (48 <=? n) && (n <=? 57) then Some (n - 48) else None.

Fixpoint number (k : nat) (acc : Z) (s : string) : option (Z * string) :=
  match k with
  | O => Some (acc, s)
  | S k' =>
      match s with
      | String c rest =>
          match digit c with
          | Some d => number k' (acc * 10 + d) rest
          | None => None
          end
      | EmptyString => None
      end
  end.

Definition expect (c : ascii) (s : string) : option string :=
  match s with
  | String a rest => if Ascii.eqb a c then Some rest else None
  | EmptyString => None
  end.

(** Days between 1970-01-01 and the given civil date. *)
Definition days_from_civil (y m d : Z) : Z :=
  let y := if m <=? 2 then y - 1 else y in
  let era := y / 400 in
  let yoe := y - era * 400 in
  let doy := (153 * (if 2 <? m then m - 3 else m + 9) + 2) / 5 + d - 1 in
  let doe := yoe * 365 + yoe / 4 - yoe / 100 + doy in
  era * 146097 + doe - 719468.

Definition parse_ymd (s : string) : option (Z * string) :=
  '(y, s) ← number 4 0 s;
  s ← expect "-" s;
  '(m, s) ← number 2 0 s;
  s ← expect "-" s;
  '(d, s) ← number 2 0 s;
  if (1 <=? m) && (m <=? 12) && (1 <=? d) && (d <=? 31)
  then Some (days_from_civil y m d * 86400, s) else None.

Definition parse_hms (s : string) : option (Z * string) :=
  '(h, s) ← number 2 0 s;
  s ← expect ":" s;
  '(mi, s) ← number 2 0 s;
  s ← expect ":" s;
  '(sec, s) ← number 2 0 s;
  if (h <=? 23) && (mi <=? 59) && (sec <=? 59)
  then Some (h * 3600 + mi * 60 + sec, s) else None.

Definition sample_fromisoformat (s : string) : option Parsed :=
  '(day, s) ← parse_ymd s;
  s ← expect "T" s;
  '(secs, s) ← parse_hms s;
  let wall := (day + secs) * microseconds_per_second in
  if String.eqb s "" then Some (Naive wall)
  else if String.eqb s "+00:00" then Some (Aware wall)
  else None.

Definition sample_strptime_date (s : string) : option Z :=
  '(day, s) ← parse_ymd s;
  if String.eqb s "" then Some (day * microseconds_per_second) else None.

Definition two_digits (n : Z) : string :=
  String (ascii_of_nat (Z.to_nat (48 + n / 10)))
    (String (ascii_of_nat (Z.to_nat (48 + n mod 10))) "").

Definition lstrip0 (s : string) : string :=
  match s with
  | String "0" rest => rest
  | _ => s
  end.

Definition sample_strftime_time (t : Z) : string :=
  let secs := (t / microseconds_per_second) mod 86400 in
  let h := secs / 3600 in
  let h12 := if h mod 12 =? 0 then 12 else h mod 12 in
  lstrip0 (two_digits h12 +:+ ":" +:+ two_digits ((secs / 60) mod 60)
           +:+ (if h <? 12 then " AM" else " PM")).

(** A clock that starts at [t0] and advances one second per reading. *)
Definition env_at (t0 : Z) : Env :=
  {| clock := fun n => t0 + microseconds_per_second * Z.of_nat n;
     fromisoformat := sample_fromisoformat;
     strptime_date := sample_strptime_date;
     localize := fun wall => wall;
     strftime_time := sample_strftime_time;
     date_of := fun t => t / (86400 * microseconds_per_second) |}.

(** 2024-06-01T08:00:00 UTC *)
Definition eight_o_clock : Z := 1717228800 * microseconds_per_second.

Definition timed (s : string) : TimeSpec := {| dateTime := Some s; date := None |}.
Definition all_day (s : string) : TimeSpec := {| dateTime := None; date := Some s |}.
Definition empty_obj : TimeSpec := {| dateTime := None; date := None |}.

Definition raw (id : string) (start_ end_ : option TimeSpec) : RawEvent :=
  {| raw_id := Some id; raw_summary := Some id; raw_description := None;
     raw_location := None; raw_start := start_; raw_end := end_ |}.

Definition work : Calendar :=
  {| cal_id := "work"; cal_summary := "Work"; cal_primary := true;
     backgroundColor := "#00ffff" |}.

Definition home : Calendar :=
  {| cal_id := "home"; cal_summary := "Home"; cal_primary := false;
     backgroundColor := "#ff1493" |}.

Definition empty_service : CalendarService := {| events := []; last_update := None |}.

(** A processed event of one hour. *)
Definition event_at (id : string) (start_dt : Z) (st : Status) : Event :=
  {| ev_id := id; ev_title := id; ev_description := ""; ev_location := "";
     start_datetime := start_dt; end_datetime := start_dt + one_hour;
     is_all_day := false; calendar_name := "Work"; calendar_color := "#00ffff";
     ev_status := st; formatted_time := "" |}.

(** A service that already holds a timeline. *)
Definition loaded_service : CalendarService :=
  {| events := [event_at "standup" (eight_o_clock + one_hour) upcoming];
     last_update := Some eight_o_clock |}.

Definition dinner : RawEvent :=
  raw "dinner" (Some (timed "2024-06-01T19:00:00")) (Some (timed "2024-06-01T20:00:00")).

Definition seconds (k : Z) : Z := k * microseconds_per_second.

(** A service whose timeline is [timeline]. *)
Definition service_with (timeline : list Event) : CalendarService :=
  {| events := timeline; last_update := Some eight_o_clock |}.

(** No service object (authentication failed). *)
Definition gw_no_service : Gateway :=
  {| get_service := false;
     calendarList_list := Raise TransportError;
     events_list := fun _ => Raise TransportError |}.

(** The service exists but the calendar-list request fails. *)
Definition gw_list_fails : Gateway :=
  {| get_service := true;
     calendarList_list := Raise TransportError;
     events_list := fun _ => Return [dinner] |}.

(** Two calendars; the request for the first fails with [failure]. *)
Definition gw_first_fails (failure : exn) : Gateway :=
  {| get_service := true;
     calendarList_list := Return [work; home];
     events_list := fun id =>
       if String.eqb id "work" then Raise failure
       else if String.eqb id "home" then Return [dinner]
       else Raise HttpError |}.

(** Seven raw records across two calendars, their starts not in order. *)
Definition gw_seven : Gateway :=
  {| get_service := true;
     calendarList_list := Return [work; home];
     events_list := fun id =>
       if String.eqb id "work" then
         Return [raw "w1" (Some (timed "2024-06-01T09:00:00")) (Some (timed "2024-06-01T09:30:00"));
                 raw "w2" (Some (timed "2024-06-01T11:00:00")) (Some (timed "2024-06-01T12:00:00"));
                 raw "w3" (Some (timed "2024-06-01T15:00:00")) (Some (timed "2024-06-01T16:00:00"));
                 raw "w4" (Some (timed "2024-06-01T17:00:00")) (Some (timed "2024-06-01T18:00:00"))]
       else if String.eqb id "home" then
         Return [raw "h1" (Some (all_day "2024-06-01")) (Some (all_day "2024-06-02"));
                 raw "h2" (Some (timed "2024-06-01T10:00:00")) (Some empty_obj);
                 dinner]
       else Raise HttpError |}.

(** The keys of a hundred start notifications fired earlier in the
    session, for events ["00"] to ["99"]. *)
Definition hundred_keys : gset string :=
  list_to_set
    (map (fun i => notification_manager.notification_key
                     (event_at (two_digits (Z.of_nat i)) 0 past) start)
         (seq 0 100)).

(** The first ninety-nine of them. *)
Definition ninety_nine_keys : gset string :=
  list_to_set
    (map (fun i => notification_manager.notification_key
                     (event_at (two_digits (Z.of_nat i)) 0 past) start)
         (seq 0 99)).

(** The application with a given timeline and cache, nothing displayed. *)
Definition app_with (timeline : list Event) (keys : gset string) : notification_manager.App :=
  {| notification_manager.calendar_service := service_with timeline;
     notification_manager.notification_manager :=
       notification_manager.set_shown keys notification_manager.initial;
     notification_manager.ui_notification_manager := notification_widget.initial;
     notification_manager.emitted := [] |}.

(** An event that starts 45 seconds after eight. *)
Definition briefing : Event := event_at "briefing" (eight_o_clock + seconds 45) upcoming.

(** Two events: the first starts 30 seconds after eight, the second 45
    seconds after the first. *)
Definition first_call : Event := event_at "first" (eight_o_clock + seconds 30) upcoming.
Definition second_call : Event := event_at "second" (eight_o_clock + seconds 75) upcoming.

(** The scheduler showing the alert of [event_data] with its fade-in over,
    nothing queued. *)
Definition showing (env : Env) (event_data : Event) (type : Kind)
  : notification_widget.NotificationManager * nat :=
  notification_widget.after env (notification_widget.Qt notification_widget.FadeInFinished)
    (notification_widget.after env (notification_widget.Show event_data type)
       (notification_widget.initial, 0%nat)).

(** An event that starts at nine. *)
Definition standup : Event := event_at "standup" (eight_o_clock + one_hour) upcoming.

End Sample.

(** ** Vocabulary of the specification *)

Module Spec.
Import calendar_service.

(** The status rule of the written specification. *)
Definition status_rule (now start_dt end_dt : Z) (st : Status) : Prop :=
  (st = current <-> start_dt <= now <= end_dt) /\
  (st = upcoming <-> now < start_dt) /\
  (st = past <-> ~ start_dt <= now <= end_dt /\ ~ now < start_dt).

(** The branches shared by [_get_event_status] and the status tick. *)
Definition derive_status (now start_dt end_dt : Z) : Status :=
  if now <? start_dt then upcoming
  else if (start_dt <=? now) && (now <=? end_dt) then current
  else past.

(** The instant a timed string denotes, if it parses. *)
Definition instant_of_datetime (env : Env) (s : string) : option Z :=
  match fromisoformat env (replace_Z s) with
  | None => None
  | Some (Naive wall) => Some (localize env wall)
  | Some (Aware instant) => Some instant
  end.

(** Local midnight of a bare date, if it parses. *)
Definition instant_of_date (env : Env) (s : string) : option Z :=
  localize env <$> strptime_date env s.

(** The start of a raw record and its all-day flag, if the record carries
    a usable start. *)
Definition resolve_start (env : Env) (event : RawEvent) : option (Z * bool) :=
  start_obj ← raw_start event;
  let start := get_dateTime_or_date start_obj in
  if negb (truthy start) then None
  else
    let start := default EmptyString start in
    if contains "T" start
    then (λ dt, (dt, false)) <$> instant_of_datetime env start
    else (λ dt, (dt, true)) <$> instant_of_date env start.

(** An end object carries a timed end when its value has a ['T']. *)
Definition timed_end (end_obj : TimeSpec) : bool :=
  truthy (get_dateTime_or_date end_obj)
  && contains "T" (default EmptyString (get_dateTime_or_date end_obj)).

Definition resolve_end (env : Env) (event : RawEvent) (start_dt : Z) : option Z :=
  end_obj ← raw_end event;
  if timed_end end_obj
  then instant_of_datetime env (default EmptyString (get_dateTime_or_date end_obj))
  else Some (start_dt + one_hour).

(** What [_process_event] builds, before the status is derived; [None]
    when the record is discarded. *)
Definition normalize (env : Env) (event : RawEvent) (calendar : Calendar) : option Event :=
  '(start_dt, all_day) ← resolve_start env event;
  end_dt ← resolve_end env event start_dt;
  id ← raw_id event;
  Some {| ev_id := id;
          ev_title := default "No Title" (raw_summary event);
          ev_description := default EmptyString (raw_description event);
          ev_location := default EmptyString (raw_location event);
          start_datetime := start_dt;
          end_datetime := end_dt;
          is_all_day := all_day;
          calendar_name := cal_summary calendar;
          calendar_color := backgroundColor calendar;
          ev_status := upcoming;
          formatted_time := _format_event_time env start_dt end_dt all_day |}.

(** The status an event is given by the clock reading number [n]. *)
Definition stamp (env : Env) (n : nat) (e : Event) : Event :=
  set_status (derive_status (clock env n) (start_datetime e) (end_datetime e)) e.

(** What the records of one calendar add to [all_events], reading the
    clock from position [n] on, and the clock position afterwards. *)
Fixpoint normalize_all (env : Env) (calendar : Calendar) (n : nat) (events : list RawEvent)
  : list Event * nat :=
  match events with
  | [] => ([], n)
  | event :: rest =>
      match normalize env event calendar with
      | Some e =>
          let '(l, n') := normalize_all env calendar (S n) rest in
          (stamp env n e :: l, n')
      | None => normalize_all env calendar n rest
      end
  end.

(** The run of the loop over the calendars: the accumulated events, or
    the exception that leaves the loop. *)
Fixpoint collect (env : Env) (gw : Gateway) (n : nat) (calendars : list Calendar)
  : outcome (list Event) * nat :=
  match calendars with
  | [] => (Return [], n)
  | calendar :: rest =>
      match events_list gw (cal_id calendar) with
      | Return events =>
          let '(l, n') := normalize_all env calendar n events in
          match collect env gw n' rest with
          | (Return l', n'') => (Return (l ++ l'), n'')
          | (Raise e, n'') => (Raise e, n'')
          end
      | Raise e => if is_HttpError e then collect env gw n rest else (Raise e, n)
      end
  end.

(** The raw records a refresh receives, each with its calendar, in the
    order of the loops; a calendar whose fetch fails contributes none. *)
Definition fetched (gw : Gateway) (calendars : list Calendar) : list (RawEvent * Calendar) :=
  flat_map (fun calendar =>
              match events_list gw (cal_id calendar) with
              | Return events => map (fun event => (event, calendar)) events
              | Raise _ => []
              end) calendars.

(** The normalizations of the records that have one, in order. *)
Definition normalized (env : Env) (records : list (RawEvent * Calendar)) : list Event :=
  omap (fun record => normalize env (fst record) (snd record)) records.

(** Ascending start order. *)
Definition by_start (a b : Event) : Prop := start_datetime a <= start_datetime b.

(** The identity of an alert for deduplication. *)
Definition identity (n : notification_widget.Notification) : string * Kind :=
  (ev_id (notification_widget.n_event n), notification_widget.n_type n).

(** The widget after [NotificationWidget.show_notification]. *)
Definition shown_widget (event_data : Event) (type : Kind)
    (w : notification_widget.NotificationWidget) : notification_widget.NotificationWidget :=
  notification_widget.set_timer true
    (notification_widget.fade_in_start
       (notification_widget.set_visible true
          (notification_widget.set_content event_data type w))).

(** The widget after [NotificationWidget.dismiss]. *)
Definition dismissed_widget (w : notification_widget.NotificationWidget)
  : notification_widget.NotificationWidget :=
  notification_widget.fade_out_start (notification_widget.set_timer false w).

(** The alert built from an event, a kind and a clock reading. *)
Definition alert (event_data : Event) (type : Kind) (timestamp : Z)
  : notification_widget.Notification :=
  {| notification_widget.n_event := event_data;
     notification_widget.n_type := type;
     notification_widget.n_timestamp := timestamp |}.

(** The cache keys of the pairs a scan found. *)
Definition keys_of (found : list (Event * Kind)) : gset string :=
  list_to_set
    (map (fun pair => notification_manager.notification_key (fst pair) (snd pair)) found).

(** The signal is the hand-over of a pair with the cache key [key]. *)
Definition fires (key : string) (signal : notification_manager.Signal) : Prop :=
  match signal with
  | notification_manager.show_notification event type =>
      notification_manager.notification_key event type = key
  | notification_manager.hide_notification => False
  end.

(** What one call does to the backlog of the scheduler. *)
Inductive queue_step (c : notification_widget.Call)
    (self self' : notification_widget.NotificationManager) : Prop :=
| queue_kept :
    notification_widget.notification_queue self'
    = notification_widget.notification_queue self ->
    queue_step c self self'
| queue_appended event_data type timestamp :
    c = notification_widget.Show event_data type ->
    notification_widget.is_showing (notification_widget.notification_widget self) = true ->
    existsb (notification_widget.same_identity event_data type)
      (notification_widget.notification_queue self) = false ->
    notification_widget.notification_queue self'
    = notification_widget.notification_queue self ++ [alert event_data type timestamp] ->
    notification_widget.current_notification self'
    = notification_widget.current_notification self ->
    notification_widget.notification_widget self'
    = notification_widget.notification_widget self ->
    queue_step c self self'
| queue_popped next_notification :
    c = notification_widget.ProcessQueue ->
    notification_widget.is_showing (notification_widget.notification_widget self) = false ->
    notification_widget.notification_queue self
    = next_notification :: notification_widget.notification_queue self' ->
    notification_widget.current_notification self' = Some next_notification ->
    queue_step c self self'
| queue_cleared :
    c = notification_widget.ClearQueue ->
    notification_widget.notification_queue self' = [] ->
    queue_step c self self'.

End Spec.

(** ** Vocabulary of the further properties *)

Module Facts.
Import calendar_service Spec.

(** The last character of a string. *)
Fixpoint last_char (s : string) : option ascii :=
  match s with
  | EmptyString => None
  | String a EmptyString => Some a
  | String _ rest => last_char rest
  end.

(** An event is in progress at [now]. *)
Definition in_progress (now : Z) (event : Event) : Prop :=
  start_datetime event <= now <= end_datetime event.

(** What a query that returns the first event passing [test] found. *)
Definition first_match (test : Event -> bool) (timeline : list Event)
    (found : option Event) : Prop :=
  match found with
  | Some event =>
      exists before after,
        timeline = before ++ event :: after /\
        test event = true /\
        forall earlier, earlier ∈ before -> test earlier = false
  | None => forall event, event ∈ timeline -> test event = false
  end.

(** Sixty seconds, in microseconds. *)
Definition one_minute : Z := 60 * microseconds_per_second.

(** [int(time_diff.total_seconds() / 60)] *)
Definition minutes_of (time_diff : Z) : Z :=
  PyFloat.int (PyFloat.truediv (PyFloat.total_seconds time_diff) 60).

(** [2 ^ 27] minutes, about 255 years. *)
Definition far_ahead : Z := 2 ^ 27 * one_minute.

(** Two datetimes are less than 10000 years apart, which is less than
    [2 ^ 59] microseconds. *)
Definition datetime_span : Z := 2 ^ 59.

(** The active record of the scheduler agrees with its widget: the timer
    of the widget runs and the widget holds the record's event and type. *)
Definition active_consistent (self : notification_widget.NotificationManager) : Prop :=
  forall active,
    notification_widget.current_notification self = Some active ->
    notification_widget.auto_dismiss_timer (notification_widget.notification_widget self)
    = true /\
    notification_widget.current_event (notification_widget.notification_widget self)
    = Some (notification_widget.n_event active) /\
    notification_widget.notification_type (notification_widget.notification_widget self)
    = Some (notification_widget.n_type active).

(** A raw record that [_process_event] keeps: a start object with a
    non-empty value that parses (as a timed value when it has a ['T'], as a
    date otherwise), an end object whose value parses when it is timed, and
    an id. *)
Definition well_formed (env : Env) (event : RawEvent) : Prop :=
  exists start_obj start_value end_obj id,
    raw_start event = Some start_obj /\
    get_dateTime_or_date start_obj = Some start_value /\
    start_value <> EmptyString /\
    is_Some (if contains "T" start_value
             then instant_of_datetime env start_value
             else instant_of_date env start_value) /\
    raw_end event = Some end_obj /\
    (timed_end end_obj = true ->
     is_Some (instant_of_datetime env
                (default EmptyString (get_dateTime_or_date end_obj)))) /\
    raw_id event = Some id.

(** A record without its status. *)
Definition same_but_status (a b : Event) : Prop :=
  set_status upcoming a = set_status upcoming b.

End Facts.

(** * Verified properties *)

Import calendar_service Spec.

Ltac unfold_M :=
  unfold bind, ret, raise, try_except, get, put, modify, with_local, zoom, subscript,
    datetime_now, Exception in *.

Section StatusDerivation.
Variable env : Env.

Lemma derive_status_rule now start_dt end_dt :
  status_rule now start_dt end_dt (derive_status now start_dt end_dt).
Proof.
  unfold status_rule, derive_status.
  destruct (Z.ltb_spec now start_dt); [ repeat split; (congruence || lia) |].
  destruct (Z.leb_spec start_dt now), (Z.leb_spec now end_dt); simpl;
    repeat split; intros; try congruence; try lia.
Qed.

Lemma get_event_status_run St (s : St) n start_dt end_dt :
  _get_event_status env start_dt end_dt s n
  = (Return (derive_status (clock env n) start_dt end_dt), s, S n).
Proof.
  unfold _get_event_status, derive_status. unfold_M.
  destruct (clock env n <? start_dt); [reflexivity|].
  destruct ((start_dt <=? clock env n) && (clock env n <=? end_dt)); reflexivity.
Qed.

(** [_process_event] never raises: it discards the record, or returns
    the normalized event stamped with the status of one clock reading. *)
Lemma process_event_run St (s : St) n event calendar :
  _process_event env event calendar s n =
  match normalize env event calendar with
  | Some e => (Return (Some (stamp env n e)), s, S n)
  | None => (Return None, s, n)
  end.
Proof.
  unfold _process_event, normalize, resolve_start, resolve_end, timed_end, stamp.
  unfold try_except at 1. unfold bind at 1. unfold subscript at 1.
  destruct (raw_start event) as [start_obj|]; simpl; [|reflexivity].
  destruct (truthy (get_dateTime_or_date start_obj)); simpl; [|reflexivity].
  set (start_ := default "" (get_dateTime_or_date start_obj)).
  unfold bind at 1.
  assert (Hstart :
    (if contains "T" start_
     then bind (parse_datetime env start_) (fun dt => ret (dt, false))
     else bind (parse_date env start_) (fun dt => ret (dt, true))) s n
    = match (if contains "T" start_
             then (λ dt, (dt, false)) <$> instant_of_datetime env start_
             else (λ dt, (dt, true)) <$> instant_of_date env start_) with
      | Some r => (Return r, s, n)
      | None => (Raise ValueError, s, n)
      end).
  { unfold parse_datetime, parse_date, instant_of_datetime, instant_of_date, bind, ret, raise.
    destruct (contains "T" start_).
    - destruct (fromisoformat env (replace_Z start_)) as [[w|i]|]; reflexivity.
    - destruct (strptime_date env start_); reflexivity. }
  rewrite Hstart. clear Hstart.
  destruct (if contains "T" start_ then _ else _) as [[start_dt all_day]|]; simpl; [|reflexivity].
  unfold bind at 1. unfold subscript at 1.
  destruct (raw_end event) as [end_obj|]; simpl; [|reflexivity].
  unfold bind at 1.
  set (end_ := get_dateTime_or_date end_obj).
  assert (Hend :
    (if truthy end_ && contains "T" (default "" end_)
     then parse_datetime env (default "" end_)
     else ret (start_dt + one_hour)) s n
    = match (if truthy end_ && contains "T" (default "" end_)
             then instant_of_datetime env (default "" end_)
             else Some (start_dt + one_hour)) with
      | Some r => (Return r, s, n)
      | None => (Raise ValueError, s, n)
      end).
  { destruct (truthy end_ && contains "T" (default "" end_)); [|reflexivity].
    unfold parse_datetime, instant_of_datetime, ret, raise.
    destruct (fromisoformat env _) as [[w|i]|]; reflexivity. }
  rewrite Hend. clear Hend.
  destruct (if truthy end_ && _ then _ else _) as [end_dt|]; simpl; [|reflexivity].
  unfold bind at 1. unfold subscript at 1.
  destruct (raw_id event) as [id|]; simpl; [|reflexivity].
  unfold bind at 1. rewrite get_event_status_run. reflexivity.
Qed.

(** The loop of the status tick stamps the i-th event with the i-th
    reading made by the tick. *)
Lemma update_loop_run St (s : St) events : forall n marker,
  exists marker',
    main_window.update_loop env events marker s n
    = (Return (imap (fun i e => stamp env (n + i) e) events, marker'),
       s, (n + length events)%nat).
Proof.
  induction events as [|event rest IH]; intros n marker; simpl.
  - exists marker. unfold ret. do 2 f_equal. lia.
  - unfold bind at 1. unfold datetime_now at 1.
    match goal with
    | |- context [main_window.update_loop env rest ?m] =>
        destruct (IH (S n) m) as [marker' Hrun]
    end.
    exists marker'. unfold bind at 1. rewrite Hrun. unfold ret.
    assert (Heq : imap (fun i e => stamp env (S n + i) e) rest
                  = imap ((fun i e => stamp env (n + i) e) ∘ S) rest).
    { apply imap_ext. intros i e _. simpl. f_equal. lia. }
    rewrite Heq. cbn [imap]. rewrite Nat.add_0_r.
    replace (S n + length rest)%nat with (n + S (length rest))%nat by lia.
    reflexivity.
Qed.

End StatusDerivation.

(** C1.  For every event and every clock reading [now], the derived status
    is [current] if and only if [start <= now <= end] (both bounds
    inclusive), [upcoming] if and only if [now < start], and [past]
    otherwise; at [now = start] and at [now = end] it is [current] (for an
    event whose start is not after its end, as the rule itself requires).
    This holds for [_get_event_status], for the status stored by
    [_process_event] at normalization time, and for the status every event
    receives on a status tick ([update_event_statuses]), each with the
    clock reading made at that point. *)
Theorem C1_status_rule (env : Env) :
  (forall St (s : St) n start_dt end_dt,
     exists st,
       _get_event_status env start_dt end_dt s n = (Return st, s, S n) /\
       status_rule (clock env n) start_dt end_dt st /\
       (start_dt <= end_dt ->
        clock env n = start_dt \/ clock env n = end_dt -> st = current)) /\
  (forall St (s : St) n event calendar,
     match _process_event env event calendar s n with
     | (Return (Some e), _, _) =>
         status_rule (clock env n) (start_datetime e) (end_datetime e) (ev_status e)
     | (Return None, _, _) => True
     | (Raise _, _, _) => False
     end) /\
  (forall current_events n,
     exists marker updated,
       main_window.update_event_statuses env current_events n
       = (Return marker, updated, (n + length current_events)%nat) /\
       length updated = length current_events /\
       forall i e, current_events !! i = Some e ->
         exists st,
           updated !! i = Some (set_status st e) /\
           status_rule (clock env (n + i)) (start_datetime e) (end_datetime e) st).
Proof.
  split; [|split].
  - intros St s n start_dt end_dt.
    exists (derive_status (clock env n) start_dt end_dt).
    split; [apply get_event_status_run|].
    split; [apply derive_status_rule|].
    intros Hle Hnow. apply (derive_status_rule (clock env n) start_dt end_dt). lia.
  - intros St s n event calendar. rewrite process_event_run.
    destruct (normalize env event calendar) as [e|]; [|exact I].
    unfold stamp. simpl. apply derive_status_rule.
  - intros current_events n.
    destruct current_events as [|e0 rest] eqn:Hev.
    + exists false, []. unfold main_window.update_event_statuses. unfold_M.
      simpl. rewrite Nat.add_0_r.
      split; [reflexivity|]. split; [reflexivity|]. intros i e Hi. discriminate.
    + clear Hev.
      destruct (update_loop_run env (list Event) (e0 :: rest) (e0 :: rest) n false)
        as [marker Hrun].
      exists marker, (imap (fun i e => stamp env (n + i) e) (e0 :: rest)).
      split.
      * unfold main_window.update_event_statuses.
        unfold bind at 1. unfold get at 1. cbv beta iota.
        unfold bind at 1.
        change (main_window.update_loop env (e0 :: rest) false (e0 :: rest) n)
          with (@main_window.update_loop env (list Event) (e0 :: rest) false (e0 :: rest) n).
        rewrite Hrun. reflexivity.
      * split; [apply length_imap|].
        intros i e Hi.
        exists (derive_status (clock env (n + i)) (start_datetime e) (end_datetime e)).
        split; [|apply derive_status_rule].
        rewrite list_lookup_imap, Hi. reflexivity.
Qed.

(** The rule at the boundaries, on the sample clock: an event from 08:00
    to 09:00 read at 08:00 sharp is current. *)
Lemma C1_status_rule_witness :
  exists st,
    _get_event_status (Sample.env_at Sample.eight_o_clock)
      Sample.eight_o_clock (Sample.eight_o_clock + one_hour) tt 0%nat
    = (Return st, tt, 1%nat) /\ st = current.
Proof.
  destruct (proj1 (C1_status_rule (Sample.env_at Sample.eight_o_clock))
              unit tt 0%nat Sample.eight_o_clock (Sample.eight_o_clock + one_hour))
    as (st & Hrun & _ & Hboundary).
  exists st. split; [exact Hrun|].
  apply Hboundary; [vm_compute; discriminate | left; reflexivity].
Defined.

(** ** The stable sort *)

Section StableSortFacts.
Context {A : Type} (key : A -> Z).

Let le_key (a b : A) : Prop := key a <= key b.

Lemma insert_by_perm x l : Permutation (x :: l) (insert_by key x l).
Proof.
  induction l as [|y rest IH]; simpl; [reflexivity|].
  destruct (key x <=? key y); [reflexivity|].
  rewrite perm_swap. constructor. exact IH.
Qed.

Lemma sort_by_perm l : Permutation l (sort_by key l).
Proof.
  induction l as [|x rest IH]; simpl; [constructor|].
  rewrite <- insert_by_perm. constructor. exact IH.
Qed.

Lemma insert_by_sorted x l :
  StronglySorted le_key l -> StronglySorted le_key (insert_by key x l).
Proof.
  induction 1 as [|y rest Hsorted IH Hall]; simpl.
  - repeat constructor.
  - destruct (Z.leb_spec (key x) (key y)) as [Hle|Hgt].
    + constructor; [constructor; assumption|].
      constructor; [exact Hle|].
      eapply Forall_impl; [exact Hall|]. unfold le_key. simpl. intros; lia.
    + constructor; [exact IH|].
      rewrite <- insert_by_perm. constructor; [unfold le_key; lia | exact Hall].
Qed.

Lemma sort_by_sorted l : StronglySorted le_key (sort_by key l).
Proof.
  induction l as [|x rest IH]; simpl; [constructor|].
  apply insert_by_sorted, IH.
Qed.

(** Stability: elements with the same key keep their relative order. *)
Lemma insert_by_stable k x l :
  StronglySorted le_key l ->
  filter (fun a => key a = k) (insert_by key x l)
  = filter (fun a => key a = k) (x :: l).
Proof.
  induction 1 as [|y rest Hsorted IH Hall]; simpl; [reflexivity|].
  destruct (Z.leb_spec (key x) (key y)) as [Hle|Hgt]; [reflexivity|].
  rewrite filter_cons, IH, !filter_cons.
  destruct (decide (key y = k)) as [Hy|Hy]; [|reflexivity].
  destruct (decide (key x = k)) as [Hx|Hx]; [lia|reflexivity].
Qed.

Lemma sort_by_stable k l :
  filter (fun a => key a = k) (sort_by key l) = filter (fun a => key a = k) l.
Proof.
  induction l as [|x rest IH]; simpl; [reflexivity|].
  rewrite insert_by_stable by apply sort_by_sorted.
  rewrite !filter_cons, IH. reflexivity.
Qed.

Lemma sorted_take_drop (l : list A) m x y :
  StronglySorted le_key l -> x ∈ take m l -> y ∈ drop m l -> key x <= key y.
Proof.
  intros Hsorted. revert m.
  induction Hsorted as [|a rest Hsorted IH Hall]; intros m Hx Hy.
  - rewrite take_nil in Hx. inversion Hx.
  - destruct m as [|m]; simpl in *; [inversion Hx|].
    apply elem_of_cons in Hx as [->|Hx].
    + rewrite Forall_forall in Hall. apply Hall.
      eapply subseteq_drop. exact Hy.
    + eapply IH; eassumption.
Qed.

End StableSortFacts.

(** ** The refresh *)

Section Refresh.
Variable env : Env.

Lemma process_events_run calendar events : forall all_events n,
  for_each events (process_body env calendar) all_events n
  = (Return tt,
     all_events ++ fst (normalize_all env calendar n events),
     snd (normalize_all env calendar n events)).
Proof.
  induction events as [|event rest IH]; intros all_events n; simpl.
  - unfold ret. rewrite app_nil_r. reflexivity.
  - unfold bind at 1. unfold process_body at 1. unfold bind at 1.
    rewrite process_event_run.
    destruct (normalize env event calendar) as [e|].
    + unfold modify. rewrite IH.
      destruct (normalize_all env calendar (S n) rest) as [l n'] eqn:Hrest. simpl.
      rewrite <- app_assoc. reflexivity.
    + unfold ret. apply IH.
Qed.

Lemma fetch_calendar_run gw calendar all_events n :
  fetch_calendar env gw calendar all_events n
  = match events_list gw (cal_id calendar) with
    | Return events =>
        (Return tt,
         all_events ++ fst (normalize_all env calendar n events),
         snd (normalize_all env calendar n events))
    | Raise e =>
        if is_HttpError e then (Return tt, all_events, n) else (Raise e, all_events, n)
    end.
Proof.
  unfold fetch_calendar, try_except. unfold bind at 1.
  destruct (events_list gw (cal_id calendar)) as [events|e].
  - rewrite process_events_run. reflexivity.
  - destruct (is_HttpError e); reflexivity.
Qed.

Lemma calendars_run gw calendars : forall all_events n,
  match collect env gw n calendars with
  | (Return l, n') =>
      for_each calendars (fetch_calendar env gw) all_events n
      = (Return tt, all_events ++ l, n')
  | (Raise e, n') =>
      exists partial,
        for_each calendars (fetch_calendar env gw) all_events n = (Raise e, partial, n')
  end.
Proof.
  induction calendars as [|calendar rest IH]; intros all_events n; simpl.
  - unfold ret. rewrite app_nil_r. reflexivity.
  - unfold bind. rewrite fetch_calendar_run.
    destruct (events_list gw (cal_id calendar)) as [events|e].
    + destruct (normalize_all env calendar n events) as [l n'] eqn:Hl. simpl.
      specialize (IH (all_events ++ l) n').
      destruct (collect env gw n' rest) as [[l'|e] n''].
      * rewrite IH, app_assoc. reflexivity.
      * exact IH.
    + destruct (is_HttpError e).
      * apply IH.
      * eexists. reflexivity.
Qed.

(** The whole of [get_today_events]: it never raises. *)
Lemma get_today_events_run gw self n :
  get_today_events env gw self n
  = if get_service gw then
      match collect env gw (S n) (get_calendar_list gw) with
      | (Return all_events, n') =>
          let timeline :=
            take settings.MAX_EVENTS_DISPLAY (sort_by start_datetime all_events) in
          (Return timeline,
           {| events := timeline; last_update := Some (clock env n') |},
           S n')
      | (Raise _, n') => (Return [], self, n')
      end
    else (Return [], self, n).
Proof.
  unfold get_today_events, try_except.
  destruct (get_service gw); simpl; [|reflexivity].
  unfold bind at 1. unfold datetime_now at 1.
  unfold bind at 1. unfold with_local.
  pose proof (calendars_run gw (get_calendar_list gw) [] (S n)) as Hrun.
  destruct (collect env gw (S n) (get_calendar_list gw)) as [[all_events|e] n'].
  - rewrite Hrun. reflexivity.
  - destruct Hrun as [partial Hrun]. rewrite Hrun. reflexivity.
Qed.

Lemma refresh_events_run gw self n :
  refresh_events env gw self n
  = (Return true,
     snd (fst (get_today_events env gw self n)),
     snd (get_today_events env gw self n)).
Proof.
  unfold refresh_events, try_except, bind. rewrite get_today_events_run.
  destruct (get_service gw); [|reflexivity].
  destruct (collect env gw (S n) (get_calendar_list gw)) as [[all_events|e] n'];
    reflexivity.
Qed.

End Refresh.

(** C10.  [refresh_events] returns [True] on every execution, a total
    failure of the fetch included: [get_today_events] catches every
    exception itself and returns the empty list, so the handler that would
    return [False] is never entered and the result does not tell a
    successful refresh from a failed one. *)
Theorem C10_refresh_events_always_true (env : Env) (gw : Gateway) (self : CalendarService) (n : nat) :
  (exists result self' n',
     get_today_events env gw self n = (Return result, self', n') /\
     refresh_events env gw self n = (Return true, self', n')) /\
  refresh_events env Sample.gw_no_service self n = (Return true, self, n).
Proof.
  split.
  - rewrite refresh_events_run.
    destruct (get_today_events env gw self n) as [[[result|e] self'] n'] eqn:Hrun.
    + exists result, self', n'. split; reflexivity.
    + exfalso. rewrite get_today_events_run in Hrun.
      destruct (get_service gw); [|discriminate].
      destruct (collect env gw (S n) (get_calendar_list gw)) as [[all_events|e'] n''];
        discriminate.
  - rewrite refresh_events_run, get_today_events_run. reflexivity.
Qed.

(** C3, as amended.  A refresh that fails entirely returns the empty
    result and lets no exception escape.  The stored events and
    [last_update] are unchanged when no service object is obtained, and
    when an exception reaches the outer handler.  When the calendar-list
    request fails, [get_calendar_list] swallows the error and returns no
    calendars: the refresh then stores the empty sequence and a new
    [last_update]. *)
Theorem C3_failed_refresh (env : Env) (gw : Gateway) (self : CalendarService) (n : nat) :
  (get_service gw = false ->
   get_today_events env gw self n = (Return [], self, n)) /\
  (forall e n', get_service gw = true ->
   collect env gw (S n) (get_calendar_list gw) = (Raise e, n') ->
   get_today_events env gw self n = (Return [], self, n')) /\
  (forall e, get_service gw = true -> calendarList_list gw = Raise e ->
   get_today_events env gw self n
   = (Return [], {| events := []; last_update := Some (clock env (S n)) |}, S (S n))) /\
  (forall e, fst (fst (get_today_events env gw self n)) <> Raise e).
Proof.
  rewrite get_today_events_run.
  split; [|split; [|split]].
  - intros ->. reflexivity.
  - intros e n' -> ->. reflexivity.
  - intros e Hservice Hlist. rewrite Hservice.
    unfold get_calendar_list. rewrite Hservice, Hlist. reflexivity.
  - intros e. destruct (get_service gw); [|discriminate].
    destruct (collect env gw (S n) (get_calendar_list gw)) as [[all_events|e'] n'];
      discriminate.
Qed.

Lemma C3_failed_refresh_witness :
  get_today_events (Sample.env_at Sample.eight_o_clock) Sample.gw_no_service
    Sample.loaded_service 0%nat
  = (Return [], Sample.loaded_service, 0%nat).
Proof.
  apply (C3_failed_refresh (Sample.env_at Sample.eight_o_clock) Sample.gw_no_service
           Sample.loaded_service 0%nat).
  reflexivity.
Defined.

(** The calendar-list request fails while the service object exists: the
    refresh returns the empty result, but the stored timeline is replaced
    by the empty sequence and [last_update] moves. *)
Lemma C3_counterexample :
  get_service Sample.gw_list_fails = true /\
  calendarList_list Sample.gw_list_fails = Raise TransportError /\
  exists self' n',
    get_today_events (Sample.env_at Sample.eight_o_clock) Sample.gw_list_fails
      Sample.loaded_service 0%nat = (Return [], self', n') /\
    events Sample.loaded_service <> [] /\
    events self' = [] /\
    last_update self' <> last_update Sample.loaded_service.
Proof.
  split; [reflexivity|]. split; [reflexivity|].
  eexists _, _. split; [vm_compute; reflexivity|].
  split; [discriminate|]. split; [reflexivity|]. vm_compute. discriminate.
Qed.

(** ** Normalization of one record *)

(** C7, as amended.  For every raw record that carries an id, a start that
    parses, and an end object without a timed value (no value at all, or a
    value without ['T'], such as the bare date of an all-day record),
    normalization yields [end = start + 1 hour], all-day records included.
    A record that has no end object at all is not given the default: it is
    discarded. *)
Theorem C7_default_end (env : Env) (St : Type) (s : St) (n : nat)
    (event : RawEvent) (calendar : Calendar) :
  (forall start_dt all_day end_obj id,
     resolve_start env event = Some (start_dt, all_day) ->
     raw_end event = Some end_obj ->
     timed_end end_obj = false ->
     raw_id event = Some id ->
     exists e,
       _process_event env event calendar s n = (Return (Some e), s, S n) /\
       start_datetime e = start_dt /\
       end_datetime e = start_dt + one_hour /\
       is_all_day e = all_day) /\
  (raw_end event = None ->
   _process_event env event calendar s n = (Return None, s, n)).
Proof.
  rewrite process_event_run. unfold normalize, resolve_end. split.
  - intros start_dt all_day end_obj id Hstart Hend Htimed Hid.
    rewrite Hstart. simpl. rewrite Hend. simpl. rewrite Htimed. simpl. rewrite Hid. simpl.
    eexists. split; [reflexivity|]. simpl. repeat split.
  - intros ->. destruct (resolve_start env event) as [[start_dt all_day]|]; reflexivity.
Qed.

(** A timed start of 09:00 with an empty end object ends at 10:00. *)
Lemma C7_default_end_witness :
  exists e,
    _process_event (Sample.env_at Sample.eight_o_clock)
      (Sample.raw "review" (Some (Sample.timed "2024-06-01T09:00:00")) (Some Sample.empty_obj))
      Sample.work tt 0%nat = (Return (Some e), tt, 1%nat) /\
    Some (start_datetime e)
    = instant_of_datetime (Sample.env_at Sample.eight_o_clock) "2024-06-01T09:00:00" /\
    Some (end_datetime e)
    = instant_of_datetime (Sample.env_at Sample.eight_o_clock) "2024-06-01T10:00:00".
Proof.
  destruct (proj1 (C7_default_end (Sample.env_at Sample.eight_o_clock) unit tt 0%nat
              (Sample.raw "review" (Some (Sample.timed "2024-06-01T09:00:00"))
                 (Some Sample.empty_obj))
              Sample.work)
              (1717232400 * microseconds_per_second) false Sample.empty_obj "review")
    as (e & Hrun & Hstart & Hend & _); try reflexivity.
  exists e. split; [exact Hrun|]. rewrite Hstart, Hend. split; reflexivity.
Defined.

(** The same default reaches an all-day record whose end is a bare date. *)
Example all_day_record_gets_one_hour :
  exists e,
    _process_event (Sample.env_at Sample.eight_o_clock)
      (Sample.raw "holiday" (Some (Sample.all_day "2024-06-01"))
         (Some (Sample.all_day "2024-06-02")))
      Sample.work tt 0%nat = (Return (Some e), tt, 1%nat) /\
    is_all_day e = true /\
    end_datetime e = start_datetime e + one_hour.
Proof. eexists. split; [vm_compute; reflexivity|]. split; reflexivity. Qed.

(** A record with a timed start of 09:00 and no end field is discarded
    instead of ending at 10:00. *)
Lemma C7_counterexample :
  resolve_start (Sample.env_at Sample.eight_o_clock)
    (Sample.raw "review" (Some (Sample.timed "2024-06-01T09:00:00")) None)
  = Some (1717232400 * microseconds_per_second, false) /\
  raw_end (Sample.raw "review" (Some (Sample.timed "2024-06-01T09:00:00")) None) = None /\
  _process_event (Sample.env_at Sample.eight_o_clock)
    (Sample.raw "review" (Some (Sample.timed "2024-06-01T09:00:00")) None)
    Sample.work tt 0%nat = (Return None, tt, 0%nat).
Proof. repeat split. Qed.

(** ** The timeline of one refresh *)

(** C6.  After a refresh that completes, the stored timeline is the
    accumulated normalized events sorted by start, ascending and stable,
    then cut to [MAX_EVENTS_DISPLAY]: the events cut off start no earlier
    than any event kept. *)
Theorem C6_sorted_then_truncated (env : Env) (gw : Gateway) (self : CalendarService)
    (n n' : nat) (all_events : list Event) :
  get_service gw = true ->
  collect env gw (S n) (get_calendar_list gw) = (Return all_events, n') ->
  exists self' n'',
    get_today_events env gw self n = (Return (events self'), self', n'') /\
    events self' = take settings.MAX_EVENTS_DISPLAY (sort_by start_datetime all_events) /\
    StronglySorted by_start (sort_by start_datetime all_events) /\
    Permutation all_events (sort_by start_datetime all_events) /\
    (forall t, filter (fun e => start_datetime e = t) (sort_by start_datetime all_events)
               = filter (fun e => start_datetime e = t) all_events) /\
    StronglySorted by_start (events self') /\
    length (events self') = Nat.min settings.MAX_EVENTS_DISPLAY (length all_events) /\
    (forall kept dropped,
       kept ∈ events self' ->
       dropped ∈ drop settings.MAX_EVENTS_DISPLAY (sort_by start_datetime all_events) ->
       start_datetime kept <= start_datetime dropped).
Proof.
  intros Hservice Hcollect.
  exists {| events := take settings.MAX_EVENTS_DISPLAY (sort_by start_datetime all_events);
            last_update := Some (clock env n') |}, (S n').
  split.
  { rewrite get_today_events_run, Hservice, Hcollect. reflexivity. }
  cbn [events].
  pose proof (sort_by_sorted start_datetime all_events) as Hsorted.
  pose proof (sort_by_perm start_datetime all_events) as Hperm.
  split; [reflexivity|]. split; [exact Hsorted|]. split; [exact Hperm|].
  split; [intros t; apply sort_by_stable|].
  split.
  { rewrite <- (take_drop settings.MAX_EVENTS_DISPLAY (sort_by start_datetime all_events))
      in Hsorted.
    apply StronglySorted_app_1_l in Hsorted. exact Hsorted. }
  split.
  { rewrite length_take. f_equal. symmetry. apply Permutation_length, Hperm. }
  intros kept dropped Hkept Hdropped.
  eapply (sorted_take_drop start_datetime); eassumption.
Qed.

(** Seven raw records across two calendars, with [MAX_EVENTS_DISPLAY = 5]:
    exactly five events are kept, in ascending start order; the two that
    start last (17:00 and 19:00) are dropped. *)
Lemma C6_sorted_then_truncated_witness :
  exists self' n'',
    get_today_events (Sample.env_at Sample.eight_o_clock) Sample.gw_seven
      Sample.empty_service 0%nat = (Return (events self'), self', n'') /\
    map ev_id (events self') = ["h1"; "w1"; "h2"; "w2"; "w3"] /\
    StronglySorted by_start (events self').
Proof.
  pose (run := collect (Sample.env_at Sample.eight_o_clock) Sample.gw_seven 1%nat
                 (get_calendar_list Sample.gw_seven)).
  destruct (C6_sorted_then_truncated (Sample.env_at Sample.eight_o_clock) Sample.gw_seven
              Sample.empty_service 0%nat (snd run)
              (match fst run with Return l => l | Raise _ => [] end))
    as (self' & n'' & Hrun & Hevents & _ & _ & _ & Hsorted & _).
  - reflexivity.
  - vm_compute. reflexivity.
  - exists self', n''. split; [exact Hrun|]. split; [|exact Hsorted].
    rewrite Hevents. vm_compute. reflexivity.
Defined.

(** ** Containment of failures during a refresh *)

Section Containment.
Variable env : Env.

Lemma normalize_status event calendar e :
  normalize env event calendar = Some e -> ev_status e = upcoming.
Proof.
  unfold normalize. intros H.
  destruct (resolve_start env event) as [[start_dt all_day]|]; [|discriminate].
  simpl in H.
  destruct (resolve_end env event start_dt) as [end_dt|]; [|discriminate].
  simpl in H.
  destruct (raw_id event) as [id|]; [|discriminate].
  simpl in H. injection H as <-. reflexivity.
Qed.

Lemma unstamp n e : ev_status e = upcoming -> set_status upcoming (stamp env n e) = e.
Proof. destruct e. simpl. intros ->. reflexivity. Qed.

Lemma normalize_all_core calendar events : forall n,
  map (set_status upcoming) (fst (normalize_all env calendar n events))
  = omap (fun event => normalize env event calendar) events.
Proof.
  induction events as [|event rest IH]; intros n; simpl; [reflexivity|].
  destruct (normalize env event calendar) as [e|] eqn:He.
  - specialize (IH (S n)).
    destruct (normalize_all env calendar (S n) rest) as [l n'].
    simpl in *. rewrite IH, unstamp by (eapply normalize_status; eassumption).
    reflexivity.
  - apply IH.
Qed.

Lemma normalized_paired calendar (events : list RawEvent) :
  normalized env (map (fun event => (event, calendar)) events)
  = omap (fun event => normalize env event calendar) events.
Proof.
  unfold normalized.
  induction events as [|event rest IH]; simpl; [reflexivity|].
  destruct (normalize env event calendar); simpl; [f_equal|]; exact IH.
Qed.

Lemma normalized_app l1 l2 :
  normalized env (l1 ++ l2) = normalized env l1 ++ normalized env l2.
Proof. apply omap_app. Qed.

(** When every failing request fails with [HttpError], the loop over the
    calendars completes and accumulates the normalization of every
    record that has one, from every calendar whose request succeeded. *)
Lemma collect_contained gw calendars : forall n,
  (forall calendar e, calendar ∈ calendars ->
     events_list gw (cal_id calendar) = Raise e -> e = HttpError) ->
  exists all_events n',
    collect env gw n calendars = (Return all_events, n') /\
    map (set_status upcoming) all_events = normalized env (fetched gw calendars).
Proof.
  induction calendars as [|calendar rest IH]; intros n Hhttp; simpl.
  - exists [], n. split; reflexivity.
  - assert (Hrest : forall c e, c ∈ rest -> events_list gw (cal_id c) = Raise e -> e = HttpError).
    { intros c e Hc. apply Hhttp. right. exact Hc. }
    destruct (events_list gw (cal_id calendar)) as [events|e] eqn:Hfetch.
    + pose proof (normalize_all_core calendar events n) as Hcore.
      destruct (normalize_all env calendar n events) as [l n1].
      destruct (IH n1 Hrest) as (all_events & n' & Hcollect & Hall).
      rewrite Hcollect. exists (l ++ all_events), n'. split; [reflexivity|].
      rewrite map_app, normalized_app, normalized_paired, <- Hall. simpl in Hcore.
      rewrite Hcore. reflexivity.
    + rewrite (Hhttp calendar e) by (try left; assumption). simpl.
      destruct (IH n Hrest) as (all_events & n' & Hcollect & Hall).
      exists all_events, n'. split; assumption.
Qed.

(** The first request that fails with another exception ends the loop. *)
Lemma collect_aborts gw before calendar after e : forall n,
  (forall c e', c ∈ before -> events_list gw (cal_id c) = Raise e' -> e' = HttpError) ->
  events_list gw (cal_id calendar) = Raise e ->
  e <> HttpError ->
  exists n', collect env gw n (before ++ calendar :: after) = (Raise e, n').
Proof.
  intros n Hbefore Hfetch Hother. revert n.
  induction before as [|c rest IH]; intros n; simpl.
  - rewrite Hfetch. destruct e; try congruence; eexists; reflexivity.
  - assert (Hrest : forall c' e', c' ∈ rest ->
              events_list gw (cal_id c') = Raise e' -> e' = HttpError).
    { intros c' e' Hc'. apply Hbefore. right. exact Hc'. }
    destruct (events_list gw (cal_id c)) as [events|e'] eqn:Hc.
    + destruct (normalize_all env c n events) as [l n1].
      destruct (IH Hrest n1) as [n' ->]. eexists. reflexivity.
    + rewrite (Hbefore c e') by (try left; assumption). simpl. apply IH, Hrest.
Qed.

End Containment.

(** C9, as amended.  During a refresh, a request for one calendar that
    fails with [HttpError] and a malformed raw record are each contained:
    the failing unit is skipped and every other calendar and record is
    still processed, so the accumulated events are exactly the
    normalizations of the well-formed records of the calendars whose
    request succeeded.  A request for one calendar that fails with any other
    exception is caught by the outer handler only and ends the whole
    refresh with the empty result and the stored timeline untouched. *)
Theorem C9_contained_failures (env : Env) (gw : Gateway) (self : CalendarService) (n : nat) :
  get_service gw = true ->
  ((forall calendar e, calendar ∈ get_calendar_list gw ->
      events_list gw (cal_id calendar) = Raise e -> e = HttpError) ->
   exists all_events n',
     get_today_events env gw self n
     = (Return (take settings.MAX_EVENTS_DISPLAY (sort_by start_datetime all_events)),
        {| events := take settings.MAX_EVENTS_DISPLAY (sort_by start_datetime all_events);
           last_update := Some (clock env n') |},
        S n') /\
     map (set_status upcoming) all_events
     = normalized env (fetched gw (get_calendar_list gw))) /\
  (forall before calendar after e,
     get_calendar_list gw = before ++ calendar :: after ->
     (forall c e', c ∈ before -> events_list gw (cal_id c) = Raise e' -> e' = HttpError) ->
     events_list gw (cal_id calendar) = Raise e ->
     e <> HttpError ->
     exists n', get_today_events env gw self n = (Return [], self, n')).
Proof.
  intros Hservice. rewrite get_today_events_run, Hservice. split.
  - intros Hhttp.
    destruct (collect_contained env gw (get_calendar_list gw) (S n) Hhttp)
      as (all_events & n' & Hcollect & Hall).
    exists all_events, n'. rewrite Hcollect. split; [reflexivity|exact Hall].
  - intros before calendar after e Hlist Hbefore Hfetch Hother.
    destruct (collect_aborts env gw before calendar after e (S n) Hbefore Hfetch Hother)
      as [n' Hcollect].
    rewrite Hlist, Hcollect. exists n'. reflexivity.
Qed.

(** The request for the first calendar fails with [HttpError]: the record
    of the second calendar is on the timeline. *)
Lemma C9_contained_failures_witness :
  exists all_events n',
    get_today_events (Sample.env_at Sample.eight_o_clock) (Sample.gw_first_fails HttpError)
      Sample.loaded_service 0%nat
    = (Return (take settings.MAX_EVENTS_DISPLAY (sort_by start_datetime all_events)),
       {| events := take settings.MAX_EVENTS_DISPLAY (sort_by start_datetime all_events);
          last_update := Some (clock (Sample.env_at Sample.eight_o_clock) n') |},
       S n') /\
    map ev_id all_events = ["dinner"].
Proof.
  destruct (proj1 (C9_contained_failures (Sample.env_at Sample.eight_o_clock)
                     (Sample.gw_first_fails HttpError) Sample.loaded_service 0%nat
                     eq_refl))
    as (all_events & n' & Hrun & Hall).
  - intros calendar e Hin.
    apply elem_of_cons in Hin as [->|Hin]; [vm_compute; congruence|].
    apply elem_of_cons in Hin as [->|Hin]; [vm_compute; congruence|].
    inversion Hin.
  - exists all_events, n'. split; [exact Hrun|].
    apply (f_equal (map ev_id)) in Hall. rewrite map_map in Hall.
    rewrite <- (map_ext _ _ (fun e => eq_refl : ev_id (set_status upcoming e) = ev_id e)).
    rewrite Hall. vm_compute. reflexivity.
Defined.

(** The request for the first calendar fails with an exception that is not
    an [HttpError]: the refresh returns nothing and the well-formed record
    of the second calendar is never processed. *)
Lemma C9_counterexample :
  events_list (Sample.gw_first_fails TransportError) (cal_id Sample.work)
  = Raise TransportError /\
  events_list (Sample.gw_first_fails TransportError) (cal_id Sample.home)
  = Return [Sample.dinner] /\
  is_Some (normalize (Sample.env_at Sample.eight_o_clock) Sample.dinner Sample.home) /\
  get_today_events (Sample.env_at Sample.eight_o_clock) (Sample.gw_first_fails TransportError)
    Sample.empty_service 0%nat
  = (Return [], Sample.empty_service, 1%nat).
Proof.
  split; [reflexivity|]. split; [reflexivity|].
  split; [vm_compute; eexists; reflexivity|]. vm_compute. reflexivity.
Qed.

(** ** The notification rule engine *)

Section Rules.

Lemma window_spec lo x hi : window lo x hi = true <-> (lo <= x <= hi)%Q.
Proof.
  unfold window. rewrite andb_true_iff, !Qle_bool_iff. reflexivity.
Qed.

Lemma window_false lo x hi : window lo x hi = false <-> ~ (lo <= x <= hi)%Q.
Proof.
  rewrite <- window_spec. destruct (window lo x hi); split; congruence.
Qed.

(** One event yields at most one notification: [start] if it is in the
    start window, else [warning] if it is in the warning window. *)
Lemma notifications_loop_spec now warning_minutes timeline event kind :
  (event, kind) ∈ notifications_loop now warning_minutes timeline <->
  event ∈ timeline /\ ev_status event <> past /\
  let time_to_start := total_seconds (start_datetime event - now) in
  (kind = start /\ (0 <= time_to_start <= 60)%Q) \/
  (kind = warning /\
   (inject_Z (warning_minutes * 60 - 60) <= time_to_start
    <= inject_Z (warning_minutes * 60 + 60))%Q /\
   ~ (0 <= time_to_start <= 60)%Q).
Proof.
  induction timeline as [|e rest IH]; simpl.
  - split; [intros H; inversion H | intros [H _]; inversion H].
  - destruct (Status_eqb (ev_status e) past) eqn:Hpast.
    { rewrite IH. split.
      - intros (Hin & Hrest). split; [right; exact Hin | exact Hrest].
      - intros (Hin & Hstatus & Hrest). split; [|split; assumption].
        apply elem_of_cons in Hin as [->|Hin]; [|exact Hin].
        destruct (ev_status e); try discriminate. congruence. }
    assert (Hnot_past : ev_status e <> past).
    { intros Heq. rewrite Heq in Hpast. discriminate. }
    destruct (window 0 (total_seconds (start_datetime e - now)) 60) eqn:Hstart.
    { apply window_spec in Hstart. rewrite elem_of_cons, IH. split.
      - intros [Heq | (Hin & Hrest)].
        + injection Heq as -> ->. split; [left; reflexivity|].
          split; [exact Hnot_past|]. left. split; [reflexivity | exact Hstart].
        + split; [right; exact Hin | exact Hrest].
      - intros (Hin & Hstatus & Hrest).
        apply elem_of_cons in Hin as [->|Hin]; [|right; repeat split; assumption].
        left. destruct Hrest as [[-> _] | (_ & _ & Hno)]; [reflexivity|].
        exfalso. apply Hno, Hstart. }
    apply window_false in Hstart.
    destruct (window (inject_Z (warning_minutes * 60 - 60))
                (total_seconds (start_datetime e - now))
                (inject_Z (warning_minutes * 60 + 60))) eqn:Hwarning.
    { apply window_spec in Hwarning. rewrite elem_of_cons, IH. split.
      - intros [Heq | (Hin & Hrest)].
        + injection Heq as -> ->. split; [left; reflexivity|].
          split; [exact Hnot_past|]. right. repeat split; tauto.
        + split; [right; exact Hin | exact Hrest].
      - intros (Hin & Hstatus & Hrest).
        apply elem_of_cons in Hin as [->|Hin]; [|right; repeat split; assumption].
        left. destruct Hrest as [[_ Hyes] | (-> & _)]; [|reflexivity].
        exfalso. apply Hstart, Hyes. }
    apply window_false in Hwarning. rewrite IH. split.
    + intros (Hin & Hrest). split; [right; exact Hin | exact Hrest].
    + intros (Hin & Hstatus & Hrest). split; [|split; assumption].
      apply elem_of_cons in Hin as [->|Hin]; [|exact Hin].
      exfalso. destruct Hrest as [[_ Hyes] | (_ & Hyes & _)]; tauto.
Qed.


End Rules.




(** ** The notification scheduler *)

Section Scheduler.
Import notification_widget.
Variable env : Env.

Lemma widget_show_notification_run event_data type self n :
  widget_show_notification env event_data type self n
  = (Return tt,
     set_widget (shown_widget event_data type (notification_widget self)) self,
     match type with warning => S n | start => n end).
Proof.
  unfold widget_show_notification, on_widget, shown_widget. unfold_M.
  destruct type; destruct self; reflexivity.
Qed.

Lemma widget_dismiss_run self n :
  widget_dismiss self n
  = (Return tt,
     set_current None (set_widget (dismissed_widget (notification_widget self)) self), n).
Proof.
  unfold widget_dismiss, on_widget, on_notification_dismissed, dismissed_widget. unfold_M.
  destruct self; reflexivity.
Qed.

Lemma dismiss_current_run self n :
  dismiss_current self n
  = (Return tt,
     if is_showing (notification_widget self)
     then set_current None (set_widget (dismissed_widget (notification_widget self)) self)
     else self, n).
Proof.
  unfold dismiss_current. unfold bind at 1. unfold get at 1.
  destruct (is_showing (notification_widget self)); [apply widget_dismiss_run | reflexivity].
Qed.

Lemma show_notification_run event_data type self n :
  show_notification env event_data type self n
  = if is_showing (notification_widget self) then
      (Return tt,
       if existsb (same_identity event_data type) (notification_queue self) then self
       else set_queue (notification_queue self ++ [alert event_data type (clock env n)]) self,
       S n)
    else
      (Return tt,
       set_widget (shown_widget event_data type (notification_widget self))
         (set_current (Some (alert event_data type (clock env n))) self),
       match type with warning => S (S n) | start => S n end).
Proof.
  unfold show_notification. unfold bind at 1. unfold datetime_now at 1.
  unfold bind at 1. unfold get at 1. cbv zeta.
  destruct (is_showing (notification_widget self)).
  - destruct (existsb _ _); reflexivity.
  - unfold bind at 1. unfold modify at 1. rewrite widget_show_notification_run.
    reflexivity.
Qed.

Lemma process_queue_run self n :
  process_queue env self n
  = if is_showing (notification_widget self) then (Return tt, self, n)
    else
      match notification_queue self with
      | [] => (Return tt, self, n)
      | next_notification :: rest =>
          (Return tt,
           set_widget (shown_widget (n_event next_notification) (n_type next_notification)
                         (notification_widget self))
             (set_current (Some next_notification) (set_queue rest self)),
           match n_type next_notification with warning => S n | start => n end)
      end.
Proof.
  unfold process_queue. unfold bind at 1. unfold get at 1.
  destruct (is_showing (notification_widget self)); [reflexivity|]. simpl.
  destruct (notification_queue self) as [|next rest]; [reflexivity|].
  unfold bind at 1. unfold modify at 1. unfold bind at 1. unfold modify at 1.
  rewrite widget_show_notification_run. reflexivity.
Qed.

(** A widget dismissed while showing still counts as showing until its
    fade-out has ended. *)
Lemma dismissed_still_showing w :
  is_showing w = true -> is_showing (dismissed_widget w) = true.
Proof.
  unfold is_showing, dismissed_widget, fade_out_start.
  destruct w as [ce nt v o fi fo t]. simpl.
  destruct fo; simpl; [tauto|]. intros H. apply andb_true_iff in H as [-> _]. reflexivity.
Qed.

Lemma qt_event_run ev self n :
  exists w', qt_event ev self n
             = (Return tt,
                {| notification_widget := w';
                   notification_queue := notification_queue self;
                   current_notification :=
                     match ev with
                     | AutoDismissTimeout =>
                         if auto_dismiss_timer (notification_widget self) then None
                         else current_notification self
                     | _ => current_notification self
                     end |}, n).
Proof.
  unfold qt_event. unfold bind at 1. unfold get at 1.
  destruct self as [w q c]. simpl.
  destruct ev; simpl.
  - destruct (fade_in_running w || fade_out_running w); eexists; reflexivity.
  - destruct (fade_in_running w); eexists; reflexivity.
  - destruct (fade_out_running w); eexists; reflexivity.
  - destruct (auto_dismiss_timer w); eexists; reflexivity.
Qed.

(** Every call returns, and acts on the backlog in one of four ways. *)
Lemma call_queue_step c self n :
  exists self' n', call env c self n = (Return tt, self', n') /\ queue_step c self self'.
Proof.
  destruct c as [event_data type | | | | | ev]; simpl.
  - rewrite show_notification_run.
    destruct (is_showing (notification_widget self)) eqn:Hshowing.
    + destruct (existsb (same_identity event_data type) (notification_queue self)) eqn:Hdup.
      * eexists _, _. split; [reflexivity|]. apply queue_kept. reflexivity.
      * eexists _, _. split; [reflexivity|].
        eapply queue_appended; try reflexivity; assumption.
    + eexists _, _. split; [reflexivity|]. apply queue_kept. reflexivity.
  - rewrite process_queue_run.
    destruct (is_showing (notification_widget self)) eqn:Hshowing.
    + eexists _, _. split; [reflexivity|]. apply queue_kept. reflexivity.
    + destruct (notification_queue self) as [|next rest] eqn:Hqueue.
      * eexists _, _. split; [reflexivity|]. apply queue_kept. reflexivity.
      * eexists _, _. split; [reflexivity|].
        apply (queue_popped _ _ _ next); try reflexivity; assumption.
  - rewrite dismiss_current_run. eexists _, _. split; [reflexivity|].
    apply queue_kept. destruct (is_showing (notification_widget self)); reflexivity.
  - eexists _, _. split; [reflexivity|]. apply queue_cleared; reflexivity.
  - rewrite widget_dismiss_run. eexists _, _. split; [reflexivity|].
    apply queue_kept. reflexivity.
  - destruct (qt_event_run ev self n) as [w' ->]. eexists _, _. split; [reflexivity|].
    apply queue_kept. reflexivity.
Qed.

Lemma same_identity_spec event_data type queue :
  existsb (same_identity event_data type) queue = false ->
  (ev_id event_data, type) ∉ map identity queue.
Proof.
  induction queue as [|queued rest IH]; simpl; intros Hdup Hin; [inversion Hin|].
  apply orb_false_iff in Hdup as [Hhead Hrest].
  apply elem_of_cons in Hin as [Heq|Hin]; [|exact (IH Hrest Hin)].
  unfold identity in Heq.
  pose proof (f_equal fst Heq) as Hid. pose proof (f_equal snd Heq) as Hkind.
  simpl in Hid, Hkind.
  unfold same_identity in Hhead. rewrite <- Hid, <- Hkind in Hhead.
  rewrite (proj2 (String.eqb_eq _ _) eq_refl) in Hhead.
  destruct type; discriminate.
Qed.

Lemma queue_step_NoDup c self self' :
  queue_step c self self' ->
  NoDup (map identity (notification_queue self)) ->
  NoDup (map identity (notification_queue self')).
Proof.
  intros [Hkept | event_data type timestamp _ _ Hdup Happ _ _ | next _ _ Hpop _ | _ Hclear] Hnodup.
  - rewrite Hkept. exact Hnodup.
  - rewrite Happ, map_app. simpl. apply NoDup_app. split; [exact Hnodup|]. split.
    + intros x Hx Hin. apply list_elem_of_singleton in Hin. subst x.
      exact (same_identity_spec _ _ _ Hdup Hx).
    + apply NoDup_singleton.
  - rewrite Hpop in Hnodup. simpl in Hnodup. apply NoDup_cons in Hnodup. tauto.
  - rewrite Hclear. constructor.
Qed.

End Scheduler.

(** ** The rule engine and its wiring to the scheduler *)

Section Engine.
Import notification_manager.
Variable env : Env.

(** The scheduler after the slot of [hide_notification]. *)
Lemma hide_notification_emit_run app n :
  hide_notification_emit app n
  = (Return tt,
     {| calendar_service := calendar_service app;
        notification_manager := notification_manager app;
        ui_notification_manager :=
          snd (fst (notification_widget.dismiss_current (ui_notification_manager app) n));
        emitted := emitted app ++ [hide_notification] |},
     n).
Proof.
  unfold hide_notification_emit. unfold bind, modify, zoom. simpl.
  rewrite dismiss_current_run. reflexivity.
Qed.

Lemma show_notification_emit_run event type app n :
  show_notification_emit env event type app n
  = (Return tt,
     {| calendar_service := calendar_service app;
        notification_manager := notification_manager app;
        ui_notification_manager :=
          snd (fst (notification_widget.show_notification env event type
                      (ui_notification_manager app) n));
        emitted := emitted app ++ [show_notification event type] |},
     snd (notification_widget.show_notification env event type
            (ui_notification_manager app) n)).
Proof.
  unfold show_notification_emit. unfold bind, modify, zoom. simpl.
  rewrite show_notification_run.
  destruct (notification_widget.is_showing _); reflexivity.
Qed.

(** [show_event_notification] never raises.  Holding a current
    notification, it emits [hide_notification] first; then it records the
    new notification, emits [show_notification] and starts its timer. *)
Lemma show_event_notification_run event type app n :
  show_event_notification env event type app n
  = let hide := match current_notification (notification_manager app) with
                | Some _ => true
                | None => false
                end in
    let ui := if hide
              then snd (fst (notification_widget.dismiss_current
                               (ui_notification_manager app) n))
              else ui_notification_manager app in
    let shown := notification_widget.show_notification env event type ui (S (S n)) in
    (Return tt,
     {| calendar_service := calendar_service app;
        notification_manager :=
          {| shown_notifications := shown_notifications (notification_manager app);
             current_notification := Some (alert event type (clock env n));
             notification_start_time := Some (clock env (S n));
             dismiss_timer := true |};
        ui_notification_manager := snd (fst shown);
        emitted := emitted app
                   ++ (if hide then [hide_notification] else [])
                   ++ [show_notification event type] |},
     snd shown).
Proof.
  unfold show_event_notification, try_except.
  unfold bind at 1. unfold get at 1. unfold bind at 1.
  destruct app as [cal [shown_keys current start_time timer] ui log_]. simpl.
  destruct current as [c|].
  - rewrite hide_notification_emit_run. simpl.
    unfold bind at 1. unfold datetime_now at 1.
    unfold bind at 1. unfold on_self at 1. unfold modify at 1.
    unfold bind at 1. unfold datetime_now at 1.
    unfold bind at 1. unfold on_self at 1. unfold modify at 1.
    unfold bind at 1. rewrite show_notification_emit_run. simpl.
    unfold on_self, modify. simpl. rewrite <- app_assoc. reflexivity.
  - unfold ret at 1.
    unfold bind at 1. unfold datetime_now at 1.
    unfold bind at 1. unfold on_self at 1. unfold modify at 1.
    unfold bind at 1. unfold datetime_now at 1.
    unfold bind at 1. unfold on_self at 1. unfold modify at 1.
    unfold bind at 1. rewrite show_notification_emit_run. simpl.
    unfold on_self, modify. simpl. reflexivity.
Qed.

Lemma cleanup_run app n :
  _cleanup_old_notifications env app n
  = (Return tt,
     if (100 <? size (shown_notifications (notification_manager app)))%nat
     then set_self (set_shown ∅ (notification_manager app)) app
     else app,
     S n).
Proof.
  unfold _cleanup_old_notifications, try_except.
  unfold bind at 1. unfold datetime_now at 1. unfold bind at 1. unfold get at 1.
  destruct (100 <? size _)%nat; reflexivity.
Qed.

(** A pair whose key is in the cache is skipped without any effect. *)
Lemma check_notification_skip event type app n :
  notification_key event type ∈ shown_notifications (notification_manager app) ->
  check_notification env (event, type) app n = (Return tt, app, n).
Proof.
  intros Hin. unfold check_notification. unfold bind at 1. unfold get at 1.
  rewrite bool_decide_eq_true_2 by exact Hin. reflexivity.
Qed.

(** A pair whose key is not in the cache is handed to the scheduler, then
    its key is added, then the cache is emptied if it holds more than 100
    keys. *)
Lemma check_notification_fire event type app n :
  notification_key event type ∉ shown_notifications (notification_manager app) ->
  exists app1 n1,
    show_event_notification env event type app n = (Return tt, app1, n1) /\
    check_notification env (event, type) app n
    = (Return tt,
       (let keys := {[ notification_key event type ]}
                    ∪ shown_notifications (notification_manager app) in
        set_self (set_shown (if (100 <? size keys)%nat then ∅ else keys)
                    (notification_manager app1)) app1),
       S n1).
Proof.
  intros Hnotin. unfold check_notification. unfold bind at 1. unfold get at 1.
  rewrite bool_decide_eq_false_2 by exact Hnotin.
  unfold bind at 1. rewrite show_event_notification_run. cbv zeta.
  eexists _, _. split; [reflexivity|].
  unfold bind at 1. unfold on_self at 1. unfold modify at 1.
  rewrite cleanup_run. simpl.
  destruct (100 <? size _)%nat; reflexivity.
Qed.

Lemma dismiss_notification_run app n :
  dismiss_notification app n
  = (Return tt,
     match current_notification (notification_manager app) with
     | Some _ =>
         {| calendar_service := calendar_service app;
            notification_manager :=
              {| shown_notifications := shown_notifications (notification_manager app);
                 current_notification := None;
                 notification_start_time := None;
                 dismiss_timer := false |};
            ui_notification_manager :=
              snd (fst (notification_widget.dismiss_current
                          (ui_notification_manager app) n));
            emitted := emitted app ++ [hide_notification] |}
     | None => app
     end, n).
Proof.
  unfold dismiss_notification. unfold bind at 1. unfold get at 1.
  destruct app as [cal [keys active start_time timer] ui signals]. simpl.
  destruct active as [held|]; [|reflexivity].
  unfold bind at 1. rewrite hide_notification_emit_run. reflexivity.
Qed.

End Engine.

Section Dedup.
Import notification_manager.
Variable env : Env.

Lemma set_calendar_service_same app : set_calendar_service (calendar_service app) app = app.
Proof. destruct app. reflexivity. Qed.

Lemma check_notifications_run app n :
  check_notifications env app n
  = try_except Exception
      (for_each (notifications_loop (clock env n) settings.WARNING_MINUTES
                   (events (calendar_service app)))
                (check_notification env))
      (fun _ => ret tt) app (S n).
Proof.
  unfold check_notifications, try_except. unfold bind at 1. unfold zoom at 1.
  unfold get_events_needing_notification. unfold bind, datetime_now, get, ret. simpl.
  rewrite set_calendar_service_same. reflexivity.
Qed.

Lemma for_each_skip notifications app n :
  (forall event type, (event, type) ∈ notifications ->
     notification_key event type ∈ shown_notifications (notification_manager app)) ->
  for_each notifications (check_notification env) app n = (Return tt, app, n).
Proof.
  induction notifications as [|[event type] rest IH]; intros Hall; [reflexivity|].
  cbn [for_each]. unfold bind. rewrite check_notification_skip by (apply Hall; left).
  apply IH. intros e k Hin. apply Hall. right. exact Hin.
Qed.

(** A candidate in the start window is found by the scan. *)
Lemma start_notification_found now lead timeline event :
  event ∈ timeline ->
  ev_status event <> past ->
  start_datetime event - now = lead * microseconds_per_second ->
  0 <= lead <= 60 ->
  (event, start) ∈ notifications_loop now settings.WARNING_MINUTES timeline.
Proof.
  intros Hin Hstatus Hlead Hrange. apply notifications_loop_spec.
  split; [exact Hin|]. split; [exact Hstatus|]. left. split; [reflexivity|].
  rewrite Hlead. unfold total_seconds, microseconds_per_second, Qle. simpl. lia.
Qed.

Lemma union_absorb (X Y : gset string) k : k ∈ X -> X ∪ ({[ k ]} ∪ Y) = X ∪ Y.
Proof.
  intros Hin. apply set_eq. intros x. rewrite !elem_of_union, elem_of_singleton.
  split; [intros [H|[->|H]]; auto | intros [H|H]; auto].
Qed.

Lemma union_shift (X Y : gset string) k : {[ k ]} ∪ X ∪ Y = X ∪ ({[ k ]} ∪ Y).
Proof.
  apply set_eq. intros x. rewrite !elem_of_union, elem_of_singleton. tauto.
Qed.

(** The candidates of a scan, examined while the cache has room for all
    their keys: nothing is forgotten.  The cache ends as the union of what
    it held and the keys of the candidates; only candidates whose key was
    not in the cache are handed over, and each such key is handed over. *)
Lemma for_each_keeps_keys found : forall app n,
  (size (shown_notifications (notification_manager app) ∪ keys_of found) <= 100)%nat ->
  exists app' n' emitted_now,
    for_each found (check_notification env) app n = (Return tt, app', n') /\
    shown_notifications (notification_manager app')
    = shown_notifications (notification_manager app) ∪ keys_of found /\
    emitted app' = emitted app ++ emitted_now /\
    (forall event type,
       show_notification event type ∈ emitted_now ->
       (event, type) ∈ found /\
       notification_key event type ∉ shown_notifications (notification_manager app)) /\
    (forall event type,
       (event, type) ∈ found ->
       notification_key event type ∉ shown_notifications (notification_manager app) ->
       Exists (fires (notification_key event type)) emitted_now).
Proof.
  induction found as [|[event type] rest IH]; intros app n Hroom.
  - exists app, n, []. split; [reflexivity|].
    split; [unfold keys_of; simpl; rewrite (right_id_L ∅ (∪)); reflexivity|].
    split; [rewrite app_nil_r; reflexivity|].
    split; [intros e k Hin; inversion Hin | intros e k Hin; inversion Hin].
  - assert (Hkeys : keys_of ((event, type) :: rest)
                    = {[ notification_key event type ]} ∪ keys_of rest) by reflexivity.
    rewrite Hkeys in Hroom. cbn [for_each]. unfold bind.
    destruct (decide (notification_key event type
                        ∈ shown_notifications (notification_manager app))) as [Hin|Hnotin].
    + rewrite check_notification_skip by exact Hin.
      destruct (IH app n) as (app' & n' & emitted_now & Hrun & Hcache & Hemitted & Honly & Hall).
      { rewrite union_absorb in Hroom by exact Hin. exact Hroom. }
      exists app', n', emitted_now. split; [exact Hrun|].
      split; [rewrite Hcache, Hkeys, union_absorb by exact Hin; reflexivity|].
      split; [exact Hemitted|]. split.
      * intros e k He. destruct (Honly e k He) as [Hfound Hfresh].
        split; [right; exact Hfound | exact Hfresh].
      * intros e k He Hfresh. apply elem_of_cons in He as [Heq|He]; [|exact (Hall e k He Hfresh)].
        exfalso. apply Hfresh.
        assert (e = event) as -> by exact (f_equal fst Heq).
        assert (k = type) as -> by exact (f_equal snd Heq). exact Hin.
    + destruct (check_notification_fire env event type app n Hnotin)
        as (app1 & n1 & Hshow & Hfire).
      rewrite show_event_notification_run in Hshow. cbv zeta in Hshow.
      injection Hshow as Happ1 Hn1.
      assert (Hfits :
        (100 <? size ({[ notification_key event type ]}
                      ∪ shown_notifications (notification_manager app)))%nat = false).
      { apply Nat.ltb_ge. etransitivity; [|exact Hroom]. apply subseteq_size.
        rewrite <- union_shift. apply union_subseteq_l. }
      cbv zeta in Hfire. rewrite Hfits in Hfire. rewrite Hfire.
      match goal with
      | |- context [for_each rest _ ?a ?m] =>
          destruct (IH a m)
            as (app' & n' & emitted_now & Hrun & Hcache & Hemitted & Honly & Hall)
      end.
      { rewrite <- Happ1. cbn [set_self set_shown notification_manager shown_notifications].
        rewrite union_shift. exact Hroom. }
      rewrite <- Happ1 in Hcache, Hemitted.
      cbn [set_self set_shown notification_manager shown_notifications emitted]
        in Hcache, Hemitted.
      eexists app', n', _. split; [exact Hrun|].
      split; [rewrite Hcache, Hkeys; apply union_shift|].
      split; [rewrite Hemitted, <- !app_assoc; reflexivity|]. split.
      * intros e k He.
        rewrite !elem_of_app in He. destruct He as [He | [He | He]].
        -- destruct (current_notification (notification_manager app));
             [apply list_elem_of_singleton in He; discriminate | inversion He].
        -- apply list_elem_of_singleton in He. injection He as -> ->.
           split; [left | exact Hnotin].
        -- destruct (Honly e k He) as [Hfound Hfresh].
           split; [right; exact Hfound|].
           rewrite <- Happ1 in Hfresh.
           cbn [set_self set_shown notification_manager shown_notifications] in Hfresh.
           intros Hold. apply Hfresh. apply elem_of_union_r. exact Hold.
      * intros e k He Hfresh.
        destruct (decide (notification_key e k = notification_key event type)) as [Hsame|Hother].
        -- apply Exists_app. right. apply Exists_app. left.
           constructor. simpl. symmetry. exact Hsame.
        -- apply Exists_app. right. apply Exists_app. right.
           apply elem_of_cons in He as [Heq|He].
           { exfalso. apply Hother.
             assert (e = event) as -> by exact (f_equal fst Heq).
             assert (k = type) as -> by exact (f_equal snd Heq). reflexivity. }
           apply (Hall e k He).
           rewrite <- Happ1.
           cbn [set_self set_shown notification_manager shown_notifications].
           rewrite elem_of_union, elem_of_singleton. tauto.
Qed.

End Dedup.

(** C5, as amended.  A pair whose key is in the dedup cache when a scan
    examines it is skipped without any effect.  A pair that fires is added
    to the cache right after the hand-over, and a key leaves the cache only
    when the whole cache is emptied, which [_cleanup_old_notifications]
    does whenever an addition leaves more than 100 keys in it; dismissals
    and the scheduler do not touch the cache.  A scan for which the keys in
    the cache and the keys of the pairs it finds number at most 100 forgets
    nothing: the cache ends as the union of the two, and the scan hands
    over only pairs whose key was not in the cache, each such key at least
    once.  In particular an event that fired [start] when starting in 45
    seconds does not fire again on a later scan, 10 seconds later or at any
    other time, as long as its key is still in the cache and neither scan
    takes the cache beyond 100 keys. *)
Theorem C5_dedup (env : Env) (app : notification_manager.App) (n : nat) :
  (forall event type,
     notification_manager.notification_key event type
       ∈ notification_manager.shown_notifications
           (notification_manager.notification_manager app) ->
     notification_manager.check_notification env (event, type) app n = (Return tt, app, n)) /\
  ((forall event type,
      (event, type) ∈ notifications_loop (clock env n) settings.WARNING_MINUTES
                        (events (notification_manager.calendar_service app)) ->
      notification_manager.notification_key event type
        ∈ notification_manager.shown_notifications
            (notification_manager.notification_manager app)) ->
   notification_manager.check_notifications env app n = (Return tt, app, S n)) /\
  (forall event type,
     notification_manager.notification_key event type
       ∉ notification_manager.shown_notifications
           (notification_manager.notification_manager app) ->
     exists app1 n1 before,
       notification_manager.check_notification env (event, type) app n
       = (Return tt, app1, n1) /\
       notification_manager.emitted app1
       = notification_manager.emitted app ++ before
         ++ [notification_manager.show_notification event type] /\
       notification_manager.shown_notifications
         (notification_manager.notification_manager app1)
       = (let keys := {[ notification_manager.notification_key event type ]}
                      ∪ notification_manager.shown_notifications
                          (notification_manager.notification_manager app) in
          if (100 <? size keys)%nat then ∅ else keys)) /\
  (let found := notifications_loop (clock env n) settings.WARNING_MINUTES
                  (events (notification_manager.calendar_service app)) in
   (size (notification_manager.shown_notifications
            (notification_manager.notification_manager app) ∪ keys_of found) <= 100)%nat ->
   exists app1 n1 emitted_now,
     notification_manager.check_notifications env app n = (Return tt, app1, n1) /\
     notification_manager.shown_notifications
       (notification_manager.notification_manager app1)
     = notification_manager.shown_notifications
         (notification_manager.notification_manager app) ∪ keys_of found /\
     notification_manager.emitted app1 = notification_manager.emitted app ++ emitted_now /\
     (forall event type,
        notification_manager.show_notification event type ∈ emitted_now ->
        (event, type) ∈ found /\
        notification_manager.notification_key event type
          ∉ notification_manager.shown_notifications
              (notification_manager.notification_manager app)) /\
     (forall event type,
        (event, type) ∈ found ->
        notification_manager.notification_key event type
          ∉ notification_manager.shown_notifications
              (notification_manager.notification_manager app) ->
        Exists (fires (notification_manager.notification_key event type)) emitted_now) /\
     forall event,
       event ∈ events (notification_manager.calendar_service app) ->
       ev_status event <> past ->
       start_datetime event - clock env n = 45 * microseconds_per_second ->
       notification_manager.notification_key event start
         ∉ notification_manager.shown_notifications
             (notification_manager.notification_manager app) ->
       Exists (fires (notification_manager.notification_key event start)) emitted_now /\
       forall later m,
         notification_manager.notification_key event start
           ∈ notification_manager.shown_notifications
               (notification_manager.notification_manager later) ->
         (size (notification_manager.shown_notifications
                  (notification_manager.notification_manager later)
                ∪ keys_of (notifications_loop (clock env m) settings.WARNING_MINUTES
                             (events (notification_manager.calendar_service later))))
          <= 100)%nat ->
         exists app2 n2 emitted_later,
           notification_manager.check_notifications env later m = (Return tt, app2, n2) /\
           notification_manager.emitted app2
           = notification_manager.emitted later ++ emitted_later /\
           ~ Exists (fires (notification_manager.notification_key event start))
               emitted_later /\
           notification_manager.notification_key event start
             ∈ notification_manager.shown_notifications
                 (notification_manager.notification_manager app2)) /\
  (exists app1,
     notification_manager.dismiss_notification app n = (Return tt, app1, n) /\
     notification_manager.auto_dismiss_notification app n = (Return tt, app1, n) /\
     notification_manager.shown_notifications (notification_manager.notification_manager app1)
     = notification_manager.shown_notifications
         (notification_manager.notification_manager app)) /\
  (forall c,
     exists app1 n1,
       notification_manager.scheduler_call env c app n = (Return tt, app1, n1) /\
       notification_manager.shown_notifications
         (notification_manager.notification_manager app1)
       = notification_manager.shown_notifications
           (notification_manager.notification_manager app)).
Proof.
  split; [|split; [|split; [|split; [|split]]]].
  - intros event type Hin. apply check_notification_skip. exact Hin.
  - intros Hall. rewrite check_notifications_run. unfold try_except.
    rewrite for_each_skip by exact Hall. reflexivity.
  - intros event type Hfresh.
    destruct (check_notification_fire env event type app n Hfresh)
      as (shown & n1 & Hshow & Hfire).
    rewrite show_event_notification_run in Hshow. cbv zeta in Hshow.
    injection Hshow as Hshown Hn1.
    eexists _, _, _. split; [exact Hfire|].
    rewrite <- Hshown. split; reflexivity.
  - intros found Hroom.
    destruct (for_each_keeps_keys env found app (S n) Hroom)
      as (app1 & n1 & emitted_now & Hrun & Hcache & Hemitted & Honly & Hall).
    exists app1, n1, emitted_now.
    split; [rewrite check_notifications_run; unfold try_except; fold found;
            rewrite Hrun; reflexivity|].
    split; [exact Hcache|]. split; [exact Hemitted|].
    split; [exact Honly|]. split; [exact Hall|].
    intros event Hin Hstatus Hlead Hfresh.
    assert (Hfound : (event, start) ∈ found).
    { apply (start_notification_found (clock env n) 45); [assumption..|lia]. }
    split; [exact (Hall event start Hfound Hfresh)|].
    intros later m Hcached Hroom'.
    destruct (for_each_keeps_keys env _ later (S m) Hroom')
      as (app2 & n2 & emitted_later & Hrun' & Hcache' & Hemitted' & Honly' & _).
    exists app2, n2, emitted_later.
    split; [rewrite check_notifications_run; unfold try_except; rewrite Hrun'; reflexivity|].
    split; [exact Hemitted'|]. split.
    + intros Hagain. apply Exists_exists in Hagain as (signal & Hsignal & Hfires).
      destruct signal as [e k|]; [|exact Hfires].
      simpl in Hfires. destruct (Honly' e k Hsignal) as [_ Hnew].
      apply Hnew. rewrite Hfires. exact Hcached.
    + rewrite Hcache'. apply elem_of_union_l. exact Hcached.
  - eexists. split; [apply dismiss_notification_run|]. split.
    + unfold notification_manager.auto_dismiss_notification. unfold bind at 1. unfold get at 1.
      destruct (notification_manager.current_notification
                  (notification_manager.notification_manager app)) eqn:Hcurrent.
      * rewrite dismiss_notification_run, Hcurrent. reflexivity.
      * reflexivity.
    + destruct (notification_manager.current_notification
                  (notification_manager.notification_manager app)); reflexivity.
  - intros c.
    destruct (call_queue_step env c (notification_manager.ui_notification_manager app) n)
      as (self' & n' & Hcall & _).
    unfold notification_manager.scheduler_call, zoom. rewrite Hcall.
    eexists _, _. split; [reflexivity|]. destruct app. reflexivity.
Qed.

(** With an empty cache and a timeline of two events, the one that starts
    in 45 seconds fires; the scan made 10 seconds later hands nothing over
    for it and keeps its key. *)
Lemma C5_dedup_witness :
  let env := Sample.env_at Sample.eight_o_clock in
  let app := Sample.app_with [Sample.briefing; Sample.standup] ∅ in
  let app1 := snd (fst (notification_manager.check_notifications env app 0%nat)) in
  Exists (fires (notification_manager.notification_key Sample.briefing start))
    (notification_manager.emitted app1) /\
  clock env 10 = clock env 0 + 10 * microseconds_per_second /\
  exists app2 n2 emitted_later,
    notification_manager.check_notifications env app1 10%nat = (Return tt, app2, n2) /\
    notification_manager.emitted app2
    = notification_manager.emitted app1 ++ emitted_later /\
    ~ Exists (fires (notification_manager.notification_key Sample.briefing start))
        emitted_later /\
    notification_manager.notification_key Sample.briefing start
      ∈ notification_manager.shown_notifications
          (notification_manager.notification_manager app2).
Proof.
  intros env app app1.
  destruct (proj1 (proj2 (proj2 (proj2 (C5_dedup env app 0%nat)))))
    as (app1' & n1 & emitted_now & Hfirst & _ & Hemitted & _ & _ & Hbriefing).
  { vm_compute. lia. }
  assert (app1' = app1) as -> by (unfold app1; rewrite Hfirst; reflexivity).
  destruct (Hbriefing Sample.briefing) as [Hfired Hlater].
  { left. }
  { discriminate. }
  { reflexivity. }
  { apply not_elem_of_empty. }
  split; [rewrite Hemitted; exact Hfired|].
  split; [vm_compute; reflexivity|].
  apply (Hlater app1 10%nat).
  - apply (bool_decide_eq_true _). vm_compute. reflexivity.
  - vm_compute. lia.
Defined.

(** With a hundred keys in the cache, the start notification of the event
    that starts in 45 seconds is the 101st key: the cache is emptied right
    after it is added, and the scan made 10 seconds later fires the same
    pair again. *)
Lemma C5_counterexample :
  start_datetime Sample.briefing - clock (Sample.env_at Sample.eight_o_clock) 0
  = 45 * microseconds_per_second /\
  clock (Sample.env_at Sample.eight_o_clock) 10
  = clock (Sample.env_at Sample.eight_o_clock) 0 + 10 * microseconds_per_second /\
  size Sample.hundred_keys = 100%nat /\
  exists app1 n1 app1' n1' app2 n2,
    notification_manager.check_notifications (Sample.env_at Sample.eight_o_clock)
      (Sample.app_with [Sample.briefing] Sample.hundred_keys) 0%nat
    = (Return tt, app1, n1) /\
    notification_manager.emitted app1
    = [notification_manager.show_notification Sample.briefing start] /\
    notification_manager.shown_notifications (notification_manager.notification_manager app1)
    = ∅ /\
    notification_manager.scheduler_call (Sample.env_at Sample.eight_o_clock)
      (notification_widget.Qt notification_widget.FadeInFinished) app1 n1
    = (Return tt, app1', n1') /\
    notification_manager.check_notifications (Sample.env_at Sample.eight_o_clock)
      app1' 10%nat
    = (Return tt, app2, n2) /\
    notification_manager.emitted app2
    = [notification_manager.show_notification Sample.briefing start;
       notification_manager.hide_notification;
       notification_manager.show_notification Sample.briefing start].
Proof.
  split; [reflexivity|]. split; [vm_compute; reflexivity|]. split; [vm_compute; reflexivity|].
  eexists _, _, _, _, _, _.
  split; [vm_compute; reflexivity|].
  split; [reflexivity|].
  split; [reflexivity|].
  split; [vm_compute; reflexivity|].
  split; [vm_compute; reflexivity|].
  reflexivity.
Qed.

(** With ninety-nine keys in the cache and two events in their start
    window, the first pair fires as the 100th key and stays; the second
    pair of the same scan is the 101st key, the cache is emptied, and the
    scan made 10 seconds later fires both pairs again. *)
Example later_pair_empties_the_cache :
  let env := Sample.env_at Sample.eight_o_clock in
  let meeting := Sample.event_at "meeting" (Sample.eight_o_clock + Sample.seconds 50)
                   upcoming in
  size Sample.ninety_nine_keys = 99%nat /\
  exists app1 n1 app2 n2,
    notification_manager.check_notifications env
      (Sample.app_with [Sample.briefing; meeting] Sample.ninety_nine_keys) 0%nat
    = (Return tt, app1, n1) /\
    notification_manager.emitted app1
    = [notification_manager.show_notification Sample.briefing start;
       notification_manager.hide_notification;
       notification_manager.show_notification meeting start] /\
    notification_manager.shown_notifications (notification_manager.notification_manager app1)
    = ∅ /\
    notification_manager.check_notifications env app1 10%nat = (Return tt, app2, n2) /\
    notification_manager.emitted app2
    = notification_manager.emitted app1
      ++ [notification_manager.hide_notification;
          notification_manager.show_notification Sample.briefing start;
          notification_manager.hide_notification;
          notification_manager.show_notification meeting start].
Proof.
  split; [vm_compute; reflexivity|].
  eexists _, _, _, _.
  split; [vm_compute; reflexivity|].
  split; [reflexivity|].
  split; [reflexivity|].
  split; [vm_compute; reflexivity|].
  reflexivity.
Qed.

(** ** The backlog *)

Section Backlog.
Variable env : Env.

Lemma reachable_NoDup st :
  notification_widget.reachable env st ->
  NoDup (map identity (notification_widget.notification_queue (fst st))).
Proof.
  induction 1 as [n | c [self n] Hreach IH]; [constructor|].
  unfold notification_widget.after. simpl in *.
  destruct (call_queue_step env c self n) as (self' & n' & Hcall & Hstep).
  rewrite Hcall. simpl. eapply queue_step_NoDup; eassumption.
Qed.

(** Arriving from the rule engine while it holds a current notification
    and the widget is showing: the alert on display is dismissed, and the
    new record is queued behind its fade-out. *)
Lemma arrival_dismisses_active app n event type held :
  notification_manager.current_notification (notification_manager.notification_manager app)
  = Some held ->
  notification_widget.is_showing
    (notification_widget.notification_widget
       (notification_manager.ui_notification_manager app)) = true ->
  exists app' n',
    notification_manager.show_event_notification env event type app n
    = (Return tt, app', n') /\
    notification_manager.emitted app'
    = notification_manager.emitted app
      ++ [notification_manager.hide_notification;
          notification_manager.show_notification event type] /\
    notification_widget.current_notification
      (notification_manager.ui_notification_manager app') = None /\
    notification_widget.notification_widget
      (notification_manager.ui_notification_manager app')
    = dismissed_widget
        (notification_widget.notification_widget
           (notification_manager.ui_notification_manager app)) /\
    notification_widget.notification_queue
      (notification_manager.ui_notification_manager app')
    = (let queue := notification_widget.notification_queue
                      (notification_manager.ui_notification_manager app) in
       if existsb (notification_widget.same_identity event type) queue then queue
       else queue ++ [alert event type (clock env (S (S n)))]).
Proof.
  intros Hheld Hshowing.
  rewrite show_event_notification_run, Hheld. cbv zeta.
  rewrite dismiss_current_run, Hshowing. cbn [fst snd].
  rewrite show_notification_run.
  cbn [notification_widget.notification_widget notification_widget.set_current
       notification_widget.set_widget].
  rewrite (dismissed_still_showing _ Hshowing).
  eexists _, _. split; [reflexivity|]. cbn [fst snd].
  cbn [notification_manager.emitted notification_manager.ui_notification_manager].
  split; [reflexivity|].
  destruct (existsb _ _); repeat split.
Qed.

End Backlog.

(** C8, as amended.  At all reachable scheduler states, the backlog never
    contains two records with the same (eventId, kind) pair: a record is
    appended only after the arrival check found no queued record of its
    identity.  The check looks at the queued records only, not at the
    active record: what a call of [show_notification] does to the backlog
    is decided by [is_showing] and the queued records alone, so the backlog
    can hold the pair of the active record (an alert asked for again once
    its fade-in is over is queued behind itself).  The dedup
    cache is consulted by the rule engine before the hand-over: a pair
    found in the cache is not handed over; any other pair is emitted to the
    scheduler and its key is added to the cache right afterwards, the cache
    being emptied at once if it then holds more than 100 keys.  The cache
    is not consulted again at dequeue: a call on the scheduler acts on the
    scheduler's own state only and leaves the rule engine, its cache
    included, as it was. *)
Theorem C8_backlog_invariant (env : Env) :
  (forall st,
     notification_widget.reachable env st ->
     NoDup (map identity (notification_widget.notification_queue (fst st)))) /\
  (forall self n event type,
     exists self' n',
       notification_widget.show_notification env event type self n
       = (Return tt, self', n') /\
       notification_widget.notification_queue self'
       = (let queue := notification_widget.notification_queue self in
          if notification_widget.is_showing (notification_widget.notification_widget self)
             && negb (existsb (notification_widget.same_identity event type) queue)
          then queue ++ [alert event type (clock env n)]
          else queue)) /\
  (forall app n event type,
     (notification_manager.notification_key event type
        ∈ notification_manager.shown_notifications
            (notification_manager.notification_manager app) ->
      notification_manager.check_notification env (event, type) app n
      = (Return tt, app, n)) /\
     (notification_manager.notification_key event type
        ∉ notification_manager.shown_notifications
            (notification_manager.notification_manager app) ->
      exists app' n' before,
        notification_manager.check_notification env (event, type) app n
        = (Return tt, app', n') /\
        notification_manager.emitted app'
        = notification_manager.emitted app ++ before
          ++ [notification_manager.show_notification event type] /\
        notification_manager.shown_notifications
          (notification_manager.notification_manager app')
        = (let keys := {[ notification_manager.notification_key event type ]}
                       ∪ notification_manager.shown_notifications
                           (notification_manager.notification_manager app) in
           if (100 <? size keys)%nat then ∅ else keys))) /\
  (forall app n c,
     exists app' n',
       notification_manager.scheduler_call env c app n = (Return tt, app', n') /\
       (notification_manager.ui_notification_manager app', n')
       = notification_widget.after env c
           (notification_manager.ui_notification_manager app, n) /\
       notification_manager.notification_manager app'
       = notification_manager.notification_manager app /\
       notification_manager.emitted app' = notification_manager.emitted app) /\
  (forall event type,
     let st := notification_widget.after env (notification_widget.Show event type)
                 (notification_widget.after env
                    (notification_widget.Qt notification_widget.FadeInFinished)
                    (notification_widget.after env (notification_widget.Show event type)
                       (notification_widget.initial, 0%nat))) in
     notification_widget.reachable env st /\
     exists active queued,
       notification_widget.current_notification (fst st) = Some active /\
       notification_widget.notification_queue (fst st) = [queued] /\
       identity queued = identity active).
Proof.
  split; [apply reachable_NoDup|]. split; [|split; [|split]]; cycle 3.
  { intros event type st. split; [repeat constructor|].
    subst st. destruct type; eexists _, _; repeat split. }
  - intros self n event type. rewrite show_notification_run. cbv zeta.
    destruct (notification_widget.is_showing _); simpl.
    + destruct (existsb _ _); simpl; eexists _, _; split; reflexivity.
    + eexists _, _; split; reflexivity.
  - intros app n event type. split; [apply check_notification_skip|].
    intros Hfresh.
    destruct (check_notification_fire env event type app n Hfresh)
      as (shown & n1 & Hshow & Hfire).
    rewrite show_event_notification_run in Hshow. cbv zeta in Hshow.
    injection Hshow as Hshown Hn1.
    eexists _, _, _. split; [exact Hfire|].
    rewrite <- Hshown. split; reflexivity.
  - intros app n c.
    destruct (call_queue_step env c (notification_manager.ui_notification_manager app) n)
      as (self' & n' & Hcall & _).
    unfold notification_manager.scheduler_call, zoom, notification_widget.after.
    cbn [fst snd]. rewrite Hcall.
    eexists _, _. split; [reflexivity|]. destruct app. repeat split.
Qed.

(** The first alert is on display.  The second arrives twice and a third
    once: the arrival check turns the repeated arrival away, and the
    backlog holds the second and the third, once each.  On the application
    with an empty cache, the pair of the briefing is handed over and its
    key is in the cache afterwards; a drain tick then leaves the cache
    alone. *)
Lemma C8_backlog_invariant_witness :
  let env := Sample.env_at Sample.eight_o_clock in
  let st := notification_widget.after env (notification_widget.Show Sample.standup warning)
              (notification_widget.after env (notification_widget.Show Sample.second_call start)
                 (notification_widget.after env
                    (notification_widget.Show Sample.second_call start)
                    (Sample.showing env Sample.first_call start))) in
  NoDup (map identity (notification_widget.notification_queue (fst st))) /\
  map identity (notification_widget.notification_queue (fst st))
  = [("second", start); ("standup", warning)] /\
  exists app' n' before app'' n'',
    notification_manager.check_notification env (Sample.briefing, start)
      (Sample.app_with [Sample.briefing] ∅) 1%nat
    = (Return tt, app', n') /\
    notification_manager.emitted app'
    = before ++ [notification_manager.show_notification Sample.briefing start] /\
    notification_manager.shown_notifications (notification_manager.notification_manager app')
    = {[ notification_manager.notification_key Sample.briefing start ]} /\
    notification_manager.scheduler_call env notification_widget.ProcessQueue app' n'
    = (Return tt, app'', n'') /\
    notification_manager.notification_manager app''
    = notification_manager.notification_manager app'.
Proof.
  intros env st.
  pose proof (C8_backlog_invariant env) as (Hnodup & _ & Hengine & Hdequeue & _).
  split; [apply Hnodup; repeat constructor|].
  split; [vm_compute; reflexivity|].
  destruct (proj2 (Hengine (Sample.app_with [Sample.briefing] ∅) 1%nat Sample.briefing start))
    as (app' & n' & before & Hrun & Hemitted & Hcache).
  { apply not_elem_of_empty. }
  destruct (Hdequeue app' n' notification_widget.ProcessQueue)
    as (app'' & n'' & Hcall & _ & Hsame & _).
  exists app', n', before, app'', n''.
  split; [exact Hrun|]. split; [exact Hemitted|].
  split; [|split; [exact Hcall | exact Hsame]].
  cbv zeta in Hcache.
  change (notification_manager.shown_notifications
            (notification_manager.notification_manager
               (Sample.app_with [Sample.briefing] ∅)))
    with (∅ : gset string) in Hcache.
  rewrite (right_id_L ∅ (∪)), size_singleton in Hcache. exact Hcache.
Defined.

(** The same alert is shown, and asked for again once its fade-in is over:
    the arrival check finds the backlog empty and queues it, so the backlog
    holds the pair of the active record. *)
Lemma C8_counterexample :
  let st := notification_widget.after (Sample.env_at Sample.eight_o_clock)
              (notification_widget.Show Sample.standup warning)
              (Sample.showing (Sample.env_at Sample.eight_o_clock) Sample.standup warning) in
  notification_widget.reachable (Sample.env_at Sample.eight_o_clock) st /\
  exists active queued,
    notification_widget.current_notification (fst st) = Some active /\
    notification_widget.notification_queue (fst st) = [queued] /\
    identity queued = identity active.
Proof.
  split; [repeat constructor|].
  eexists _, _. split; [vm_compute; reflexivity|]. split; reflexivity.
Qed.

(** On the running application: the first alert is on display when the
    rule engine fires the second one; the second is queued, and its key is
    in the dedup cache while it waits. *)
Example queued_pair_is_in_the_cache :
  exists app1 n1 app2 n2 app3 n3 queued,
    notification_manager.check_notifications (Sample.env_at Sample.eight_o_clock)
      (Sample.app_with [Sample.first_call; Sample.second_call] ∅) 0%nat
    = (Return tt, app1, n1) /\
    notification_manager.scheduler_call (Sample.env_at Sample.eight_o_clock)
      (notification_widget.Qt notification_widget.FadeInFinished) app1 n1
    = (Return tt, app2, n2) /\
    notification_manager.check_notifications (Sample.env_at Sample.eight_o_clock)
      app2 30%nat
    = (Return tt, app3, n3) /\
    notification_widget.notification_queue
      (notification_manager.ui_notification_manager app3) = [queued] /\
    identity queued = ("second", start) /\
    bool_decide
      (notification_manager.notification_key Sample.second_call start
         ∈ notification_manager.shown_notifications
             (notification_manager.notification_manager app3)) = true.
Proof.
  eexists _, _, _, _, _, _, _.
  split; [vm_compute; reflexivity|].
  split; [vm_compute; reflexivity|].
  split; [vm_compute; reflexivity|].
  split; [reflexivity|]. split; [reflexivity|]. vm_compute. reflexivity.
Qed.

(** C2, as amended.  A record that arrives at the scheduler while the
    widget is showing is appended to the backlog, unless a record of the
    same identity is already queued, and is not displayed by that call: the
    scheduler leaves its widget and its active record as they are.  A
    backlog-drain tick does nothing while the widget is showing; when it is
    not, the tick takes the oldest queued record and makes it active; no
    other call takes a record out of the backlog, except [clear_queue].
    The alert on display does not stay, however, when the record comes from
    the rule engine while that holds a current notification:
    [show_event_notification] first emits [hide_notification], which
    dismisses the alert on display, and the new record waits in the backlog
    for the tick that follows the fade-out. *)
Theorem C2_arrival_while_showing (env : Env) :
  (forall self n event type,
     notification_widget.is_showing (notification_widget.notification_widget self) = true ->
     exists self',
       notification_widget.show_notification env event type self n
       = (Return tt, self', S n) /\
       notification_widget.notification_widget self'
       = notification_widget.notification_widget self /\
       notification_widget.current_notification self'
       = notification_widget.current_notification self /\
       notification_widget.notification_queue self'
       = (let queue := notification_widget.notification_queue self in
          if existsb (notification_widget.same_identity event type) queue then queue
          else queue ++ [alert event type (clock env n)])) /\
  (forall self n,
     notification_widget.is_showing (notification_widget.notification_widget self) = true ->
     notification_widget.process_queue env self n = (Return tt, self, n)) /\
  (forall self n next_notification rest,
     notification_widget.is_showing (notification_widget.notification_widget self) = false ->
     notification_widget.notification_queue self = next_notification :: rest ->
     exists self' n',
       notification_widget.process_queue env self n = (Return tt, self', n') /\
       notification_widget.current_notification self' = Some next_notification /\
       notification_widget.notification_queue self' = rest /\
       notification_widget.notification_widget self'
       = shown_widget (notification_widget.n_event next_notification)
           (notification_widget.n_type next_notification)
           (notification_widget.notification_widget self)) /\
  (forall c self n,
     exists self' n',
       notification_widget.call env c self n = (Return tt, self', n') /\
       queue_step c self self') /\
  (forall app n event type held,
     notification_manager.current_notification
       (notification_manager.notification_manager app) = Some held ->
     notification_widget.is_showing
       (notification_widget.notification_widget
          (notification_manager.ui_notification_manager app)) = true ->
     exists app' n',
       notification_manager.show_event_notification env event type app n
       = (Return tt, app', n') /\
       notification_manager.emitted app'
       = notification_manager.emitted app
         ++ [notification_manager.hide_notification;
             notification_manager.show_notification event type] /\
       notification_widget.current_notification
         (notification_manager.ui_notification_manager app') = None /\
       notification_widget.notification_widget
         (notification_manager.ui_notification_manager app')
       = dismissed_widget
           (notification_widget.notification_widget
              (notification_manager.ui_notification_manager app)) /\
       notification_widget.notification_queue
         (notification_manager.ui_notification_manager app')
       = (let queue := notification_widget.notification_queue
                         (notification_manager.ui_notification_manager app) in
          if existsb (notification_widget.same_identity event type) queue then queue
          else queue ++ [alert event type (clock env (S (S n)))])).
Proof.
  split; [|split; [|split; [|split]]].
  - intros self n event type Hshowing.
    rewrite show_notification_run, Hshowing. cbv zeta.
    eexists. split; [reflexivity|].
    destruct (existsb _ _); repeat split.
  - intros self n Hshowing. rewrite process_queue_run, Hshowing. reflexivity.
  - intros self n next rest Hhidden Hqueue.
    rewrite process_queue_run, Hhidden, Hqueue.
    eexists _, _. split; [reflexivity|]. repeat split.
  - apply call_queue_step.
  - apply arrival_dismisses_active.
Qed.

(** The first alert is on display; the second arrives at the scheduler and
    waits in the backlog, the first stays active. *)
Lemma C2_arrival_while_showing_witness :
  exists self',
    notification_widget.show_notification (Sample.env_at Sample.eight_o_clock)
      Sample.second_call start
      (fst (Sample.showing (Sample.env_at Sample.eight_o_clock) Sample.first_call start))
      30%nat
    = (Return tt, self', 31%nat) /\
    option_map identity (notification_widget.current_notification self')
    = Some ("first", start) /\
    map identity (notification_widget.notification_queue self') = [("second", start)].
Proof.
  destruct (proj1 (C2_arrival_while_showing (Sample.env_at Sample.eight_o_clock))
              (fst (Sample.showing (Sample.env_at Sample.eight_o_clock)
                      Sample.first_call start))
              30%nat Sample.second_call start)
    as (self' & Hrun & _ & Hcurrent & Hqueue).
  - reflexivity.
  - exists self'. split; [exact Hrun|]. rewrite Hcurrent, Hqueue. split; reflexivity.
Defined.

(** On the running application: the first alert has been on display for
    half a minute when the rule engine fires the second one.  The alert on
    display is dismissed: the scheduler has no active record any more, the
    widget's timer is stopped and its fade-out runs, while the second alert
    waits in the backlog. *)
Lemma C2_counterexample :
  exists app1 n1 app2 n2 app3 n3,
    notification_manager.check_notifications (Sample.env_at Sample.eight_o_clock)
      (Sample.app_with [Sample.first_call; Sample.second_call] ∅) 0%nat
    = (Return tt, app1, n1) /\
    notification_manager.scheduler_call (Sample.env_at Sample.eight_o_clock)
      (notification_widget.Qt notification_widget.FadeInFinished) app1 n1
    = (Return tt, app2, n2) /\
    notification_widget.is_showing
      (notification_widget.notification_widget
         (notification_manager.ui_notification_manager app2)) = true /\
    option_map identity
      (notification_widget.current_notification
         (notification_manager.ui_notification_manager app2)) = Some ("first", start) /\
    notification_manager.check_notifications (Sample.env_at Sample.eight_o_clock)
      app2 30%nat
    = (Return tt, app3, n3) /\
    notification_manager.emitted app3
    = [notification_manager.show_notification Sample.first_call start;
       notification_manager.hide_notification;
       notification_manager.show_notification Sample.second_call start] /\
    notification_widget.current_notification
      (notification_manager.ui_notification_manager app3) = None /\
    notification_widget.auto_dismiss_timer
      (notification_widget.notification_widget
         (notification_manager.ui_notification_manager app3)) = false /\
    notification_widget.fade_out_running
      (notification_widget.notification_widget
         (notification_manager.ui_notification_manager app3)) = true /\
    map identity
      (notification_widget.notification_queue
         (notification_manager.ui_notification_manager app3)) = [("second", start)].
Proof.
  eexists _, _, _, _, _, _.
  split; [vm_compute; reflexivity|].
  split; [vm_compute; reflexivity|].
  split; [reflexivity|]. split; [reflexivity|].
  split; [vm_compute; reflexivity|].
  repeat split.
Qed.

(** * Further properties of the code *)

Import Facts.

(** ** The key of the dedup cache *)

Section Keys.

Lemma length_append (a b : string) :
  String.length (a +:+ b) = (String.length a + String.length b)%nat.
Proof. induction a as [|c a IH]; simpl; [reflexivity|]. rewrite IH. reflexivity. Qed.

Lemma append_cancel_r (c : string) : forall a b, a +:+ c = b +:+ c -> a = b.
Proof.
  induction a as [|x a IH]; intros [|y b] H.
  - reflexivity.
  - apply (f_equal String.length) in H. rewrite !length_append in H. simpl in H. lia.
  - apply (f_equal String.length) in H. rewrite !length_append in H. simpl in H. lia.
  - inversion H as [[Hx Hrest]]. f_equal. apply IH. exact Hrest.
Qed.

Lemma last_char_append a c :
  c <> EmptyString -> last_char (a +:+ c) = last_char c.
Proof.
  intros Hc. induction a as [|x a IH]; simpl; [reflexivity|].
  rewrite IH. destruct (a +:+ c) eqn:Happ; [|reflexivity].
  destruct a; simpl in Happ; [contradiction|discriminate].
Qed.

End Keys.

(** X1.  The cache key [f"{id}_{type}"] identifies the pair: two
    notifications have the same key exactly when they are for the same
    event id and the same type, whatever characters the ids contain. *)
Theorem notification_key_injective (event event' : Event) (type type' : Kind) :
  notification_manager.notification_key event type
  = notification_manager.notification_key event' type'
  <-> ev_id event = ev_id event' /\ type = type'.
Proof.
  unfold notification_manager.notification_key. split.
  - intros Hkey.
    assert (Hlast := f_equal last_char Hkey).
    rewrite !last_char_append in Hlast by (destruct type, type'; discriminate).
    assert (type = type') as <- by (destruct type, type'; simpl in Hlast; congruence).
    split; [|reflexivity].
    eapply append_cancel_r. exact Hkey.
  - intros [-> ->]. reflexivity.
Qed.

(** ** The queries on the timeline *)

Section Queries.
Variable env : Env.

Lemma first_event_spec test timeline :
  first_match test timeline (calendar_queries.first_event test timeline).
Proof.
  induction timeline as [|event rest IH]; simpl.
  - intros event Hin. inversion Hin.
  - destruct (test event) eqn:Htest.
    + exists [], rest. split; [reflexivity|]. split; [exact Htest|].
      intros earlier Hin. inversion Hin.
    + destruct (calendar_queries.first_event test rest) as [found|]; simpl in *.
      * destruct IH as (before & after & -> & Hfound & Hbefore).
        exists (event :: before), after. split; [reflexivity|]. split; [exact Hfound|].
        intros earlier Hin. apply elem_of_cons in Hin as [->|Hin]; auto.
      * intros e Hin. apply elem_of_cons in Hin as [->|Hin]; auto.
Qed.

Lemma get_time_until_next_event_run self n :
  calendar_queries.get_time_until_next_event env self n
  = match calendar_queries.first_event (fun event => clock env n <? start_datetime event)
            (events self) with
    | Some next_event =>
        (Return (Some (minutes_of (start_datetime next_event - clock env (S n)))),
         self, S (S n))
    | None => (Return None, self, S n)
    end.
Proof.
  unfold calendar_queries.get_time_until_next_event, calendar_queries.get_next_event.
  unfold bind, datetime_now, get, ret.
  destruct (calendar_queries.first_event _ (events self)); reflexivity.
Qed.

End Queries.

(** ** The rounding of Python floats *)

Section Floats.
Local Open Scope Q_scope.

Lemma pow2_pos e : 0 < 2 ^ e.
Proof. apply Qpower_0_lt. reflexivity. Qed.

Lemma pow2_add a b : 2 ^ (a + b) == 2 ^ a * 2 ^ b.
Proof. apply Qpower_plus. discriminate. Qed.

Lemma pow2_le a b : (a <= b)%Z -> 2 ^ a <= 2 ^ b.
Proof. intros H. apply Qpower_le_compat_l; [exact H | discriminate]. Qed.

Lemma pow2_Z n : (0 <= n)%Z -> 2 ^ n == inject_Z (2 ^ n).
Proof. intros H. symmetry. apply (Zpower_Qpower 2 n H). Qed.

Lemma inject_Z_pos z : (0 < z)%Z -> 0 < inject_Z z.
Proof. intros H. unfold Qlt. simpl. lia. Qed.

(** A quotient of two powers of two. *)
Lemma pow2_sub n m : (0 <= n)%Z -> (0 <= m)%Z ->
  2 ^ (n - m) == inject_Z (2 ^ n) / inject_Z (2 ^ m).
Proof.
  intros Hn Hm. rewrite Qpower_minus by discriminate.
  rewrite (pow2_Z n Hn), (pow2_Z m Hm). reflexivity.
Qed.

(** [binade q] is the exponent of the power of two at or below [q]. *)
Lemma binade_spec q : 0 < q -> 2 ^ PyFloat.binade q <= q < 2 ^ (PyFloat.binade q + 1).
Proof.
  intros Hq. destruct q as [a b]. unfold PyFloat.binade. cbn [Qnum Qden].
  assert (Ha : (0 < a)%Z) by (unfold Qlt in Hq; simpl in Hq; lia).
  set (la := Z.log2 a). set (lb := Z.log2 (Z.pos b)).
  assert (Hla : (0 <= la)%Z) by apply Z.log2_nonneg.
  assert (Hlb : (0 <= lb)%Z) by apply Z.log2_nonneg.
  destruct (Z.log2_spec a Ha) as [Ha1 Ha2]. fold la in Ha1, Ha2.
  destruct (Z.log2_spec (Z.pos b) (Pos2Z.is_pos b)) as [Hb1 Hb2]. fold lb in Hb1, Hb2.
  rewrite Z.pow_succ_r in Ha2, Hb2 by assumption.
  assert (HA : (0 < 2 ^ la)%Z) by (apply Z.pow_pos_nonneg; lia).
  assert (HB : (0 < 2 ^ lb)%Z) by (apply Z.pow_pos_nonneg; lia).
  assert (Hupper : a # b < 2 ^ (la - lb + 1)).
  { replace (la - lb + 1)%Z with (Z.succ la - lb)%Z by lia.
    rewrite pow2_sub by lia. rewrite Z.pow_succ_r by assumption.
    apply Qlt_shift_div_l; [apply inject_Z_pos; exact HB|].
    unfold Qlt, Qmult, inject_Z. simpl. nia. }
  assert (Hlower : 2 ^ (la - lb - 1) <= a # b).
  { replace (la - lb - 1)%Z with (la - Z.succ lb)%Z by lia.
    rewrite pow2_sub by lia. rewrite Z.pow_succ_r by assumption.
    apply Qle_shift_div_r; [apply inject_Z_pos; lia|].
    unfold Qle, Qmult, inject_Z. simpl. nia. }
  destruct (Qle_bool (2 ^ (la - lb)) (a # b)) eqn:Hcase.
  - apply Qle_bool_iff in Hcase. split; assumption.
  - split; [exact Hlower|].
    replace (la - lb - 1 + 1)%Z with (la - lb)%Z by lia.
    apply Qnot_le_lt. intros Hle. apply Qle_bool_iff in Hle. congruence.
Qed.

Lemma round_half_even_floor s :
  (Qfloor s <= PyFloat.round_half_even s <= Qfloor s + 1)%Z /\
  (PyFloat.round_half_even s = (Qfloor s + 1)%Z -> inject_Z (Qfloor s) < s).
Proof.
  unfold PyFloat.round_half_even.
  destruct (Qcompare_spec (s - inject_Z (Qfloor s)) (1 # 2)) as [Heq|Hlt|Hgt].
  - destruct (Z.even (Qfloor s)); (split; [lia|]); intros _; lra.
  - split; [lia|]. intros H. lia.
  - split; [lia|]. intros _. lra.
Qed.

(** Rounding to the nearest integer does not cross an integer. *)
Lemma round_half_even_ge z s : inject_Z z <= s -> (z <= PyFloat.round_half_even s)%Z.
Proof.
  intros H. apply Qfloor_resp_le in H. rewrite Qfloor_Z in H.
  pose proof (round_half_even_floor s) as [[Hlow _] _]. lia.
Qed.

Lemma round_half_even_le z s : s <= inject_Z z -> (PyFloat.round_half_even s <= z)%Z.
Proof.
  intros H. pose proof (round_half_even_floor s) as [[_ Hhigh] Hup].
  pose proof (Qfloor_resp_le _ _ H) as Hfloor. rewrite Qfloor_Z in Hfloor.
  destruct (Z.eq_dec (PyFloat.round_half_even s) (Qfloor s + 1)%Z) as [Heq|Hne]; [|lia].
  specialize (Hup Heq).
  assert (Hlt : inject_Z (Qfloor s) < inject_Z z) by lra.
  rewrite <- Zlt_Qlt in Hlt. lia.
Qed.


(** The result of [nearest] is at least [2 ^ 52] units of its last place. *)
Lemma nearest_scaled q :
  0 < q ->
  inject_Z (2 ^ 52) <= q / 2 ^ (PyFloat.binade q - 52).
Proof.
  intros Hq. destruct (binade_spec q Hq) as [Hlow _].
  apply Qle_shift_div_l; [apply pow2_pos|].
  rewrite <- (pow2_Z 52) by lia. rewrite <- pow2_add.
  replace (52 + (PyFloat.binade q - 52))%Z with (PyFloat.binade q) by lia. exact Hlow.
Qed.

(** A number with a significand below [2 ^ 53]. *)
Definition representable (p : Q) : Prop :=
  exists m k, (Z.abs m < 2 ^ 53)%Z /\ p == inject_Z m * 2 ^ k.

Lemma below_binade q m k :
  0 < q -> (0 < m < 2 ^ 53)%Z -> (k < PyFloat.binade q - 52)%Z ->
  inject_Z m * 2 ^ k < 2 ^ PyFloat.binade q.
Proof.
  intros Hq Hm Hk.
  apply Qlt_le_trans with (2 ^ 53 * 2 ^ k).
  - apply Qmult_lt_compat_r; [apply pow2_pos|].
    rewrite (pow2_Z 53) by lia. rewrite <- Zlt_Qlt. lia.
  - rewrite <- pow2_add. apply pow2_le. lia.
Qed.

Lemma nearest_le q m k :
  0 < q -> (0 < m < 2 ^ 53)%Z ->
  q <= inject_Z m * 2 ^ k -> PyFloat.nearest q <= inject_Z m * 2 ^ k.
Proof.
  intros Hq Hm Hle. unfold PyFloat.nearest.
  set (e := (PyFloat.binade q - 52)%Z).
  destruct (Z_le_gt_dec e k) as [Hek|Hek].
  - assert (Hp : inject_Z m * 2 ^ k == inject_Z (m * 2 ^ (k - e)) * 2 ^ e).
    { rewrite inject_Z_mult, <- (pow2_Z (k - e)) by lia.
      rewrite <- Qmult_assoc, <- pow2_add.
      replace (k - e + e)%Z with k by lia. reflexivity. }
    rewrite Hp. apply Qmult_le_compat_r; [|apply Qlt_le_weak, pow2_pos].
    rewrite <- Zle_Qle. apply round_half_even_le.
    apply Qle_shift_div_r; [apply pow2_pos|]. rewrite <- Hp. exact Hle.
  - exfalso. destruct (binade_spec q Hq) as [Hlow _].
    pose proof (below_binade q m k Hq Hm ltac:(fold e; lia)) as Hbelow.
    lra.
Qed.

Lemma nearest_ge q m k :
  0 < q -> (0 < m < 2 ^ 53)%Z ->
  inject_Z m * 2 ^ k <= q -> inject_Z m * 2 ^ k <= PyFloat.nearest q.
Proof.
  intros Hq Hm Hle. unfold PyFloat.nearest.
  set (e := (PyFloat.binade q - 52)%Z).
  destruct (Z_le_gt_dec e k) as [Hek|Hek].
  - assert (Hp : inject_Z m * 2 ^ k == inject_Z (m * 2 ^ (k - e)) * 2 ^ e).
    { rewrite inject_Z_mult, <- (pow2_Z (k - e)) by lia.
      rewrite <- Qmult_assoc, <- pow2_add.
      replace (k - e + e)%Z with k by lia. reflexivity. }
    rewrite Hp. apply Qmult_le_compat_r; [|apply Qlt_le_weak, pow2_pos].
    rewrite <- Zle_Qle. apply round_half_even_ge.
    apply Qle_shift_div_l; [apply pow2_pos|]. rewrite <- Hp. exact Hle.
  - pose proof (below_binade q m k Hq Hm ltac:(fold e; lia)) as Hbelow.
    apply Qlt_le_weak. eapply Qlt_le_trans; [exact Hbelow|].
    replace (PyFloat.binade q) with (52 + e)%Z by (unfold e; lia).
    rewrite pow2_add, (pow2_Z 52) by lia.
    apply Qmult_le_compat_r; [|apply Qlt_le_weak, pow2_pos].
    rewrite <- Zle_Qle. apply round_half_even_ge. apply nearest_scaled. exact Hq.
Qed.

Lemma nearest_pos q : 0 < q -> 0 < PyFloat.nearest q.
Proof.
  intros Hq. unfold PyFloat.nearest.
  apply Qlt_le_trans with (inject_Z (2 ^ 52) * 2 ^ (PyFloat.binade q - 52)).
  - apply Qmult_lt_0_compat; [reflexivity | apply pow2_pos].
  - apply Qmult_le_compat_r; [|apply Qlt_le_weak, pow2_pos].
    rewrite <- Zle_Qle. apply round_half_even_ge. apply nearest_scaled. exact Hq.
Qed.

(** Rounding does not cross a representable number. *)
Lemma binary64_le q m k :
  (Z.abs m < 2 ^ 53)%Z ->
  q <= inject_Z m * 2 ^ k -> PyFloat.binary64 q <= inject_Z m * 2 ^ k.
Proof.
  intros Hm Hle. unfold PyFloat.binary64.
  pose proof (pow2_pos k) as Hk.
  destruct (Qcompare_spec q 0) as [Hzero|Hneg|Hpos].
  - rewrite <- Hzero. exact Hle.
  - assert (Hq : 0 < - q) by lra.
    pose proof (nearest_pos (- q) Hq) as Hnear.
    destruct (Z_lt_le_dec m 0) as [Hm0|Hm0].
    + pose proof (nearest_ge (- q) (- m) k Hq ltac:(lia)) as Hge.
      rewrite inject_Z_opp in Hge.
      assert (Hle' : - inject_Z m * 2 ^ k <= - q) by lra.
      specialize (Hge Hle'). lra.
    + assert (0 <= inject_Z m * 2 ^ k).
      { apply Qmult_le_0_compat; [|lra].
        change 0 with (inject_Z 0). rewrite <- Zle_Qle. exact Hm0. }
      lra.
  - assert (Hm0 : (0 < m)%Z).
    { destruct (Z_lt_le_dec 0 m) as [H|H]; [exact H|exfalso].
      assert (inject_Z m * 2 ^ k <= 0); [|lra].
      rewrite Zle_Qle in H. change (inject_Z 0) with 0 in H.
      apply Qle_trans with (0 * 2 ^ k); [apply Qmult_le_compat_r; lra | lra]. }
    apply nearest_le; [exact Hpos | lia | exact Hle].
Qed.

Lemma Qopp_opp (q : Q) : - - q = q.
Proof. destruct q as [a b]. unfold Qopp. simpl. rewrite Z.opp_involutive. reflexivity. Qed.

Lemma binary64_opp q : PyFloat.binary64 (- q) == - PyFloat.binary64 q.
Proof.
  unfold PyFloat.binary64.
  destruct (Qcompare_spec q 0) as [Hzero|Hneg|Hpos];
    destruct (Qcompare_spec (- q) 0) as [Hzero'|Hneg'|Hpos']; try lra.
  rewrite Qopp_opp. reflexivity.
Qed.

Lemma binary64_ge q m k :
  (Z.abs m < 2 ^ 53)%Z ->
  inject_Z m * 2 ^ k <= q -> inject_Z m * 2 ^ k <= PyFloat.binary64 q.
Proof.
  intros Hm Hle.
  pose proof (binary64_le (- q) (- m) k ltac:(lia)) as H.
  rewrite inject_Z_opp, binary64_opp in H.
  assert (Hle' : - q <= - inject_Z m * 2 ^ k) by lra.
  specialize (H Hle'). lra.
Qed.


(** Truncation toward zero of a number between two integers. *)
Lemma int_ge z y : (0 <= z)%Z -> inject_Z z <= y -> (z <= PyFloat.int y)%Z.
Proof.
  intros Hz Hle. destruct y as [a b]. unfold PyFloat.int, Qle in *. simpl in *.
  rewrite Z.quot_div_nonneg by lia. apply Z.div_le_lower_bound; lia.
Qed.

Lemma int_lt z y : (0 <= Qnum y)%Z -> y < inject_Z z -> (PyFloat.int y < z)%Z.
Proof.
  intros Hy Hlt. destruct y as [a b]. unfold PyFloat.int, Qlt in *. simpl in *.
  rewrite Z.quot_div_nonneg by lia. apply Z.div_lt_upper_bound; lia.
Qed.

Lemma int_opp y : PyFloat.int (- y) = (- PyFloat.int y)%Z.
Proof. destruct y as [a b]. unfold PyFloat.int. simpl. apply Z.quot_opp_l. lia. Qed.


(** Below [2 ^ 27] minutes the two roundings do not reach the next whole
    minute: the float computation gives the exact number of whole
    minutes. *)
Lemma minutes_of_exact_nonneg d :
  (0 <= d < far_ahead)%Z -> minutes_of d = (d / one_minute)%Z.
Proof.
  intros [Hd0 Hd1]. unfold far_ahead, one_minute, microseconds_per_second in *.
  set (k := (d / (60 * 1000000))%Z).
  pose proof (Z.div_mod d (60 * 1000000) ltac:(lia)) as Hdiv. fold k in Hdiv.
  pose proof (Z.mod_pos_bound d (60 * 1000000) ltac:(lia)) as Hmod.
  set (r := (d mod (60 * 1000000))%Z) in *.
  assert (Hk0 : (0 <= k)%Z) by (apply Z.div_pos; lia).
  assert (Hk1 : (k < 2 ^ 27)%Z) by (apply Z.div_lt_upper_bound; lia).
  assert (Hd : inject_Z d == 60000000 * inject_Z k + inject_Z r).
  { rewrite Hdiv, inject_Z_plus, inject_Z_mult. reflexivity. }
  assert (Hr0 : 0 <= inject_Z r).
  { change 0 with (inject_Z 0). rewrite <- Zle_Qle. lia. }
  assert (Hr1 : inject_Z r <= 59999999).
  { change 59999999 with (inject_Z 59999999). rewrite <- Zle_Qle. lia. }
  assert (HK0 : 0 <= inject_Z k).
  { change 0 with (inject_Z 0). rewrite <- Zle_Qle. lia. }
  unfold minutes_of, PyFloat.truediv, PyFloat.total_seconds, PyFloat.truediv.
  set (x := PyFloat.binary64 (inject_Z d / inject_Z 1000000)).
  set (y := PyFloat.binary64 (x / 60)).
  assert (Hx0 : inject_Z (60 * k) * 2 ^ 0 <= x).
  { apply binary64_ge; [lia|]. rewrite inject_Z_mult.
    unfold Qdiv. change (/ inject_Z 1000000) with (1 # 1000000).
    change (2 ^ 0) with 1. change (inject_Z 60) with 60. lra. }
  assert (Hx1 : x <= inject_Z (60 * (k + 1) * 2 ^ 20 - 1) * 2 ^ (-20)).
  { apply binary64_le; [lia|].
    unfold Z.sub. rewrite inject_Z_plus, !inject_Z_mult, inject_Z_plus.
    unfold Qdiv. change (/ inject_Z 1000000) with (1 # 1000000).
    change (2 ^ (-20)) with (1 # 1048576). change (inject_Z (2 ^ 20)) with 1048576.
    change (inject_Z 60) with 60. change (inject_Z 1) with 1.
    change (inject_Z (- (1))) with (- (1)). lra. }
  unfold Z.sub in Hx1. rewrite inject_Z_plus, !inject_Z_mult, inject_Z_plus in Hx1.
  rewrite inject_Z_mult in Hx0.
  change (2 ^ (-20)) with (1 # 1048576) in Hx1.
  change (inject_Z (2 ^ 20)) with 1048576 in Hx1.
  change (inject_Z 60) with 60 in Hx0, Hx1. change (inject_Z 1) with 1 in Hx1.
  change (inject_Z (- (1))) with (- (1)) in Hx1. change (2 ^ 0) with 1 in Hx0.
  assert (Hy0 : inject_Z k * 2 ^ 0 <= y).
  { apply binary64_ge; [lia|]. change (2 ^ 0) with 1.
    unfold Qdiv. change (/ 60) with (1 # 60). lra. }
  assert (Hy1 : y <= inject_Z ((k + 1) * 2 ^ 26 - 1) * 2 ^ (-26)).
  { apply binary64_le; [lia|].
    unfold Z.sub. rewrite inject_Z_plus, !inject_Z_mult, inject_Z_plus.
    unfold Qdiv. change (/ 60) with (1 # 60).
    change (2 ^ (-26)) with (1 # 67108864). change (inject_Z (2 ^ 26)) with 67108864.
    change (inject_Z 1) with 1. change (inject_Z (- (1))) with (- (1)). lra. }
  unfold Z.sub in Hy1. rewrite inject_Z_plus, !inject_Z_mult, inject_Z_plus in Hy1.
  change (2 ^ (-26)) with (1 # 67108864) in Hy1.
  change (inject_Z (2 ^ 26)) with 67108864 in Hy1.
  change (inject_Z 1) with 1 in Hy1. change (inject_Z (- (1))) with (- (1)) in Hy1.
  change (2 ^ 0) with 1 in Hy0.
  assert (Hlow : (k <= PyFloat.int y)%Z).
  { apply int_ge; [exact Hk0|]. lra. }
  assert (Hhigh : (PyFloat.int y < k + 1)%Z).
  { apply int_lt.
    - assert (H0 : 0 <= y) by lra.
      unfold Qle in H0. simpl in H0. lia.
    - rewrite inject_Z_plus. change (inject_Z 1) with 1. lra. }
  lia.
Qed.

(** The rounding depends on the value of the rational only. *)
Lemma binade_unique q e : 0 < q -> 2 ^ e <= q < 2 ^ (e + 1) -> PyFloat.binade q = e.
Proof.
  intros Hq [Hlow Hhigh]. destruct (binade_spec q Hq) as [Hlow' Hhigh'].
  assert (H1 : (e < PyFloat.binade q + 1)%Z).
  { apply (Qpower_lt_compat_l_inv 2); [|reflexivity].
    eapply Qle_lt_trans; eassumption. }
  assert (H2 : (PyFloat.binade q < e + 1)%Z).
  { apply (Qpower_lt_compat_l_inv 2); [|reflexivity].
    eapply Qle_lt_trans; eassumption. }
  lia.
Qed.

Lemma round_half_even_comp s s' :
  s == s' -> PyFloat.round_half_even s = PyFloat.round_half_even s'.
Proof.
  intros H. unfold PyFloat.round_half_even.
  rewrite <- (Qfloor_comp _ _ H).
  assert (Hc : (s - inject_Z (Qfloor s) ?= 1 # 2) = (s' - inject_Z (Qfloor s) ?= 1 # 2)).
  { apply Qcompare_comp; [|reflexivity]. unfold Qminus. apply Qplus_comp; [exact H | reflexivity]. }
  rewrite Hc. reflexivity.
Qed.

Lemma nearest_comp q q' : 0 < q -> q == q' -> PyFloat.nearest q == PyFloat.nearest q'.
Proof.
  intros Hq H. unfold PyFloat.nearest.
  assert (He : PyFloat.binade q' = PyFloat.binade q).
  { apply binade_unique; [rewrite <- H; exact Hq|].
    rewrite <- H. apply binade_spec. exact Hq. }
  rewrite He.
  rewrite (round_half_even_comp (q / 2 ^ (PyFloat.binade q - 52))
             (q' / 2 ^ (PyFloat.binade q - 52)))
    by (unfold Qdiv; apply Qmult_comp; [exact H | reflexivity]).
  reflexivity.
Qed.

Lemma binary64_comp q q' : q == q' -> PyFloat.binary64 q == PyFloat.binary64 q'.
Proof.
  intros H. unfold PyFloat.binary64.
  assert (Hc : (q ?= 0) = (q' ?= 0)) by (apply Qcompare_comp; [exact H | reflexivity]).
  rewrite <- Hc.
  destruct (Qcompare_spec q 0) as [Hzero|Hneg|Hpos].
  - reflexivity.
  - apply Qopp_comp. apply nearest_comp; [lra | rewrite H; reflexivity].
  - apply nearest_comp; assumption.
Qed.

Lemma int_comp x y : x == y -> PyFloat.int x = PyFloat.int y.
Proof.
  assert (Hnonneg : forall u v, u == v -> (0 <= Qnum u)%Z -> PyFloat.int u = PyFloat.int v).
  { intros [a b] [c d] H Ha. unfold PyFloat.int, Qeq in *. simpl in *.
    assert (Hc : (0 <= c)%Z) by nia.
    rewrite !Z.quot_div_nonneg by lia.
    apply (Qfloor_comp (a # b) (c # d)). exact H. }
  intros H. destruct (Z_le_gt_dec 0 (Qnum x)) as [Hx|Hx].
  - apply Hnonneg; assumption.
  - assert (Hopp : PyFloat.int (- x) = PyFloat.int (- y)).
    { apply Hnonneg; [rewrite H; reflexivity | destruct x; simpl in *; lia]. }
    rewrite !int_opp in Hopp. lia.
Qed.

Lemma minutes_of_opp d : minutes_of (- d) = (- minutes_of d)%Z.
Proof.
  unfold minutes_of, PyFloat.truediv, PyFloat.total_seconds, PyFloat.truediv.
  rewrite <- int_opp. apply int_comp.
  rewrite <- binary64_opp. apply binary64_comp.
  set (x := PyFloat.binary64 (inject_Z d / inject_Z 1000000)).
  assert (Hx : PyFloat.binary64 (inject_Z (- d) / inject_Z 1000000) == - x).
  { unfold x. rewrite <- binary64_opp. apply binary64_comp.
    rewrite inject_Z_opp. unfold Qdiv. ring. }
  rewrite Hx. unfold Qdiv. ring.
Qed.

(** Within [2 ^ 27] minutes, [int(time_diff.total_seconds() / 60)] is the
    number of whole minutes, truncated toward zero. *)
Lemma minutes_of_exact d :
  (Z.abs d < far_ahead)%Z -> minutes_of d = Z.quot d one_minute.
Proof.
  intros Hd. assert (Hminute : (0 < one_minute)%Z) by reflexivity.
  destruct (Z_le_gt_dec 0 d) as [Hpos|Hneg].
  - rewrite minutes_of_exact_nonneg by lia. symmetry. apply Z.quot_div_nonneg; lia.
  - replace d with (- - d)%Z by lia.
    rewrite minutes_of_opp, minutes_of_exact_nonneg by lia.
    rewrite Z.quot_opp_l by lia. rewrite Z.quot_div_nonneg by lia. reflexivity.
Qed.

(** Whatever the distance, a whole minute or more is never rounded down
    to less than one minute. *)
Lemma minutes_of_positive d : (one_minute <= d)%Z -> (1 <= minutes_of d)%Z.
Proof.
  intros Hd. unfold one_minute, microseconds_per_second in Hd.
  unfold minutes_of, PyFloat.truediv, PyFloat.total_seconds, PyFloat.truediv.
  set (x := PyFloat.binary64 (inject_Z d / inject_Z 1000000)).
  assert (HD : 60000000 <= inject_Z d).
  { change 60000000 with (inject_Z 60000000). rewrite <- Zle_Qle. lia. }
  assert (Hx : inject_Z 60 * 2 ^ 0 <= x).
  { apply binary64_ge; [reflexivity|]. unfold Qdiv.
    change (/ inject_Z 1000000) with (1 # 1000000).
    change (2 ^ 0) with 1. change (inject_Z 60) with 60. lra. }
  change (2 ^ 0) with 1 in Hx. change (inject_Z 60) with 60 in Hx.
  assert (Hy : inject_Z 1 * 2 ^ 0 <= PyFloat.binary64 (x / 60)).
  { apply binary64_ge; [reflexivity|]. unfold Qdiv. change (/ 60) with (1 # 60).
    change (2 ^ 0) with 1. change (inject_Z 1) with 1. lra. }
  apply int_ge; [lia|]. change (2 ^ 0) with 1 in Hy. lra.
Qed.

Lemma minutes_of_sign d :
  (minutes_of d < 0 <-> d <= - one_minute)%Z /\
  (minutes_of d = 0%Z <-> (- one_minute < d < one_minute)%Z) /\
  (0 < minutes_of d <-> one_minute <= d)%Z.
Proof.
  assert (Hminute : one_minute = 60000000%Z) by reflexivity.
  assert (Hfar : far_ahead = 8053063680000000%Z) by reflexivity.
  destruct (Z_le_gt_dec one_minute d) as [Hhigh|Hhigh].
  { pose proof (minutes_of_positive d Hhigh). lia. }
  destruct (Z_le_gt_dec d (- one_minute)) as [Hlow|Hlow].
  { pose proof (minutes_of_positive (- d) ltac:(lia)) as H.
    rewrite minutes_of_opp in H. lia. }
  assert (Hzero : minutes_of d = 0%Z).
  { rewrite minutes_of_exact by lia. apply Z.quot_small_iff; lia. }
  lia.
Qed.

Lemma int_le z y : (0 <= Qnum y)%Z -> y <= inject_Z z -> (PyFloat.int y <= z)%Z.
Proof.
  intros Hy Hle. destruct y as [a b]. unfold PyFloat.int, Qle in *. simpl in *.
  rewrite Z.quot_div_nonneg by lia.
  apply Z.div_le_upper_bound; lia.
Qed.

(** Between two datetimes the result is the number of whole minutes or,
    when a rounding reaches the next whole minute, one more. *)
Lemma minutes_of_near_nonneg d :
  (0 <= d < datetime_span)%Z ->
  (d / one_minute <= minutes_of d <= d / one_minute + 1)%Z.
Proof.
  intros [Hd0 Hd1]. unfold datetime_span, one_minute, microseconds_per_second in *.
  set (k := (d / (60 * 1000000))%Z).
  pose proof (Z.div_mod d (60 * 1000000) ltac:(lia)) as Hdiv. fold k in Hdiv.
  pose proof (Z.mod_pos_bound d (60 * 1000000) ltac:(lia)) as Hmod.
  set (r := (d mod (60 * 1000000))%Z) in *.
  assert (Hk0 : (0 <= k)%Z) by (apply Z.div_pos; lia).
  assert (Hk1 : (k < 2 ^ 34)%Z) by (apply Z.div_lt_upper_bound; lia).
  assert (Hd : inject_Z d == 60000000 * inject_Z k + inject_Z r).
  { rewrite Hdiv, inject_Z_plus, inject_Z_mult. reflexivity. }
  assert (Hr0 : 0 <= inject_Z r).
  { change 0 with (inject_Z 0). rewrite <- Zle_Qle. lia. }
  assert (Hr1 : inject_Z r <= 59999999).
  { change 59999999 with (inject_Z 59999999). rewrite <- Zle_Qle. lia. }
  assert (HK0 : 0 <= inject_Z k).
  { change 0 with (inject_Z 0). rewrite <- Zle_Qle. lia. }
  unfold minutes_of, PyFloat.truediv, PyFloat.total_seconds, PyFloat.truediv.
  set (x := PyFloat.binary64 (inject_Z d / inject_Z 1000000)).
  set (y := PyFloat.binary64 (x / 60)).
  assert (Hx0 : inject_Z (60 * k) * 2 ^ 0 <= x).
  { apply binary64_ge; [lia|]. rewrite inject_Z_mult.
    unfold Qdiv. change (/ inject_Z 1000000) with (1 # 1000000).
    change (2 ^ 0) with 1. change (inject_Z 60) with 60. lra. }
  assert (Hx1 : x <= inject_Z (60 * (k + 1)) * 2 ^ 0).
  { apply binary64_le; [lia|]. rewrite inject_Z_mult, inject_Z_plus.
    unfold Qdiv. change (/ inject_Z 1000000) with (1 # 1000000).
    change (2 ^ 0) with 1. change (inject_Z 60) with 60. change (inject_Z 1) with 1. lra. }
  rewrite inject_Z_mult in Hx0. rewrite inject_Z_mult, inject_Z_plus in Hx1.
  change (2 ^ 0) with 1 in Hx0, Hx1. change (inject_Z 60) with 60 in Hx0, Hx1.
  change (inject_Z 1) with 1 in Hx1.
  assert (Hy0 : inject_Z k * 2 ^ 0 <= y).
  { apply binary64_ge; [lia|]. change (2 ^ 0) with 1.
    unfold Qdiv. change (/ 60) with (1 # 60). lra. }
  assert (Hy1 : y <= inject_Z (k + 1) * 2 ^ 0).
  { apply binary64_le; [lia|]. rewrite inject_Z_plus. change (2 ^ 0) with 1.
    unfold Qdiv. change (/ 60) with (1 # 60). change (inject_Z 1) with 1. lra. }
  change (2 ^ 0) with 1 in Hy0, Hy1.
  split.
  - apply int_ge; [exact Hk0 | lra].
  - apply int_le; [|lra].
    assert (H0 : 0 <= y) by lra. unfold Qle in H0. simpl in H0. lia.
Qed.

Lemma minutes_of_near d :
  (Z.abs d < datetime_span)%Z ->
  (Z.abs (Z.quot d one_minute) <= Z.abs (minutes_of d)
   <= Z.abs (Z.quot d one_minute) + 1)%Z.
Proof.
  intros Hd. assert (Hminute : (0 < one_minute)%Z) by reflexivity.
  destruct (Z_le_gt_dec 0 d) as [Hpos|Hneg].
  - pose proof (minutes_of_near_nonneg d ltac:(lia)) as H.
    rewrite Z.quot_div_nonneg by lia.
    pose proof (Z.div_pos d one_minute Hpos Hminute). lia.
  - pose proof (minutes_of_near_nonneg (- d) ltac:(lia)) as H.
    rewrite minutes_of_opp in H.
    assert (Hq : Z.quot d one_minute = (- (- d / one_minute))%Z).
    { rewrite <- (Z.opp_involutive d) at 1.
      rewrite Z.quot_opp_l by lia. rewrite Z.quot_div_nonneg by lia. reflexivity. }
    rewrite Hq.
    pose proof (Z.div_pos (- d) one_minute ltac:(lia) Hminute). lia.
Qed.

End Floats.

(** X2.  [get_current_event] reads the clock once and returns the first
    event of the timeline, in timeline order, that is in progress at that
    reading ([start <= now <= end], whatever its stored status says); it
    returns [None] exactly when no event of the timeline is in progress.
    The service is left as it was. *)
Theorem get_current_event_first_in_progress (env : Env) (self : CalendarService) (n : nat) :
  exists found,
    calendar_queries.get_current_event env self n = (Return found, self, S n) /\
    match found with
    | Some event =>
        in_progress (clock env n) event /\
        derive_status (clock env n) (start_datetime event) (end_datetime event) = current /\
        exists before after,
          events self = before ++ event :: after /\
          forall earlier, earlier ∈ before -> ~ in_progress (clock env n) earlier
    | None => forall event, event ∈ events self -> ~ in_progress (clock env n) event
    end.
Proof.
  eexists. split; [reflexivity|].
  pose proof (first_event_spec
                (fun event => (start_datetime event <=? clock env n)
                              && (clock env n <=? end_datetime event))
                (events self)) as Hspec.
  assert (Hiff : forall event,
            (start_datetime event <=? clock env n) && (clock env n <=? end_datetime event)
            = true <-> in_progress (clock env n) event).
  { intros event. unfold in_progress. rewrite andb_true_iff, !Z.leb_le. reflexivity. }
  destruct (calendar_queries.first_event _ (events self)) as [event|]; simpl in Hspec.
  - destruct Hspec as (before & after & Htimeline & Htest & Hbefore).
    apply Hiff in Htest. split; [exact Htest|]. split.
    + apply (derive_status_rule (clock env n)). exact Htest.
    + exists before, after. split; [exact Htimeline|].
      intros earlier Hin Hprogress. apply Hiff in Hprogress.
      rewrite (Hbefore earlier Hin) in Hprogress. discriminate.
  - intros event Hin Hprogress. apply Hiff in Hprogress.
    rewrite (Hspec event Hin) in Hprogress. discriminate.
Qed.

(** X3.  [get_next_event] returns the first event of the timeline, in
    timeline order, that starts strictly after the clock reading: every
    entry before it has started; it returns [None] exactly when no event
    starts after the reading.  On a timeline in ascending start order, as a
    refresh stores it, that event has the earliest start among the events
    still to start.  The event returned is never in progress at that
    reading. *)
Theorem get_next_event_earliest_future (env : Env) (self : CalendarService) (n : nat) :
  exists found,
    calendar_queries.get_next_event env self n = (Return found, self, S n) /\
    match found with
    | Some event =>
        event ∈ events self /\
        clock env n < start_datetime event /\
        ~ in_progress (clock env n) event /\
        (exists before after,
           events self = before ++ event :: after /\
           forall earlier, earlier ∈ before -> start_datetime earlier <= clock env n) /\
        (StronglySorted by_start (events self) ->
         forall other, other ∈ events self -> clock env n < start_datetime other ->
                       start_datetime event <= start_datetime other)
    | None => forall event, event ∈ events self -> start_datetime event <= clock env n
    end.
Proof.
  eexists. split; [reflexivity|].
  pose proof (first_event_spec (fun event => clock env n <? start_datetime event)
                (events self)) as Hspec.
  destruct (calendar_queries.first_event _ (events self)) as [event|]; simpl in Hspec.
  - destruct Hspec as (before & after & Htimeline & Htest & Hbefore).
    apply Z.ltb_lt in Htest.
    split; [rewrite Htimeline; apply elem_of_app; right; left|].
    split; [exact Htest|]. split; [unfold in_progress; lia|].
    split.
    { exists before, after. split; [exact Htimeline|].
      intros earlier Hin. apply Z.ltb_ge. apply Hbefore. exact Hin. }
    intros Hsorted other Hin Hfuture.
    rewrite Htimeline in Hsorted, Hin.
    apply elem_of_app in Hin as [Hin|Hin].
    + apply Hbefore in Hin. apply Z.ltb_ge in Hin. lia.
    + apply StronglySorted_app_1_r in Hsorted.
      apply elem_of_cons in Hin as [->|Hin]; [lia|].
      apply StronglySorted_inv in Hsorted as [_ Hall].
      rewrite Forall_forall in Hall. apply Hall. exact Hin.
  - intros event Hin. specialize (Hspec event Hin). apply Z.ltb_ge in Hspec. exact Hspec.
Qed.

(** On the sample timeline read at eight, the next event is the one that
    starts 30 seconds later, the earliest to come. *)
Lemma get_next_event_earliest_future_witness :
  calendar_queries.get_next_event (Sample.env_at Sample.eight_o_clock)
    (Sample.service_with [Sample.first_call; Sample.second_call]) 0%nat
  = (Return (Some Sample.first_call),
     Sample.service_with [Sample.first_call; Sample.second_call], 1%nat) /\
  start_datetime Sample.first_call <= start_datetime Sample.second_call.
Proof.
  destruct (get_next_event_earliest_future (Sample.env_at Sample.eight_o_clock)
              (Sample.service_with [Sample.first_call; Sample.second_call]) 0%nat)
    as (found & Hrun & Hfound).
  assert (Heval :
    calendar_queries.get_next_event (Sample.env_at Sample.eight_o_clock)
      (Sample.service_with [Sample.first_call; Sample.second_call]) 0%nat
    = (Return (Some Sample.first_call),
       Sample.service_with [Sample.first_call; Sample.second_call], 1%nat))
    by (vm_compute; reflexivity).
  rewrite Heval in Hrun.
  assert (found = Some Sample.first_call) as -> by congruence.
  split; [reflexivity|].
  destruct Hfound as (_ & _ & _ & _ & Hleast).
  apply Hleast.
  - repeat constructor; vm_compute; discriminate.
  - right. left.
  - vm_compute. reflexivity.
Defined.

(** X4.  [get_time_until_next_event] returns [None] exactly when
    [get_next_event] finds no event.  Otherwise it reads the clock a second
    time and returns [int(time_diff.total_seconds() / 60)] for the time
    from that reading to the start of the next event, computed in floats.
    The result is negative exactly when the start is a whole minute or
    more behind the second reading, and 0 exactly when it is less than a
    minute away.  Between two datetimes it is the number of whole minutes
    or one more in magnitude; within [2 ^ 27] minutes (about 255 years) it
    is the number of whole minutes, truncated toward zero:
    [m minutes <= start - now < (m + 1) minutes] while the start is not
    behind the second reading. *)
Theorem get_time_until_next_event_truncates (env : Env) (self : CalendarService) (n : nat) :
  exists found,
    calendar_queries.get_next_event env self n = (Return found, self, S n) /\
    match found with
    | None =>
        calendar_queries.get_time_until_next_event env self n = (Return None, self, S n)
    | Some next_event =>
        let time_diff := start_datetime next_event - clock env (S n) in
        exists minutes,
          calendar_queries.get_time_until_next_event env self n
          = (Return (Some minutes), self, S (S n)) /\
          (minutes < 0 <-> time_diff <= - one_minute) /\
          (minutes = 0 <-> - one_minute < time_diff < one_minute) /\
          (Z.abs time_diff < datetime_span ->
           Z.abs (Z.quot time_diff one_minute) <= Z.abs minutes
           <= Z.abs (Z.quot time_diff one_minute) + 1) /\
          (Z.abs time_diff < far_ahead ->
           minutes = Z.quot time_diff one_minute /\
           (0 <= time_diff ->
            0 <= minutes /\
            minutes * one_minute <= time_diff < (minutes + 1) * one_minute))
    end.
Proof.
  eexists. split; [reflexivity|].
  rewrite get_time_until_next_event_run.
  destruct (calendar_queries.first_event _ (events self)) as [next_event|]; [|reflexivity].
  cbv zeta. set (time_diff := start_datetime next_event - clock env (S n)).
  exists (minutes_of time_diff). split; [reflexivity|].
  destruct (minutes_of_sign time_diff) as (Hneg & Hzero & _).
  split; [exact Hneg|]. split; [exact Hzero|].
  split; [apply minutes_of_near|].
  intros Hrange. rewrite (minutes_of_exact time_diff Hrange).
  split; [reflexivity|]. intros Hpositive.
  assert (Hminute : 0 < one_minute) by reflexivity.
  rewrite Z.quot_div_nonneg by lia.
  pose proof (Z.div_pos _ _ Hpositive Hminute).
  pose proof (Z.mul_div_le time_diff _ Hminute).
  pose proof (Z.mul_succ_div_gt time_diff _ Hminute).
  lia.
Qed.

(** An event that starts 75 seconds after eight, read one second later:
    one whole minute is left. *)
Lemma get_time_until_next_event_truncates_witness :
  calendar_queries.get_time_until_next_event (Sample.env_at Sample.eight_o_clock)
    (Sample.service_with [Sample.second_call]) 0%nat
  = (Return (Some 1), Sample.service_with [Sample.second_call], 2%nat).
Proof.
  destruct (get_time_until_next_event_truncates (Sample.env_at Sample.eight_o_clock)
              (Sample.service_with [Sample.second_call]) 0%nat)
    as (found & Hnext & Hfound).
  assert (found = Some Sample.second_call) as ->.
  { assert (Heval :
      calendar_queries.get_next_event (Sample.env_at Sample.eight_o_clock)
        (Sample.service_with [Sample.second_call]) 0%nat
      = (Return (Some Sample.second_call), Sample.service_with [Sample.second_call], 1%nat))
      by (vm_compute; reflexivity).
    rewrite Heval in Hnext. congruence. }
  destruct Hfound as (minutes & Hrun & _ & _ & _ & Hexact).
  destruct Hexact as [Hminutes _]; [vm_compute; reflexivity|].
  rewrite Hrun, Hminutes. vm_compute. reflexivity.
Defined.

(** ** The status tick of the window *)

Section Tick.
Variable env : Env.

(** The flag of the loop is set by an event that was stored as current
    and is past at its reading, and never reset. *)
Lemma update_loop_marker St (s : St) current_events : forall n marker,
  exists marker',
    main_window.update_loop env current_events marker s n
    = (Return (imap (fun i e => stamp env (n + i) e) current_events, marker'),
       s, (n + length current_events)%nat) /\
    (marker' = true <->
     marker = true \/
     exists i e,
       current_events !! i = Some e /\ ev_status e = current /\
       derive_status (clock env (n + i)) (start_datetime e) (end_datetime e) = past).
Proof.
  induction current_events as [|event rest IH]; intros n marker.
  - exists marker. split.
    + simpl. unfold ret. rewrite Nat.add_0_r. reflexivity.
    + split; [auto|]. intros [H | (i & e & Hi & _)]; [exact H | discriminate].
  - cbn [main_window.update_loop]. unfold bind at 1. unfold datetime_now at 1.
    cbv zeta.
    fold (derive_status (clock env n) (start_datetime event) (end_datetime event)).
    set (st := derive_status (clock env n) (start_datetime event) (end_datetime event)).
    set (m := if Status_eqb (ev_status event) current && Status_eqb st past
              then true else marker).
    destruct (IH (S n) m) as (marker' & Hrun & Hmarker).
    exists marker'. split.
    + unfold bind at 1. rewrite Hrun. unfold ret.
      assert (Heq : imap (fun i e => stamp env (S n + i) e) rest
                    = imap ((fun i e => stamp env (n + i) e) ∘ S) rest).
      { apply imap_ext. intros i e _. simpl. f_equal. lia. }
      rewrite Heq. cbn [imap]. rewrite Nat.add_0_r.
      replace (S n + length rest)%nat with (n + length (event :: rest))%nat
        by (simpl; lia).
      reflexivity.
    + rewrite Hmarker. split.
      * intros [Hm | (i & e & Hi & Hold & Hnew)].
        -- subst m.
           destruct (Status_eqb (ev_status event) current && Status_eqb st past) eqn:Hhere;
             [|left; exact Hm].
           right. exists 0%nat, event. apply andb_true_iff in Hhere as [Hold Hnew].
           split; [reflexivity|]. rewrite Nat.add_0_r. fold st.
           destruct (ev_status event), st; try discriminate. split; reflexivity.
        -- right. exists (S i), e. split; [exact Hi|]. split; [exact Hold|].
           replace (n + S i)%nat with (S n + i)%nat by lia. exact Hnew.
      * intros [Hm | (i & e & Hi & Hold & Hnew)].
        -- left. subst m. rewrite Hm. destruct (_ && _); reflexivity.
        -- destruct i as [|i].
           ++ left. simpl in Hi. injection Hi as <-. rewrite Nat.add_0_r in Hnew.
              subst m. fold st in Hnew. rewrite Hold, Hnew. reflexivity.
           ++ right. exists i, e. split; [exact Hi|]. split; [exact Hold|].
              replace (S n + i)%nat with (n + S i)%nat by lia. exact Hnew.
Qed.

End Tick.

(** X5.  A status tick changes nothing but the status field of the events
    it holds, in place and in order, and it asks for the time marker to be
    moved exactly when some event that was stored as current is past at
    the reading made for it. *)
Theorem status_tick_marker (env : Env) (current_events : list Event) (n : nat) :
  exists marker updated,
    main_window.update_event_statuses env current_events n
    = (Return marker, updated, (n + length current_events)%nat) /\
    Forall2 same_but_status current_events updated /\
    (marker = true <->
     exists i e,
       current_events !! i = Some e /\ ev_status e = current /\
       derive_status (clock env (n + i)) (start_datetime e) (end_datetime e) = past).
Proof.
  destruct current_events as [|e0 rest].
  - exists false, []. split; [|split].
    + unfold main_window.update_event_statuses. unfold_M. simpl.
      rewrite Nat.add_0_r. reflexivity.
    + constructor.
    + split; [discriminate|]. intros (i & e & Hi & _). discriminate.
  - destruct (update_loop_marker env (list Event) (e0 :: rest) (e0 :: rest) n false)
      as (marker & Hrun & Hmarker).
    exists marker, (imap (fun i e => stamp env (n + i) e) (e0 :: rest)).
    split; [|split].
    + unfold main_window.update_event_statuses.
      unfold bind at 1. unfold get at 1. cbv beta iota.
      unfold bind at 1.
      change (main_window.update_loop env (e0 :: rest) false (e0 :: rest) n)
        with (@main_window.update_loop env (list Event) (e0 :: rest) false (e0 :: rest) n).
      rewrite Hrun. reflexivity.
    + apply Forall2_same_length_lookup. split; [rewrite length_imap; reflexivity|].
      intros i a b Ha Hb. rewrite list_lookup_imap, Ha in Hb. injection Hb as <-.
      unfold same_but_status, stamp. destruct a. reflexivity.
    + rewrite Hmarker. split; [intros [H|H]; [discriminate|exact H] | auto].
Qed.

(** ** The status kept by an event widget *)

(** X6.  After [EventWidget.update_status] the stored status is the one
    the status rule gives for the last clock reading the call made: the
    single reading when the status did not change, the second reading (made
    by [update_status_indicator]) when it did.  Nothing but the status
    field is touched. *)
Theorem event_widget_update_status (env : Env) (event_data : Event) (n : nat) :
  exists event_data' n',
    event_widget.update_status env event_data n = (Return tt, event_data', n') /\
    same_but_status event_data event_data' /\
    (n' = S n \/ n' = S (S n)) /\
    ev_status event_data'
    = derive_status (clock env (Nat.pred n'))
        (start_datetime event_data) (end_datetime event_data) /\
    (n' = S n <-> ev_status event_data
                  = derive_status (clock env n)
                      (start_datetime event_data) (end_datetime event_data)).
Proof.
  assert (Hstatus : forall e m,
            event_widget.get_current_status env e m
            = (Return (derive_status (clock env m) (start_datetime e) (end_datetime e)),
               e, S m)).
  { intros e m. unfold event_widget.get_current_status, derive_status. unfold_M.
    destruct (clock env m <? start_datetime e); [reflexivity|].
    destruct ((start_datetime e <=? clock env m) && (clock env m <=? end_datetime e));
      reflexivity. }
  unfold event_widget.update_status. unfold bind at 1. unfold get at 1.
  unfold bind at 1. rewrite Hstatus.
  set (new_status := derive_status (clock env n) (start_datetime event_data)
                       (end_datetime event_data)).
  destruct (Status_eqb (ev_status event_data) new_status) eqn:Hsame; simpl.
  - exists event_data, (S n). split; [reflexivity|]. split; [reflexivity|].
    split; [left; reflexivity|].
    assert (ev_status event_data = new_status) as Heq
      by (destruct (ev_status event_data), new_status; try discriminate; reflexivity).
    split; [exact Heq|]. split; [intros _; exact Heq | reflexivity].
  - unfold bind at 1. unfold modify at 1.
    unfold event_widget.update_status_indicator. unfold bind at 1. rewrite Hstatus.
    unfold modify. eexists _, _. split; [reflexivity|].
    split; [unfold same_but_status; destruct event_data; reflexivity|].
    split; [right; reflexivity|].
    split; [destruct event_data; reflexivity|].
    split; [intros H; lia|].
    intros Heq. rewrite Heq in Hsame. fold new_status in Hsame.
    destruct new_status; discriminate.
Qed.

(** X7.  [EventWidget.get_time_until_start] returns
    [int(time_diff.total_seconds() / 60)], computed in floats.  It is
    negative only once the event started a whole minute ago or more, and
    it returns 0 from less than a minute after the start to less than a
    minute before it.  Between two datetimes it is the number of whole
    minutes or one more in magnitude; within [2 ^ 27] minutes (about 255
    years) it is the number of whole minutes truncated toward zero. *)
Theorem get_time_until_start_sign (env : Env) (event_data : Event) (n : nat) :
  let time_diff := start_datetime event_data - clock env n in
  exists minutes,
    event_widget.get_time_until_start env event_data n = (Return minutes, event_data, S n) /\
    (minutes < 0 <-> time_diff <= - one_minute) /\
    (minutes = 0 <-> - one_minute < time_diff < one_minute) /\
    (Z.abs time_diff < datetime_span ->
     Z.abs (Z.quot time_diff one_minute) <= Z.abs minutes
     <= Z.abs (Z.quot time_diff one_minute) + 1) /\
    (Z.abs time_diff < far_ahead -> minutes = Z.quot time_diff one_minute).
Proof.
  intros time_diff. exists (minutes_of time_diff).
  split; [reflexivity|].
  destruct (minutes_of_sign time_diff) as (Hneg & Hzero & _).
  split; [exact Hneg|]. split; [exact Hzero|].
  split; [apply minutes_of_near | apply minutes_of_exact].
Qed.

(** The widget of an event that started 90 seconds before the reading
    answers -1. *)
Lemma get_time_until_start_sign_witness :
  let started := Sample.event_at "started" (Sample.eight_o_clock - Sample.seconds 90)
                   current in
  event_widget.get_time_until_start (Sample.env_at Sample.eight_o_clock) started 0%nat
  = (Return (-1), started, 1%nat).
Proof.
  intros started.
  destruct (get_time_until_start_sign (Sample.env_at Sample.eight_o_clock) started 0%nat)
    as (minutes & Hrun & _ & _ & _ & Hexact).
  rewrite Hrun, Hexact; [vm_compute; reflexivity|]. vm_compute. reflexivity.
Defined.

(** Beyond that range a rounding can reach the next whole minute: one
    microsecond short of [2 ^ 30] minutes, the seconds are rounded to
    64424509440.0 and the widget answers [2 ^ 30]. *)
Example get_time_until_start_rounds_up :
  let far := Sample.event_at "far" (Sample.eight_o_clock + 2 ^ 30 * one_minute - 1)
               upcoming in
  let time_diff := start_datetime far - clock (Sample.env_at Sample.eight_o_clock) 0 in
  time_diff = 64424509439999999 /\
  Z.quot time_diff one_minute = 2 ^ 30 - 1 /\
  (PyFloat.total_seconds time_diff == 64424509440)%Q /\
  event_widget.get_time_until_start (Sample.env_at Sample.eight_o_clock) far 0%nat
  = (Return (2 ^ 30), far, 1%nat).
Proof.
  split; [vm_compute; reflexivity|]. split; [vm_compute; reflexivity|].
  split; vm_compute; reflexivity.
Qed.

(** ** What the normalizer keeps *)

Section Normalizer.
Variable env : Env.

Lemma truthy_spec value :
  truthy value = true <-> exists s, value = Some s /\ s <> EmptyString.
Proof.
  destruct value as [[|c s]|]; simpl; split; try discriminate.
  - intros (s & Hs & Hne). injection Hs as <-. contradiction.
  - intros _. eexists. split; [reflexivity | discriminate].
  - reflexivity.
  - intros (s & Hs & _). discriminate.
Qed.

Lemma normalize_well_formed event calendar :
  is_Some (normalize env event calendar) <-> well_formed env event.
Proof.
  unfold normalize, resolve_start, resolve_end, well_formed. split.
  - intros [e He].
    destruct (raw_start event) as [start_obj|]; [|discriminate]. simpl in He.
    destruct (truthy (get_dateTime_or_date start_obj)) eqn:Htruthy; [|discriminate].
    apply truthy_spec in Htruthy as (start_value & Hvalue & Hne).
    rewrite Hvalue in He. simpl in He.
    destruct (if contains "T" start_value then _ else _) as [[start_dt all_day]|] eqn:Hparse;
      [|discriminate].
    simpl in He.
    destruct (raw_end event) as [end_obj|]; [|discriminate]. simpl in He.
    destruct (raw_id event) as [id|];
      [|destruct (if timed_end end_obj then _ else _); discriminate].
    exists start_obj, start_value, end_obj, id.
    split; [reflexivity|]. split; [exact Hvalue|]. split; [exact Hne|].
    split.
    { clear He.
      destruct (contains "T" start_value);
        [destruct (instant_of_datetime env start_value)
        |destruct (instant_of_date env start_value)];
        simpl in Hparse; try discriminate Hparse; eexists; reflexivity. }
    split; [reflexivity|]. split; [|reflexivity].
    intros Htimed. rewrite Htimed in He.
    destruct (instant_of_datetime env (default "" (get_dateTime_or_date end_obj)));
      [eexists; reflexivity | discriminate He].
  - intros (start_obj & start_value & end_obj & id & -> & Hvalue & Hne & Hparse & -> & Hend & ->).
    simpl. rewrite Hvalue.
    assert (truthy (Some start_value) = true) as ->
      by (apply truthy_spec; eexists; split; [reflexivity | exact Hne]).
    simpl.
    destruct (contains "T" start_value); destruct Hparse as [start_dt Hparse];
      rewrite Hparse; simpl.
    + destruct (timed_end end_obj) eqn:Htimed.
      * destruct (Hend eq_refl) as [end_dt ->]. eexists. reflexivity.
      * eexists. reflexivity.
    + destruct (timed_end end_obj) eqn:Htimed.
      * destruct (Hend eq_refl) as [end_dt ->]. eexists. reflexivity.
      * eexists. reflexivity.
Qed.

Lemma normalize_fields event calendar e :
  normalize env event calendar = Some e ->
  raw_id event = Some (ev_id e) /\
  ev_title e = default "No Title" (raw_summary event) /\
  ev_description e = default EmptyString (raw_description event) /\
  ev_location e = default EmptyString (raw_location event) /\
  calendar_name e = cal_summary calendar /\
  calendar_color e = backgroundColor calendar /\
  resolve_start env event = Some (start_datetime e, is_all_day e) /\
  formatted_time e = _format_event_time env (start_datetime e) (end_datetime e) (is_all_day e).
Proof.
  unfold normalize. intros H.
  destruct (resolve_start env event) as [[start_dt all_day]|]; [|discriminate].
  simpl in H.
  destruct (resolve_end env event start_dt) as [end_dt|]; [|discriminate].
  simpl in H.
  destruct (raw_id event) as [id|]; [|discriminate].
  simpl in H. injection H as <-. simpl. repeat split.
Qed.

End Normalizer.

(** X8.  [_process_event] never raises.  It keeps a raw record exactly
    when the record is well formed: a start object with a non-empty value
    that parses, an end object whose value parses if it is timed, and an
    id; every other record is discarded without a clock reading.  A kept
    event carries the id of the record, the title ["No Title"] and an empty
    description and location where the record has none, and the name and
    colour of its calendar; it is all-day exactly when its start value has
    no ['T']. *)
Theorem process_event_keeps_well_formed (env : Env) (St : Type) (s : St) (n : nat)
    (event : RawEvent) (calendar : Calendar) :
  (well_formed env event ->
   exists e,
     _process_event env event calendar s n = (Return (Some e), s, S n) /\
     raw_id event = Some (ev_id e) /\
     ev_title e = default "No Title" (raw_summary event) /\
     ev_description e = default EmptyString (raw_description event) /\
     ev_location e = default EmptyString (raw_location event) /\
     calendar_name e = cal_summary calendar /\
     calendar_color e = backgroundColor calendar /\
     (forall start_obj start_value,
        raw_start event = Some start_obj ->
        get_dateTime_or_date start_obj = Some start_value ->
        is_all_day e = negb (contains "T" start_value))) /\
  (~ well_formed env event ->
   _process_event env event calendar s n = (Return None, s, n)).
Proof.
  rewrite process_event_run. split.
  - intros Hwf. apply (normalize_well_formed env event calendar) in Hwf as [e He].
    rewrite He. exists (stamp env n e). split; [reflexivity|].
    destruct (normalize_fields env event calendar e He)
      as (Hid & Htitle & Hdescription & Hlocation & Hname & Hcolor & Hstart & _).
    unfold stamp. destruct e; simpl in *. repeat (split; [assumption|]).
    intros start_obj start_value Hobj Hvalue.
    unfold resolve_start in Hstart. rewrite Hobj in Hstart. simpl in Hstart.
    rewrite Hvalue in Hstart.
    destruct (truthy (Some start_value)); [|discriminate]. simpl in Hstart.
    destruct (contains "T" start_value).
    + destruct (instant_of_datetime env start_value); [|discriminate].
      simpl in Hstart |- *. congruence.
    + destruct (instant_of_date env start_value); [|discriminate].
      simpl in Hstart |- *. congruence.
  - intros Hnot. destruct (normalize env event calendar) as [e|] eqn:He; [|reflexivity].
    exfalso. apply Hnot. apply (normalize_well_formed env event calendar).
    rewrite He. eexists. reflexivity.
Qed.

(** An all-day record for 2024-06-01 is kept, flagged all-day, and starts
    at the local midnight of that date. *)
Lemma process_event_keeps_well_formed_witness :
  exists e,
    _process_event (Sample.env_at Sample.eight_o_clock)
      (Sample.raw "holiday" (Some (Sample.all_day "2024-06-01"))
         (Some (Sample.all_day "2024-06-02")))
      Sample.work tt 0%nat = (Return (Some e), tt, 1%nat) /\
    is_all_day e = true /\
    ev_title e = "holiday" /\
    calendar_name e = "Work".
Proof.
  destruct (proj1 (process_event_keeps_well_formed (Sample.env_at Sample.eight_o_clock)
                     unit tt 0%nat
                     (Sample.raw "holiday" (Some (Sample.all_day "2024-06-01"))
                        (Some (Sample.all_day "2024-06-02")))
                     Sample.work))
    as (e & Hrun & _ & Htitle & _ & _ & Hname & _ & Hall_day).
  - exists (Sample.all_day "2024-06-01"), "2024-06-01", (Sample.all_day "2024-06-02"),
      "holiday".
    split; [reflexivity|]. split; [reflexivity|]. split; [discriminate|].
    split; [vm_compute; eexists; reflexivity|]. split; [reflexivity|].
    split; [discriminate | reflexivity].
  - exists e. split; [exact Hrun|].
    split; [apply (Hall_day (Sample.all_day "2024-06-01") "2024-06-01"); reflexivity|].
    split; [exact Htitle | exact Hname].
Defined.

(** ** What a scan can find *)



(** X10.  The notifications a scan finds are in timeline order, at most
    one for each entry of the timeline. *)
Theorem scan_keeps_timeline_order (now warning_minutes : Z) (timeline : list Event) :
  sublist (map fst (notifications_loop now warning_minutes timeline)) timeline.
Proof.
  induction timeline as [|event rest IH]; simpl; [constructor|].
  destruct (Status_eqb (ev_status event) past); [apply sublist_cons; exact IH|].
  destruct (window 0 _ 60); [apply sublist_skip; exact IH|].
  destruct (window _ _ _); [apply sublist_skip; exact IH | apply sublist_cons; exact IH].
Qed.

(** ** Every refresh *)

(** X11.  Whatever the gateway does, [get_today_events] returns a list in
    ascending start order of at most [MAX_EVENTS_DISPLAY] events, and
    either it returns the empty list and leaves the service as it was, or
    the list it returns is the timeline it stored, stamped with the last
    clock reading it made. *)
Theorem refresh_result_is_bounded_and_sorted (env : Env) (gw : Gateway)
    (self : CalendarService) (n : nat) :
  exists result self' n',
    get_today_events env gw self n = (Return result, self', n') /\
    StronglySorted by_start result /\
    (length result <= settings.MAX_EVENTS_DISPLAY)%nat /\
    ((result = [] /\ self' = self) \/
     (events self' = result /\ last_update self' = Some (clock env (Nat.pred n')))).
Proof.
  rewrite get_today_events_run.
  destruct (get_service gw).
  - destruct (collect env gw (S n) (get_calendar_list gw)) as [[all_events|e] n'].
    + eexists _, _, _. split; [reflexivity|]. cbv zeta.
      split.
      { pose proof (sort_by_sorted start_datetime all_events) as Hsorted.
        rewrite <- (take_drop settings.MAX_EVENTS_DISPLAY
                      (sort_by start_datetime all_events)) in Hsorted.
        apply StronglySorted_app_1_l in Hsorted. exact Hsorted. }
      split; [rewrite length_take; lia|]. right. split; reflexivity.
    + eexists _, _, _. split; [reflexivity|]. split; [constructor|].
      split; [simpl; lia|]. left. split; reflexivity.
  - eexists _, _, _. split; [reflexivity|]. split; [constructor|].
    split; [simpl; lia|]. left. split; reflexivity.
Qed.

(** X12.  [refresh_calendar_data] never raises and gives the window
    exactly the list [get_today_events] returned.  When no service object
    is obtained, the window is left with no events while the calendar
    service keeps the timeline it had, the one the rule engine scans; the
    status tick of the window then does nothing, without reading the
    clock. *)
Theorem window_refresh_follows_the_result (env : Env) (gw : Gateway)
    (self : window_refresh.Window) (n : nat) :
  exists result service' n',
    get_today_events env gw (window_refresh.calendar_service self) n
    = (Return result, service', n') /\
    window_refresh.refresh_calendar_data env gw self n
    = (Return tt,
       {| window_refresh.calendar_service := service';
          window_refresh.current_events := result;
          window_refresh.last_refresh := Some (clock env n') |},
       S n') /\
    (get_service gw = false ->
     result = [] /\ service' = window_refresh.calendar_service self /\
     forall m,
       window_refresh.update_event_statuses env
         {| window_refresh.calendar_service := service';
            window_refresh.current_events := result;
            window_refresh.last_refresh := Some (clock env n') |} m
       = (Return false,
          {| window_refresh.calendar_service := service';
             window_refresh.current_events := result;
             window_refresh.last_refresh := Some (clock env n') |}, m)).
Proof.
  destruct (refresh_result_is_bounded_and_sorted env gw
              (window_refresh.calendar_service self) n)
    as (result & service' & n' & Hrun & _).
  exists result, service', n'. split; [exact Hrun|]. split.
  - unfold window_refresh.refresh_calendar_data, try_except.
    unfold bind at 1. unfold zoom at 1. rewrite Hrun. reflexivity.
  - intros Hservice. rewrite get_today_events_run, Hservice in Hrun.
    injection Hrun as <- <- <-.
    split; [reflexivity|]. split; [reflexivity|]. intros m. reflexivity.
Qed.

(** The window held the timeline of the service; a refresh without a
    service object empties the window and leaves the service alone. *)
Lemma window_refresh_follows_the_result_witness :
  exists n',
    window_refresh.refresh_calendar_data (Sample.env_at Sample.eight_o_clock)
      Sample.gw_no_service
      {| window_refresh.calendar_service := Sample.loaded_service;
         window_refresh.current_events := events Sample.loaded_service;
         window_refresh.last_refresh := None |} 0%nat
    = (Return tt,
       {| window_refresh.calendar_service := Sample.loaded_service;
          window_refresh.current_events := [];
          window_refresh.last_refresh :=
            Some (clock (Sample.env_at Sample.eight_o_clock) n') |},
       S n').
Proof.
  destruct (window_refresh_follows_the_result (Sample.env_at Sample.eight_o_clock)
              Sample.gw_no_service
              {| window_refresh.calendar_service := Sample.loaded_service;
                 window_refresh.current_events := events Sample.loaded_service;
                 window_refresh.last_refresh := None |} 0%nat)
    as (result & service' & n' & _ & Hrun & Hfailed).
  destruct (Hfailed eq_refl) as (-> & -> & _).
  exists n'. exact Hrun.
Defined.

(** ** The scheduler and its widget *)

Section Active.
Import notification_widget.
Variable env : Env.

Lemma shown_consistent event_data type w queue timestamp :
  active_consistent
    {| notification_widget := shown_widget event_data type w;
       notification_queue := queue;
       current_notification := Some (alert event_data type timestamp) |}.
Proof.
  intros active Hactive. simpl in Hactive. injection Hactive as <-.
  unfold shown_widget, fade_in_start. simpl.
  destruct (fade_in_running w); simpl; repeat split.
Qed.

Lemma call_keeps_consistent c self n :
  active_consistent self -> active_consistent (snd (fst (call env c self n))).
Proof.
  intros Hself. destruct self as [w queue active]. destruct c as [event_data type | | | | | ev]; simpl.
  - rewrite show_notification_run. simpl.
    destruct (is_showing w).
    + destruct (existsb _ _); simpl; exact Hself.
    + simpl. apply shown_consistent.
  - rewrite process_queue_run. simpl.
    destruct (is_showing w); [exact Hself|].
    destruct queue as [|[e k t] rest]; [exact Hself|]. simpl.
    apply (shown_consistent e k w rest t).
  - rewrite dismiss_current_run. simpl.
    destruct (is_showing w); [|exact Hself]. intros a Ha. discriminate.
  - exact Hself.
  - intros a Ha. discriminate.
  - unfold qt_event. unfold bind at 1. unfold get at 1. simpl.
    destruct ev; simpl.
    + destruct (fade_in_running w || fade_out_running w); simpl; [|exact Hself].
      intros a Ha. exact (Hself a Ha).
    + destruct (fade_in_running w); simpl; [|exact Hself].
      intros a Ha. exact (Hself a Ha).
    + destruct (fade_out_running w); simpl; [|exact Hself].
      intros a Ha. exact (Hself a Ha).
    + destruct (auto_dismiss_timer w); simpl; [|exact Hself].
      intros a Ha. discriminate.
Qed.

End Active.

(** X13.  At every reachable state of the scheduler, an active record
    comes with a running auto-dismiss timer on the widget, and the widget
    holds the event and the type of that record: the scheduler never has an
    active record that the widget does not display or that no timer will
    dismiss. *)
Theorem active_record_is_on_display (env : Env) (st : notification_widget.NotificationManager * nat) :
  notification_widget.reachable env st -> active_consistent (fst st).
Proof.
  induction 1 as [n | c [self n] Hreach IH].
  - intros active Hactive. discriminate.
  - unfold notification_widget.after. simpl in *.
    pose proof (call_keeps_consistent env c self n IH) as Hstep.
    destruct (notification_widget.call env c self n) as [[r self'] n']. exact Hstep.
Qed.

Lemma active_record_is_on_display_witness :
  active_consistent
    (fst (Sample.showing (Sample.env_at Sample.eight_o_clock) Sample.first_call start)).
Proof.
  apply (active_record_is_on_display (Sample.env_at Sample.eight_o_clock)).
  repeat constructor.
Defined.

(** X14.  When the user dismisses the alert on display, the scheduler has
    no active record until the fade-out has ended; the backlog-drain tick
    that follows the end of the fade-out makes the oldest queued record
    active and leaves the others queued in their order. *)
Theorem dismissal_then_drain_promotes_oldest (env : Env)
    (self : notification_widget.NotificationManager) (n : nat)
    (next_notification : notification_widget.Notification)
    (rest : list notification_widget.Notification) :
  notification_widget.notification_queue self = next_notification :: rest ->
  let dismissed := notification_widget.after env notification_widget.UserDismiss (self, n) in
  let hidden := notification_widget.after env
                  (notification_widget.Qt notification_widget.FadeOutFinished) dismissed in
  let drained := notification_widget.after env notification_widget.ProcessQueue hidden in
  notification_widget.current_notification (fst dismissed) = None /\
  notification_widget.notification_queue (fst dismissed) = next_notification :: rest /\
  notification_widget.current_notification (fst hidden) = None /\
  notification_widget.is_showing (notification_widget.notification_widget (fst hidden))
  = false /\
  notification_widget.current_notification (fst drained) = Some next_notification /\
  notification_widget.notification_queue (fst drained) = rest.
Proof.
  intros Hqueue dismissed hidden drained.
  destruct self as [w queue active]. simpl in Hqueue. subst queue.
  assert (Hdismissed :
    dismissed
    = (notification_widget.set_current None
         (notification_widget.set_widget
            (dismissed_widget w)
            {| notification_widget.notification_widget := w;
               notification_widget.notification_queue := next_notification :: rest;
               notification_widget.current_notification := active |}), n)).
  { unfold dismissed, notification_widget.after.
    cbn [notification_widget.call fst snd]. rewrite widget_dismiss_run. reflexivity. }
  assert (Hrunning :
    notification_widget.fade_out_running (dismissed_widget w) = true).
  { unfold dismissed_widget, notification_widget.fade_out_start. simpl.
    destruct (notification_widget.fade_out_running w) eqn:Hfade; simpl;
      [exact Hfade|reflexivity]. }
  assert (Hhidden :
    exists w',
      hidden = ({| notification_widget.notification_widget := w';
                   notification_widget.notification_queue := next_notification :: rest;
                   notification_widget.current_notification := None |}, n) /\
      notification_widget.is_showing w' = false).
  { unfold hidden. rewrite Hdismissed. unfold notification_widget.after.
    cbn [notification_widget.call fst snd].
    unfold notification_widget.qt_event. unfold bind at 1. unfold get at 1.
    cbn [notification_widget.notification_widget notification_widget.set_current
         notification_widget.set_widget].
    rewrite Hrunning. unfold notification_widget.on_widget, modify.
    eexists. split; reflexivity. }
  destruct Hhidden as (w' & Hhidden & Hshowing).
  assert (Hdrained :
    notification_widget.current_notification (fst drained) = Some next_notification /\
    notification_widget.notification_queue (fst drained) = rest).
  { unfold drained. rewrite Hhidden. unfold notification_widget.after.
    cbn [notification_widget.call fst snd]. rewrite process_queue_run.
    cbn [notification_widget.notification_widget notification_widget.notification_queue].
    rewrite Hshowing. split; reflexivity. }
  rewrite Hhidden, Hdismissed. simpl.
  split; [reflexivity|]. split; [reflexivity|]. split; [reflexivity|].
  split; [exact Hshowing|]. exact Hdrained.
Qed.

Lemma dismissal_then_drain_promotes_oldest_witness :
  option_map identity
    (notification_widget.current_notification
       (fst (notification_widget.after (Sample.env_at Sample.eight_o_clock)
               notification_widget.ProcessQueue
               (notification_widget.after (Sample.env_at Sample.eight_o_clock)
                  (notification_widget.Qt notification_widget.FadeOutFinished)
                  (notification_widget.after (Sample.env_at Sample.eight_o_clock)
                     notification_widget.UserDismiss
                     (notification_widget.after (Sample.env_at Sample.eight_o_clock)
                        (notification_widget.Show Sample.second_call start)
                        (Sample.showing (Sample.env_at Sample.eight_o_clock)
                           Sample.first_call start)))))))
  = Some ("second", start).
Proof.
  destruct (notification_widget.after (Sample.env_at Sample.eight_o_clock)
              (notification_widget.Show Sample.second_call start)
              (Sample.showing (Sample.env_at Sample.eight_o_clock) Sample.first_call start))
    as [self n] eqn:Hstate.
  assert (Hqueue : notification_widget.notification_queue self
                   = [alert Sample.second_call start
                        (clock (Sample.env_at Sample.eight_o_clock) 1)]).
  { apply (f_equal fst) in Hstate. simpl in Hstate. rewrite <- Hstate. reflexivity. }
  destruct (dismissal_then_drain_promotes_oldest (Sample.env_at Sample.eight_o_clock)
              self n _ _ Hqueue) as (_ & _ & _ & _ & Hactive & _).
  rewrite Hactive. reflexivity.
Defined.

(** ** What a scan and a dismissal leave alone *)

Section Frames.
Import notification_manager.
Variable env : Env.

(** One candidate of a scan: it never raises, leaves the calendar service
    alone, only adds to the emitted signals, and leaves at most 100 keys in
    a cache that held at most 100. *)
Lemma check_notification_frame notification app n :
  exists app' n' emitted_now,
    check_notification env notification app n = (Return tt, app', n') /\
    calendar_service app' = calendar_service app /\
    emitted app' = emitted app ++ emitted_now /\
    ((size (shown_notifications (notification_manager app)) <= 100)%nat ->
     (size (shown_notifications (notification_manager app')) <= 100)%nat).
Proof.
  destruct notification as [event type].
  destruct (decide (notification_key event type
                      ∈ shown_notifications (notification_manager app))) as [Hin|Hnotin].
  - exists app, n, []. rewrite check_notification_skip by exact Hin.
    split; [reflexivity|]. split; [reflexivity|]. split; [rewrite app_nil_r; reflexivity|].
    auto.
  - destruct (check_notification_fire env event type app n Hnotin)
      as (app1 & n1 & Hshow & Hfire).
    rewrite show_event_notification_run in Hshow. cbv zeta in Hshow.
    injection Hshow as Happ1 Hn1.
    eexists _, _, _. split; [exact Hfire|]. cbv zeta.
    rewrite <- Happ1. cbn [set_self set_shown calendar_service emitted notification_manager
                            shown_notifications].
    split; [reflexivity|]. split; [reflexivity|].
    intros _.
    destruct (100 <? size _)%nat eqn:Hfull.
    + rewrite size_empty. lia.
    + apply Nat.ltb_ge in Hfull. exact Hfull.
Qed.

Lemma for_each_frame notifications : forall app n,
  exists app' n' emitted_now,
    for_each notifications (check_notification env) app n = (Return tt, app', n') /\
    calendar_service app' = calendar_service app /\
    emitted app' = emitted app ++ emitted_now /\
    ((size (shown_notifications (notification_manager app)) <= 100)%nat ->
     (size (shown_notifications (notification_manager app')) <= 100)%nat).
Proof.
  induction notifications as [|notification rest IH]; intros app n.
  - exists app, n, []. split; [reflexivity|]. split; [reflexivity|].
    split; [rewrite app_nil_r; reflexivity | auto].
  - destruct (check_notification_frame notification app n)
      as (app1 & n1 & emitted1 & Hrun1 & Hcal1 & Hemitted1 & Hsize1).
    destruct (IH app1 n1) as (app2 & n2 & emitted2 & Hrun2 & Hcal2 & Hemitted2 & Hsize2).
    exists app2, n2, (emitted1 ++ emitted2).
    split; [cbn [for_each]; unfold bind; rewrite Hrun1; exact Hrun2|].
    split; [congruence|].
    split; [rewrite Hemitted2, Hemitted1, app_assoc; reflexivity | auto].
Qed.

End Frames.

(** X15.  A rule-check scan never raises, never changes the timeline of
    the calendar service, and never removes an emitted signal: the signals
    after the scan are those before it followed by those of the scan. *)
Theorem scan_leaves_the_timeline_alone (env : Env) (app : notification_manager.App) (n : nat) :
  exists app' n' emitted_now,
    notification_manager.check_notifications env app n = (Return tt, app', n') /\
    notification_manager.calendar_service app' = notification_manager.calendar_service app /\
    notification_manager.emitted app' = notification_manager.emitted app ++ emitted_now.
Proof.
  rewrite check_notifications_run. unfold try_except.
  destruct (for_each_frame env
              (notifications_loop (clock env n) settings.WARNING_MINUTES
                 (events (notification_manager.calendar_service app)))
              app (S n))
    as (app' & n' & emitted_now & Hrun & Hcal & Hemitted & _).
  rewrite Hrun. exists app', n', emitted_now. repeat split; assumption.
Qed.

(** X16.  A scan keeps the dedup cache within its ceiling: a cache of at
    most 100 keys holds at most 100 keys after the scan, however many pairs
    fired. *)
Theorem dedup_cache_stays_bounded (env : Env) (app : notification_manager.App) (n : nat) :
  (size (notification_manager.shown_notifications
           (notification_manager.notification_manager app)) <= 100)%nat ->
  (size (notification_manager.shown_notifications
           (notification_manager.notification_manager
              (snd (fst (notification_manager.check_notifications env app n))))) <= 100)%nat.
Proof.
  intros Hsize. rewrite check_notifications_run. unfold try_except.
  destruct (for_each_frame env
              (notifications_loop (clock env n) settings.WARNING_MINUTES
                 (events (notification_manager.calendar_service app)))
              app (S n))
    as (app' & n' & emitted_now & Hrun & _ & _ & Hbound).
  rewrite Hrun. simpl. apply Hbound. exact Hsize.
Qed.

(** A cache of a hundred keys, and a scan that fires one more pair. *)
Lemma dedup_cache_stays_bounded_witness :
  (size (notification_manager.shown_notifications
           (notification_manager.notification_manager
              (snd (fst (notification_manager.check_notifications
                           (Sample.env_at Sample.eight_o_clock)
                           (Sample.app_with [Sample.briefing] Sample.hundred_keys)
                           0%nat))))) <= 100)%nat.
Proof.
  apply (dedup_cache_stays_bounded (Sample.env_at Sample.eight_o_clock)
           (Sample.app_with [Sample.briefing] Sample.hundred_keys) 0%nat).
  vm_compute. lia.
Defined.

(** X17.  [dismiss_notification] emits [hide_notification] exactly when a
    notification is current, then holds none and has its timer stopped; it
    never touches the dedup cache or the timeline, so a dismissed pair does
    not fire again.  Dismissing twice is dismissing once, and
    [auto_dismiss_notification] does the same as [dismiss_notification]. *)
Theorem dismissal_keeps_the_cache (app : notification_manager.App) (n : nat) :
  exists app',
    notification_manager.dismiss_notification app n = (Return tt, app', n) /\
    notification_manager.auto_dismiss_notification app n = (Return tt, app', n) /\
    notification_manager.dismiss_notification app' n = (Return tt, app', n) /\
    notification_manager.current_notification
      (notification_manager.notification_manager app') = None /\
    notification_manager.shown_notifications (notification_manager.notification_manager app')
    = notification_manager.shown_notifications
        (notification_manager.notification_manager app) /\
    notification_manager.calendar_service app' = notification_manager.calendar_service app /\
    notification_manager.emitted app'
    = notification_manager.emitted app
      ++ match notification_manager.current_notification
                 (notification_manager.notification_manager app) with
         | Some _ => [notification_manager.hide_notification]
         | None => []
         end.
Proof.
  eexists. split; [apply dismiss_notification_run|].
  split.
  { unfold notification_manager.auto_dismiss_notification. unfold bind at 1. unfold get at 1.
    destruct (notification_manager.current_notification
                (notification_manager.notification_manager app)) eqn:Hcurrent.
    - rewrite dismiss_notification_run, Hcurrent. reflexivity.
    - reflexivity. }
  rewrite dismiss_notification_run.
  destruct app as [cal [keys active start_time timer] ui signals]. simpl.
  destruct active as [held|]; simpl; repeat split.
  rewrite app_nil_r. reflexivity.
Qed.

(** X18.  [reset_notifications] empties the dedup cache and dismisses the
    current notification; after it every pair fires again: whatever the
    cache held, the next candidate examined is emitted to the scheduler,
    with no [hide_notification] before it. *)
Theorem reset_lets_every_pair_fire_again (env : Env) (app : notification_manager.App)
    (n : nat) (event : Event) (type : Kind) :
  exists app1 app2 n2,
    notification_manager.reset_notifications app n = (Return tt, app1, n) /\
    notification_manager.shown_notifications (notification_manager.notification_manager app1)
    = ∅ /\
    notification_manager.current_notification
      (notification_manager.notification_manager app1) = None /\
    notification_manager.check_notification env (event, type) app1 n
    = (Return tt, app2, n2) /\
    notification_manager.emitted app2
    = notification_manager.emitted app1
      ++ [notification_manager.show_notification event type].
Proof.
  assert (Hreset :
    exists app1,
      notification_manager.reset_notifications app n = (Return tt, app1, n) /\
      notification_manager.shown_notifications
        (notification_manager.notification_manager app1) = ∅ /\
      notification_manager.current_notification
        (notification_manager.notification_manager app1) = None).
  { unfold notification_manager.reset_notifications. unfold bind at 1.
    unfold notification_manager.on_self at 1. unfold modify at 1.
    rewrite dismiss_notification_run.
    destruct app as [cal [keys active start_time timer] ui signals]. simpl.
    destruct active as [held|]; eexists; repeat split. }
  destruct Hreset as (app1 & Hreset & Hcache & Hcurrent).
  assert (Hfresh : notification_manager.notification_key event type
                   ∉ notification_manager.shown_notifications
                       (notification_manager.notification_manager app1)).
  { rewrite Hcache. apply not_elem_of_empty. }
  destruct (check_notification_fire env event type app1 n Hfresh)
    as (shown & n1 & Hshow & Hfire).
  rewrite show_event_notification_run, Hcurrent in Hshow. cbv zeta in Hshow.
  injection Hshow as Hshown Hn1.
  eexists app1, _, _. split; [exact Hreset|]. split; [exact Hcache|].
  split; [exact Hcurrent|]. split; [exact Hfire|].
  rewrite <- Hshown. reflexivity.
Qed.
